(** * EV battery-swap station cloud simulation: a shallow embedding

    The three Python programs of the repository are embedded as Rocq
    functions:

    - [station_simulator.py]        -> module [StationSimulator]
    - [lambda_telemetry_handler.py] -> module [TelemetryHandler]
    - [lambda_api_handler.py]       -> module [ApiHandler]

    Python values are an inductive type, a Python [float] is an IEEE-754
    binary64 number ([spec_float] with [prec = 53], [emax = 1024]), raised
    exceptions are explicit results, and everything outside the repository
    (the random module, the clock, uuid4, DynamoDB, S3, the ISO-8601 parser)
    is either an oracle carried by the world or an interface with the
    contract its documentation gives. *)

From Stdlib Require Import ZArith String Ascii List Bool SpecFloat.
From stdpp Require Import base option list gmap strings pretty.

Set Warnings "-register-all".

Local Open Scope string_scope.
Local Open Scope Z_scope.

(* ===================================================================== *)
(** ** Python floats *)
(* ===================================================================== *)

Module PyFloat.

Definition float : Type := spec_float.

Definition prec : Z := 53.
Definition emax : Z := 1024.

(** The float nearest to an integer ([float(z)], also how an integral
    literal such as [15.0] is read). *)
Definition of_Z (z : Z) : float := binary_normalize prec emax z 0 false.

(** The float nearest to the decimal literal [n/d] (round to nearest even,
    as the Python parser does): [of_ratio 1 5] is the literal [0.2]. *)
Definition of_ratio (n d : Z) : float := SFdiv prec emax (of_Z n) (of_Z d).

#[global] Arguments of_Z : simpl never.
#[global] Arguments of_ratio : simpl never.

Definition add (x y : float) : float := SFadd prec emax x y.
Definition neg (x : float) : float := SFopp x.

(** [x < y], [x > y] and [x <= y] on floats: all false on a NaN. *)
Definition lt (x y : float) : bool := SFltb x y.
Definition gt (x y : float) : bool := SFltb y x.
Definition le (x y : float) : bool := SFleb x y.

(** The builtins [min(a, b)] and [max(a, b)]: the first argument is kept
    unless the second compares strictly below (above) it. *)
Definition min (a b : float) : float := if lt b a then b else a.
Definition max (a b : float) : float := if gt b a then b else a.

(** [lo <= x <= hi]. *)
Definition within (lo hi x : float) : Prop := le lo x = true /\ le x hi = true.

End PyFloat.

(* ===================================================================== *)
(** ** Python values, dictionaries, exceptions and text *)
(* ===================================================================== *)

Module Py.
Import PyFloat.

(** A [decimal.Decimal]: sign, coefficient and exponent, or a special:
    an infinity, a quiet NaN or a signalling NaN. *)
Inductive PyDecimal :=
| DecFinite (negative : bool) (coefficient : N) (exponent : Z)
| DecInf (negative : bool)
| DecNaN
| DecSNaN.

(** The values a decoded JSON message holds, [Decimal], which the
    DynamoDB client uses for numbers, and [bytes], which no JSON message
    holds but the type [Dict[str, Any]] of the handlers' arguments admits.
    A dictionary keeps its items in insertion order; its keys are strings
    and are distinct. Text is a sequence of 8-bit characters. *)
Inductive value :=
| VNone
| VBool (b : bool)
| VInt (z : Z)
| VFloat (f : float)
| VStr (s : string)
| VDecimal (d : PyDecimal)
| VList (l : list value)
| VDict (d : list (string * value))
| VBytes (b : string).

Definition dict : Type := list (string * value).

(** [d.get(key)] as an option, [key in d], [d.get(key, default)] and
    [d[key] = v]. *)
Fixpoint dict_get (key : string) (d : dict) : option value :=
  match d with
  | [] => None
  | (k, v) :: rest => if String.eqb k key then Some v else dict_get key rest
  end.

Definition dict_mem (key : string) (d : dict) : bool :=
  match dict_get key d with Some _ => true | None => false end.

Definition dict_get_default (key : string) (default : value) (d : dict)
  : value :=
  match dict_get key d with Some v => v | None => default end.

Fixpoint dict_set (key : string) (v : value) (d : dict) : dict :=
  match d with
  | [] => [(key, v)]
  | (k, x) :: rest =>
      if String.eqb k key then (k, v) :: rest
      else (k, x) :: dict_set key v rest
  end.

(** The classes of the exceptions the handlers can meet. *)
Inductive exn_class :=
| ValueError | AttributeError | TypeError | KeyError
| InvalidOperation | ParamValidationError | ClientError.

Record exn := mkExn { exn_class_of : exn_class; exn_message : string }.

Inductive result (A : Type) :=
| Ok (a : A)
| Raise (e : exn).
Arguments Ok {A}.
Arguments Raise {A}.

Definition res_bind {A B} (r : result A) (k : A -> result B) : result B :=
  match r with Ok a => k a | Raise e => Raise e end.

(** [d[key]]: raises [KeyError] on a missing key. *)
Definition dict_getitem (key : string) (d : dict) : result value :=
  match dict_get key d with
  | Some v => Ok v
  | None => Raise (mkExn KeyError key)
  end.

(** The text [json.dumps(v, indent=..., default=str)] returns, kept as the
    value it serialises: the handlers only build such texts and hand them
    on. *)
Inductive JsonText :=
| json_dumps (indent : option nat) (v : value).

(** Truth value of an object ([not x] is its negation). *)
Definition truthy (v : value) : bool :=
  match v with
  | VNone => false
  | VBool b => b
  | VInt z => negb (z =? 0)%Z
  | VFloat f => negb (SFeqb f (S754_zero false))
  | VStr s => negb (String.eqb s "")
  | VDecimal (DecFinite _ c _) => negb (c =? 0)%N
  | VDecimal _ => true
  | VList l => match l with [] => false | _ => true end
  | VDict d => match d with [] => false | _ => true end
  | VBytes b => negb (String.eqb b "")
  end.

(** Characters for which [str.isspace] holds (code points below 256). *)
Definition is_space (c : ascii) : bool :=
  let n := nat_of_ascii c in
  ((9 <=? n) && (n <=? 13) || (28 <=? n) && (n <=? 32)
   || (n =? 133) || (n =? 160))%nat.

Fixpoint lstrip (s : string) : string :=
  match s with
  | String c rest => if is_space c then lstrip rest else s
  | EmptyString => EmptyString
  end.

Fixpoint rstrip (s : string) : string :=
  match s with
  | String c rest =>
      match rstrip rest with
      | EmptyString => if is_space c then EmptyString else String c EmptyString
      | rest' => String c rest'
      end
  | EmptyString => EmptyString
  end.

(** [s.strip()]. *)
Definition strip (s : string) : string := rstrip (lstrip s).

(** [s.replace(old, new)] for a one-character [old]: every occurrence. *)
Fixpoint replace_char (old : ascii) (new : string) (s : string) : string :=
  match s with
  | String c rest =>
      if Ascii.eqb c old then new ++ replace_char old new rest
      else String c (replace_char old new rest)
  | EmptyString => EmptyString
  end.

(** [s[:n]]. *)
Definition prefix_slice (n : nat) (s : string) : string := substring 0 n s.

(** [str(z)] and [f"{z}"] for an int. *)
Definition str_int (z : Z) : string := pretty z.

(** [f"{z:02d}"]: zero-padded to a width of at least two. *)
Definition format_02d (z : Z) : string :=
  let s := str_int z in
  if (String.length s <? 2)%nat then "0" ++ s else s.

(** Lower-case hexadecimal digits. *)
Definition hex_char (d : N) : ascii :=
  match d with
  | 0 => "0" | 1 => "1" | 2 => "2" | 3 => "3" | 4 => "4" | 5 => "5"
  | 6 => "6" | 7 => "7" | 8 => "8" | 9 => "9" | 10 => "a" | 11 => "b"
  | 12 => "c" | 13 => "d" | 14 => "e" | _ => "f"
  end%char%N.


(** The last [width] hexadecimal digits of [n], most significant first. *)
Fixpoint hex_fixed (width : nat) (n : N) (acc : string) : string :=
  match width with
  | O => acc
  | S w => hex_fixed w (n / 16)%N (String (hex_char (n mod 16)%N) acc)
  end.

(** [uuid.UUID(int=n).hex]: 32 hexadecimal digits. *)
Definition uuid_hex (n : N) : string := hex_fixed 32 n "".


(** The fields of a [datetime] the handlers read. *)
Record datetime := mkDatetime {
  year : Z; month : Z; day : Z; hour : Z; minute : Z; second : Z
}.

(** What the [datetime] class guarantees of every object it builds. *)
Definition datetime_valid (d : datetime) : Prop :=
  1 <= year d <= 9999 /\ 1 <= month d <= 12 /\ 1 <= day d <= 31 /\
  0 <= hour d <= 23 /\ 0 <= minute d <= 59 /\ 0 <= second d <= 59.

(** The part of the [datetime] module the handlers call.
    [fromisoformat s] is [None] where [datetime.fromisoformat(s)] raises
    [ValueError]; which texts it accepts depends on the Python version.
    [strftime_Y y] is what the directive [%Y] prints for year [y]: four
    digits from year 1000 on, and with or without leading zeros below,
    depending on the platform's C library. *)
Class DatetimeModule := {
  fromisoformat : string -> option datetime;
  fromisoformat_valid : forall s d,
    fromisoformat s = Some d -> datetime_valid d;
  strftime_Y : Z -> string;
  strftime_Y_four_digits : forall y,
    1000 <= y <= 9999 -> strftime_Y y = str_int y
}.

(** The conversions between floats and decimals the handlers call:
    [Decimal(str(x))] for a float [x], and [float(d)] for a decimal.
    [float] raises on a signalling NaN; the handlers never pass it one,
    since the remainder they take first raises on it. *)
Class DecimalModule := {
  Decimal_of_float_str : float -> PyDecimal;
  float_of_Decimal : PyDecimal -> float
}.

(** [timestamp.strftime('%Y%m%d_%H%M%S')]. *)
Definition strftime_Ymd_HMS `{DatetimeModule} (d : datetime) : string :=
  strftime_Y (year d) ++ format_02d (month d) ++ format_02d (day d) ++ "_"
  ++ format_02d (hour d) ++ format_02d (minute d) ++ format_02d (second d).

End Py.

(* ===================================================================== *)
(** ** A state monad for code that reads the clock and the random module *)
(* ===================================================================== *)

Definition State (W A : Type) : Type := W -> A * W.

Definition st_ret {W A} (a : A) : State W A := fun w => (a, w).

Definition st_bind {W A B} (m : State W A) (k : A -> State W B) : State W B :=
  fun w => let '(a, w') := m w in k a w'.

Declare Scope state_scope.
Delimit Scope state_scope with state.
Notation "'let*' x ':=' m 'in' k" := (st_bind m (fun x => k))
  (at level 10, x pattern, m at level 200, k at level 200) : state_scope.

(* ===================================================================== *)
(** ** station_simulator.py *)
(* ===================================================================== *)

Module StationSimulator.
Import PyFloat.

(** The part of Python's [random] module the simulator calls, over a
    generator state [G], with the ranges the module documents:
    [randint(a, b)] returns an integer [N] with [a <= N <= b], and
    [uniform(a, b)] a float [N] with [a <= N <= b] (for [a <= b]). *)
Class RandomModule (G : Type) := {
  random_random : G -> float * G;
  random_uniform : float -> float -> G -> float * G;
  random_randint : Z -> Z -> G -> Z * G;
  randint_range : forall a b g,
    a <= b -> a <= fst (random_randint a b g) <= b;
  uniform_range : forall a b g,
    le a b = true -> within a b (fst (random_uniform a b g))
}.

(** What a station reads from outside: the generator and the wall clock.
    [utcnow_iso k] is the text [datetime.utcnow().isoformat()] gives at the
    [k]-th reading of the clock. *)
Record World (G : Type) := mkWorld {
  rng : G;
  utcnow_iso : nat -> string;
  clock_reads : nat
}.
Arguments mkWorld {G}.
Arguments rng {G}.
Arguments utcnow_iso {G}.
Arguments clock_reads {G}.

(** The attributes of one [BatterySwapStation] object. *)
Record BatterySwapStation := mkStation {
  station_id : string;
  battery_available : Z;
  battery_charging : Z;
  temperature : float;
  humidity : float;
  status : string;
  total_swaps_today : Z;
  last_swap_time : string
}.

Section WithRandom.
Context {G : Type} `{RandomModule G}.

Local Open Scope state_scope.

Definition random : State (World G) float := fun w =>
  let '(x, g) := random_random (rng w) in
  (x, mkWorld g (utcnow_iso w) (clock_reads w)).

Definition uniform (a b : float) : State (World G) float := fun w =>
  let '(x, g) := random_uniform a b (rng w) in
  (x, mkWorld g (utcnow_iso w) (clock_reads w)).

Definition randint (a b : Z) : State (World G) Z := fun w =>
  let '(n, g) := random_randint a b (rng w) in
  (n, mkWorld g (utcnow_iso w) (clock_reads w)).

(** [datetime.utcnow().isoformat() + "Z"]. *)
Definition utcnow_isoformat_Z : State (World G) string := fun w =>
  (utcnow_iso w (clock_reads w) ++ "Z",
   mkWorld (rng w) (utcnow_iso w) (S (clock_reads w))).

(** [BatterySwapStation.__init__]. *)
Definition init (sid : string) : State (World G) BatterySwapStation :=
  let* available := randint 8 15 in
  let* charging := randint 2 6 in
  let* temp := uniform (of_Z 20) (of_Z 30) in
  let* hum := uniform (of_Z 30) (of_Z 60) in
  let* swaps := randint 0 50 in
  let* now := utcnow_isoformat_Z in
  st_ret (mkStation sid available charging temp hum "operational" swaps now).

(** [simulate_battery_charging]: [and] short-circuits, so the generator is
    only asked when a battery is charging. *)
Definition simulate_battery_charging (self : BatterySwapStation)
  : State (World G) BatterySwapStation :=
  if (0 <? battery_charging self)%Z then
    let* r := random in
    if lt r (of_ratio 1 5) then
      st_ret (mkStation (station_id self)
                (battery_available self + 1) (battery_charging self - 1)
                (temperature self) (humidity self) (status self)
                (total_swaps_today self) (last_swap_time self))
    else st_ret self
  else st_ret self.

(** [simulate_battery_swap]. *)
Definition simulate_battery_swap (self : BatterySwapStation)
  : State (World G) BatterySwapStation :=
  if (0 <? battery_available self)%Z then
    let* r := random in
    if lt r (of_ratio 3 20) then
      let* now := utcnow_isoformat_Z in
      st_ret (mkStation (station_id self)
                (battery_available self - 1) (battery_charging self + 1)
                (temperature self) (humidity self) (status self)
                (total_swaps_today self + 1) now)
    else st_ret self
  else st_ret self.

(** [simulate_temperature_change]. *)
Definition simulate_temperature_change (self : BatterySwapStation)
  : State (World G) BatterySwapStation :=
  let* change := uniform (neg (of_ratio 1 2)) (of_ratio 1 2) in
  st_ret (mkStation (station_id self)
            (battery_available self) (battery_charging self)
            (max (of_Z 15) (min (of_Z 35) (add (temperature self) change)))
            (humidity self) (status self)
            (total_swaps_today self) (last_swap_time self)).

(** [simulate_humidity_change]. *)
Definition simulate_humidity_change (self : BatterySwapStation)
  : State (World G) BatterySwapStation :=
  let* change := uniform (neg (of_Z 2)) (of_Z 2) in
  st_ret (mkStation (station_id self)
            (battery_available self) (battery_charging self)
            (temperature self)
            (max (of_Z 20) (min (of_Z 80) (add (humidity self) change)))
            (status self)
            (total_swaps_today self) (last_swap_time self)).

Definition set_status (self : BatterySwapStation) (s : string)
  : BatterySwapStation :=
  mkStation (station_id self) (battery_available self) (battery_charging self)
    (temperature self) (humidity self) s
    (total_swaps_today self) (last_swap_time self).

(** [simulate_status_change]: the [elif] is only evaluated when the [if]
    condition as a whole is false, that is also when the station is
    operational and the draw was not below 0.01. *)
Definition simulate_status_change (self : BatterySwapStation)
  : State (World G) BatterySwapStation :=
  let maintenance_branch :=
    if String.eqb (status self) "maintenance" then
      let* r := random in
      if lt r (of_ratio 1 10) then st_ret (set_status self "operational")
      else st_ret self
    else st_ret self in
  if String.eqb (status self) "operational" then
    let* r := random in
    if lt r (of_ratio 1 100) then st_ret (set_status self "maintenance")
    else maintenance_branch
  else maintenance_branch.

(** [update]: one tick. *)
Definition update (self : BatterySwapStation)
  : State (World G) BatterySwapStation :=
  let* s1 := simulate_battery_charging self in
  let* s2 := simulate_battery_swap s1 in
  let* s3 := simulate_temperature_change s2 in
  let* s4 := simulate_humidity_change s3 in
  simulate_status_change s4.

(** [n] calls of [update] in a row. *)
Fixpoint ticks (n : nat) (self : BatterySwapStation)
  : State (World G) BatterySwapStation :=
  match n with
  | O => st_ret self
  | S n' => let* s := update self in ticks n' s
  end.

(** A station as it is after construction and [n] ticks. *)
Definition station_after (sid : string) (n : nat) (w : World G)
  : BatterySwapStation :=
  fst ((let* s := init sid in ticks n s) w).

End WithRandom.

End StationSimulator.

(* ===================================================================== *)
(** ** Code with effects that may raise *)
(* ===================================================================== *)

(** A computation over a world [W] returns or raises, and leaves a world
    behind in both cases: what was written before an exception stays
    written. *)
Definition Eff (W A : Type) : Type := W -> Py.result A * W.

Definition eff_ret {W A} (a : A) : Eff W A := fun w => (Py.Ok a, w).

Definition eff_raise {W A} (e : Py.exn) : Eff W A := fun w => (Py.Raise e, w).

Definition eff_bind {W A B} (m : Eff W A) (k : A -> Eff W B) : Eff W B :=
  fun w =>
    match m w with
    | (Py.Ok a, w') => k a w'
    | (Py.Raise e, w') => (Py.Raise e, w')
    end.

(** [try: m  except Exception as e: handler e]. *)
Definition eff_try {W A} (m : Eff W A) (handler : Py.exn -> Eff W A)
  : Eff W A :=
  fun w =>
    match m w with
    | (Py.Ok a, w') => (Py.Ok a, w')
    | (Py.Raise e, w') => handler e w'
    end.

(** A pure step that may raise, inside an effectful computation. *)
Definition eff_lift {W A} (r : Py.result A) : Eff W A := fun w => (r, w).

Declare Scope eff_scope.
Delimit Scope eff_scope with eff.
Notation "'let*' x ':=' m 'in' k" := (eff_bind m (fun x => k))
  (at level 10, x pattern, m at level 200, k at level 200) : eff_scope.

(* ===================================================================== *)
(** ** lambda_telemetry_handler.py *)
(* ===================================================================== *)

Module TelemetryHandler.
Import PyFloat Py.

(** An object of the bucket: what [put_object] was given. *)
Record S3Object := mkS3Object {
  obj_body : JsonText;
  obj_content_type : string;
  obj_metadata : list (string * string)
}.

(** A request sent to one of the two stores. *)
Inductive StoreCall :=
| CallPutItem (item : dict)
| CallPutObject (key : string) (obj : S3Object).

(** What the handler meets outside and cannot control. The [k]-th reading
    of the clock gives [utcnow_iso k] (the text of
    [datetime.utcnow().isoformat()]), the [k]-th [uuid.uuid4()] has the
    integer value [uuid4_int k], and the [k]-th [put_item] ([put_object])
    request fails with [e] when [dynamodb_fault k] ([s3_fault k]) is
    [Some e]. *)
Record Env := mkEnv {
  utcnow_iso : nat -> string;
  uuid4_int : nat -> N;
  dynamodb_fault : nat -> option exn;
  s3_fault : nat -> option exn
}.

(** The two stores and the bookkeeping of the oracles: the table holds one
    item per [station_id] (its partition key, as the query handler's
    [get_item(Key={'station_id': ...})] shows), the bucket one object per
    key, and [calls] lists every request sent, oldest first. *)
Record World := mkWorld {
  table : gmap string dict;
  bucket : gmap string S3Object;
  calls : list StoreCall;
  clock_reads : nat;
  uuid_draws : nat;
  dynamodb_calls : nat;
  s3_calls : nat
}.

(** The response dictionary [{'statusCode': ..., 'body': ...}]. *)
Record Response := mkResponse {
  statusCode : Z;
  body : JsonText
}.

Definition required_fields : list string :=
  ["station_id"; "battery_available"; "timestamp"].

Definition isinstance_str (v : value) : bool :=
  match v with VStr _ => true | _ => false end.

(** [isinstance(v, (int, float))]: [bool] is a subclass of [int]. *)
Definition isinstance_int_float (v : value) : bool :=
  match v with VInt _ | VBool _ | VFloat _ => true | _ => false end.

(** [v < 0] for a [v] that is an int, a bool or a float. *)
Definition lt_zero (v : value) : bool :=
  match v with
  | VInt z => (z <? 0)%Z
  | VFloat f => lt f (S754_zero false)
  | _ => false
  end.

(** [v.strip()], only ever called on a [str]: the [or] before it has
    answered for every other value. *)
Definition strip_method (v : value) : value :=
  match v with VStr s => VStr (strip s) | other => other end.

(** [v.replace('Z', '+00:00')]: a [str] has the method; so has [bytes],
    whose [replace] refuses the two [str] arguments; nothing else has. *)
Definition replace_Z (v : value) : result string :=
  match v with
  | VStr s => Ok (replace_char "Z" "+00:00" s)
  | VBytes _ =>
      Raise (mkExn TypeError "a bytes-like object is required, not 'str'")
  | _ => Raise (mkExn AttributeError "object has no attribute 'replace'")
  end.

Section WithLibraries.
Context `{DatetimeModule} `{DecimalModule}.

(** [datetime.fromisoformat(data['timestamp'].replace('Z', '+00:00'))]. *)
Definition parse_timestamp (data : dict) : result datetime :=
  res_bind (dict_getitem "timestamp" data) (fun ts =>
  res_bind (replace_Z ts) (fun text =>
  match fromisoformat text with
  | Some d => Ok d
  | None => Raise (mkExn ValueError "Invalid isoformat string")
  end)).

(** [validate_telemetry]: the pair [(is_valid, error_message)]. *)
Definition validate_telemetry (data : dict) : result (bool * option string) :=
  match List.find (fun field => negb (dict_mem field data)) required_fields with
  | Some field => Ok (false, Some ("Missing required field: " ++ field))
  | None =>
    let station_id := dict_get_default "station_id" VNone data in
    if negb (isinstance_str station_id)
       || negb (truthy (strip_method station_id))
    then Ok (false, Some "station_id must be a non-empty string")
    else
      let battery_available :=
        dict_get_default "battery_available" VNone data in
      if negb (isinstance_int_float battery_available)
         || lt_zero battery_available
      then Ok (false, Some "battery_available must be a non-negative number")
      else
        match parse_timestamp data with
        | Ok _ => Ok (true, None)
        | Raise e =>
            match exn_class_of e with
            | ValueError | AttributeError =>
                Ok (false, Some "timestamp must be valid ISO-8601 format")
            | _ => Raise e
            end
        end
  end.

(** One step of the loop of [convert_floats_to_decimal], on one value:
    a float becomes a decimal, a nested dictionary is converted in turn,
    the floats that are items of a list are converted (and nothing below
    them), anything else is kept. The keys of a dictionary are distinct, so
    assigning [converted[key]] item by item builds the same keys in the
    same order. *)
Fixpoint convert_value (v : value) : value :=
  match v with
  | VFloat f => VDecimal (Decimal_of_float_str f)
  | VDict d =>
      VDict (List.map (fun kv : string * value =>
                         (fst kv, convert_value (snd kv))) d)
  | VList l =>
      VList (List.map (fun item =>
                         match item with
                         | VFloat f => VDecimal (Decimal_of_float_str f)
                         | _ => item
                         end) l)
  | _ => v
  end.

Definition convert_floats_to_decimal (data : dict) : dict :=
  List.map (fun kv : string * value => (fst kv, convert_value (snd kv))) data.

Variable env : Env.

Local Open Scope eff_scope.

(** [datetime.utcnow().isoformat()]. *)
Definition utcnow_isoformat : Eff World string := fun w =>
  (Ok (utcnow_iso env (clock_reads w)),
   mkWorld (table w) (bucket w) (calls w) (S (clock_reads w)) (uuid_draws w)
     (dynamodb_calls w) (s3_calls w)).

(** [uuid.uuid4().hex]. *)
Definition uuid4_hex : Eff World string := fun w =>
  (Ok (uuid_hex (uuid4_int env (uuid_draws w))),
   mkWorld (table w) (bucket w) (calls w) (clock_reads w) (S (uuid_draws w))
     (dynamodb_calls w) (s3_calls w)).

(** [table.put_item(Item=item)]: the request is sent; it fails when the
    environment says so or when the item has no string under the key
    attribute; otherwise the item replaces whatever the table held under
    that key. *)
Definition put_item (item : dict) : Eff World unit := fun w =>
  let sent tbl :=
    mkWorld tbl (bucket w) (calls w ++ [CallPutItem item]) (clock_reads w)
      (uuid_draws w) (S (dynamodb_calls w)) (s3_calls w) in
  match dynamodb_fault env (dynamodb_calls w) with
  | Some e => (Raise e, sent (table w))
  | None =>
      match dict_get "station_id" item with
      | Some (VStr key) => (Ok tt, sent (<[key := item]> (table w)))
      | _ => (Raise (mkExn ClientError "ValidationException"), sent (table w))
      end
  end.

(** [s3_client.put_object(Bucket=..., Key=key, Body=..., ...)]. *)
Definition put_object (key : string) (obj : S3Object) : Eff World unit :=
  fun w =>
  let sent bkt :=
    mkWorld (table w) bkt (calls w ++ [CallPutObject key obj]) (clock_reads w)
      (uuid_draws w) (dynamodb_calls w) (S (s3_calls w)) in
  match s3_fault env (s3_calls w) with
  | Some e => (Raise e, sent (bucket w))
  | None => (Ok tt, sent (<[key := obj]> (bucket w)))
  end.

(** The body of the [try] of [store_in_dynamodb]. The last step is the
    [data['station_id']] of the log line. *)
Definition store_in_dynamodb_try (data : dict) : Eff World bool :=
  let data_to_store := convert_floats_to_decimal data in
  let* now := utcnow_isoformat in
  let data_to_store :=
    dict_set "lambda_processed_at" (VStr now) data_to_store in
  let* _ := put_item data_to_store in
  let* _ := eff_lift (dict_getitem "station_id" data) in
  eff_ret true.

(** [store_in_dynamodb]: any exception is logged and answered by [False]. *)
Definition store_in_dynamodb (data : dict) : Eff World bool :=
  eff_try (store_in_dynamodb_try data) (fun _ => eff_ret false).

(** The object key of [archive_to_s3]. *)
Definition s3_key_of (station_id : string) (timestamp : datetime)
  (uuid_hex32 : string) : string :=
  "telemetry/"
  ++ "year=" ++ str_int (year timestamp) ++ "/"
  ++ "month=" ++ format_02d (month timestamp) ++ "/"
  ++ "day=" ++ format_02d (day timestamp) ++ "/"
  ++ station_id ++ "_" ++ strftime_Ymd_HMS timestamp ++ "_"
  ++ prefix_slice 8 uuid_hex32 ++ ".json".

(** The body of the [try] of [archive_to_s3]. A [station_id] that is not a
    string cannot be used as a [Metadata] value: the client refuses the
    parameters before it sends anything, so the text of the key is then
    never used. *)
Definition archive_to_s3_try (data : dict) : Eff World bool :=
  let* timestamp := eff_lift (parse_timestamp data) in
  let* station_id := eff_lift (dict_getitem "station_id" data) in
  let* hex := uuid4_hex in
  let json_data := json_dumps (Some 2%nat) (VDict data) in
  let* now := utcnow_isoformat in
  match station_id with
  | VStr sid =>
      let* _ :=
        put_object (s3_key_of sid timestamp hex)
          (mkS3Object json_data "application/json"
             [("station_id", sid); ("ingestion_time", now)]) in
      eff_ret true
  | _ => eff_raise (mkExn ParamValidationError "Metadata.station_id")
  end.

(** [archive_to_s3]: any exception is logged and answered by [False]. *)
Definition archive_to_s3 (data : dict) : Eff World bool :=
  eff_try (archive_to_s3_try data) (fun _ => eff_ret false).

Definition option_str (o : option string) : value :=
  match o with Some s => VStr s | None => VNone end.

(** The body of the [try] of [lambda_handler]. *)
Definition lambda_handler_try (event : dict) : Eff World Response :=
  let* verdict := eff_lift (validate_telemetry event) in
  let '(is_valid, error_message) := verdict in
  if negb is_valid then
    eff_ret (mkResponse 400
      (json_dumps None (VDict [("error", VStr "Validation failed");
                               ("message", option_str error_message)])))
  else
    let* station_id := eff_lift (dict_getitem "station_id" event) in
    let* dynamodb_success := store_in_dynamodb event in
    let* s3_success := archive_to_s3 event in
    let '(status_code, message) :=
      if dynamodb_success && s3_success then
        (200, "Telemetry processed successfully")
      else if dynamodb_success || s3_success then
        (207, "Telemetry partially processed")
      else (500, "Failed to process telemetry") in
    let* now := utcnow_isoformat in
    eff_ret (mkResponse status_code
      (json_dumps None (VDict [("message", VStr message);
                               ("station_id", station_id);
                               ("dynamodb_success", VBool dynamodb_success);
                               ("s3_success", VBool s3_success);
                               ("timestamp", VStr now)]))).

(** [lambda_handler(event, context)]; [context] is only read for the log. *)
Definition lambda_handler (event : dict) : Eff World Response :=
  eff_try (lambda_handler_try event) (fun e =>
    eff_ret (mkResponse 500
      (json_dumps None (VDict [("error", VStr "Internal server error");
                               ("message", VStr (exn_message e))])))).

End WithLibraries.

End TelemetryHandler.

(* ===================================================================== *)
(** ** lambda_api_handler.py: the single-station lookup *)
(* ===================================================================== *)

Module ApiHandler.
Import PyFloat Py.

(** The [k]-th [get_item] request fails with [e] when
    [dynamodb_read_fault k] is [Some e]. *)
Record Env := mkEnv {
  dynamodb_read_fault : nat -> option exn
}.

Record World := mkWorld {
  table : gmap string dict;
  reads : nat
}.

(** The [pathParameters] of an API Gateway event: the key may be missing,
    hold [null], or hold a map from parameter names to strings. *)
Inductive PathParameters :=
| PathParamsMissing
| PathParamsNull
| PathParamsMap (m : list (string * string)).

(** The fields of the event the handlers read. *)
Record Event := mkEvent {
  httpMethod : string;
  path : string;
  pathParameters : PathParameters
}.

(** The response [{'statusCode': ..., 'headers': ..., 'body': ...}]. *)
Record Response := mkResponse {
  statusCode : Z;
  headers : list (string * string);
  body : JsonText
}.

Definition pow10 (n : Z) : N := (10 ^ Z.to_N n)%N.

(** The default context of the [decimal] module, in which the handler
    takes the remainder: 28 significant digits, and exponents down to
    [Etiny = Emin - prec + 1] with [Emin = -999999]. *)
Definition decimal_prec : Z := 28.
Definition decimal_Etiny : Z := -1000026.

(** [d % 1 == 0] for a decimal. The remainder is an invalid operation on
    an infinity and on a signalling NaN, and a division impossible (an
    invalid operation too) when the integer quotient has more than
    [decimal_prec] digits; both are raised. The remainder of a quiet NaN is
    that NaN, equal to nothing. Otherwise the remainder is the fractional
    part [r * 10^e], rounded to the context: it is zero when [r] is, and
    when it underflows to zero (half of [10^Etiny] or less, ties going to
    the even neighbour). *)
Definition decimal_is_integral (d : PyDecimal) : result bool :=
  match d with
  | DecFinite _ c e =>
      let quotient :=
        if (0 <=? e)%Z then (c * pow10 e)%N else (c / pow10 (- e))%N in
      if (pow10 decimal_prec <=? quotient)%N then
        Raise (mkExn InvalidOperation "quotient too large in //, % or divmod")
      else if (0 <=? e)%Z then Ok true
      else
        let r := (c mod pow10 (- e))%N in
        Ok ((r =? 0)%N || (2 * r <=? pow10 (decimal_Etiny - e))%N)
  | DecInf _ => Raise (mkExn InvalidOperation "INF % x")
  | DecNaN => Ok false
  | DecSNaN => Raise (mkExn InvalidOperation "sNaN")
  end.

(** [int(d)] for a finite decimal: truncation towards zero. *)
Definition int_of_decimal (neg : bool) (c : N) (e : Z) : Z :=
  let magnitude :=
    if (0 <=? e)%Z then (c * pow10 e)%N else (c / pow10 (- e))%N in
  if neg then (- Z.of_N magnitude)%Z else Z.of_N magnitude.

Section WithLibraries.
Context `{DecimalModule}.

Definition convert_decimal (d : PyDecimal) : result value :=
  res_bind (decimal_is_integral d) (fun integral =>
  match integral, d with
  | true, DecFinite neg c e => Ok (VInt (int_of_decimal neg c e))
  | _, _ => Ok (VFloat (float_of_Decimal d))
  end).

(** [decimal_to_float]. *)
Fixpoint decimal_to_float (obj : value) : result value :=
  match obj with
  | VDecimal d => convert_decimal d
  | VDict d =>
      res_bind
        ((fix items (d : list (string * value)) : result dict :=
            match d with
            | [] => Ok []
            | (key, v) :: rest =>
                res_bind (decimal_to_float v) (fun v' =>
                res_bind (items rest) (fun rest' => Ok ((key, v') :: rest')))
            end) d)
        (fun d' => Ok (VDict d'))
  | VList l =>
      res_bind
        ((fix items (l : list value) : result (list value) :=
            match l with
            | [] => Ok []
            | item :: rest =>
                res_bind (decimal_to_float item) (fun item' =>
                res_bind (items rest) (fun rest' => Ok (item' :: rest')))
            end) l)
        (fun l' => Ok (VList l'))
  | _ => Ok obj
  end.

(** [create_response(status_code, body)]; no caller passes [headers]. *)
Definition create_response (status_code : Z) (body : value) : Response :=
  mkResponse status_code
    [("Content-Type", "application/json");
     ("Access-Control-Allow-Origin", "*");
     ("Access-Control-Allow-Methods", "GET, OPTIONS");
     ("Access-Control-Allow-Headers", "Content-Type")]
    (json_dumps None body).

Variable env : Env.

Local Open Scope eff_scope.

(** [table.get_item(Key={'station_id': station_id})]: the item stored under
    the key, if any (the answer has an ['Item'] exactly then). *)
Definition get_item (station_id : string) : Eff World (option dict) :=
  fun w =>
  let w' := mkWorld (table w) (S (reads w)) in
  match dynamodb_read_fault env (reads w) with
  | Some e => (Raise e, w')
  | None => (Ok (table w !! station_id), w')
  end.

(** [get_station_by_id]: the station, or [None] when the table has none;
    an exception is logged and raised again. *)
Definition get_station_by_id (station_id : string) : Eff World value :=
  eff_try
    (let* response := get_item station_id in
     match response with
     | None => eff_ret VNone
     | Some item => eff_lift (decimal_to_float (VDict item))
     end)
    (fun e => eff_raise e).

(** [event.get('pathParameters', {}).get('station_id')]: [None] has no
    [get]. *)
Definition path_station_id (event : Event) : result (option string) :=
  match pathParameters event with
  | PathParamsMissing => Ok None
  | PathParamsNull =>
      Raise (mkExn AttributeError "'NoneType' object has no attribute 'get'")
  | PathParamsMap m =>
      Ok (snd <$> List.find (fun kv => String.eqb (fst kv) "station_id") m)
  end.

(** [handle_get_station_by_id]. *)
Definition handle_get_station_by_id (event : Event) : Eff World Response :=
  eff_try
    (let* station_id := eff_lift (path_station_id event) in
     match station_id with
     | None | Some "" =>
         eff_ret (create_response 400
           (VDict [("error", VStr "Bad request");
                   ("message", VStr "station_id is required")]))
     | Some station_id =>
         let* station := get_station_by_id station_id in
         match station with
         | VNone =>
             eff_ret (create_response 404
               (VDict [("error", VStr "Not found");
                       ("message",
                        VStr ("Station " ++ station_id ++ " not found"))]))
         | _ =>
             eff_ret (create_response 200 (VDict [("station", station)]))
         end
     end)
    (fun _ =>
       eff_ret (create_response 500
         (VDict [("error", VStr "Internal server error");
                 ("message", VStr "Failed to retrieve station")]))).

End WithLibraries.

End ApiHandler.

(* ===================================================================== *)
(** ** lambda_api_handler.py: the list of stations and the routing *)
(* ===================================================================== *)

Module ApiRouting.
Import PyFloat Py ApiHandler.

(** What the query handler meets outside: whether a read request fails
    (scans are counted with the [get_item] requests), and the pages in
    which the store delivers a full scan of a table. The store decides the
    split; a page may be empty. *)
Record ScanEnv := mkScanEnv {
  read_env : Env;
  scan_pages : gmap string dict -> list (list dict)
}.

(** The headers every response carries. *)
Definition default_headers : list (string * string) :=
  [("Content-Type", "application/json");
   ("Access-Control-Allow-Origin", "*");
   ("Access-Control-Allow-Methods", "GET, OPTIONS");
   ("Access-Control-Allow-Headers", "Content-Type")].

Section WithLibraries.
Context `{DecimalModule}.
Variable env : ScanEnv.

Local Open Scope eff_scope.

(** One [table.scan(...)] request, answered with the page [page]. *)
Definition scan_request (page : list dict) : Eff World (list dict) :=
  fun w =>
  let w' := mkWorld (table w) (S (reads w)) in
  match dynamodb_read_fault (read_env env) (reads w) with
  | Some e => (Raise e, w')
  | None => (Ok page, w')
  end.

(** The [while 'LastEvaluatedKey' in response] loop: [pages] are the pages
    the store has still to deliver, so the last response had a
    [LastEvaluatedKey] exactly when [pages] is not empty; each turn asks
    for the next page and extends [items] with it. *)
Fixpoint scan_remaining (pages : list (list dict)) (items : list dict)
  : Eff World (list dict) :=
  match pages with
  | [] => eff_ret items
  | page :: rest =>
      let* got := scan_request page in
      scan_remaining rest (items ++ got)
  end.

(** [[decimal_to_float(item) for item in items]]. *)
Fixpoint convert_items (items : list dict) : result (list value) :=
  match items with
  | [] => Ok []
  | item :: rest =>
      res_bind (decimal_to_float (VDict item)) (fun item' =>
      res_bind (convert_items rest) (fun rest' => Ok (item' :: rest')))
  end.

(** [get_all_stations]: an exception is logged and raised again. *)
Definition get_all_stations : Eff World (list value) :=
  eff_try
    (fun w =>
       let pages := scan_pages env (table w) in
       (let* items := scan_request (hd [] pages) in
        let* items := scan_remaining (tl pages) items in
        eff_lift (convert_items items)) w)
    (fun e => eff_raise e).

(** [handle_get_stations]. *)
Definition handle_get_stations (event : Event) : Eff World Response :=
  eff_try
    (let* stations := get_all_stations in
     eff_ret (create_response 200
       (VDict [("count", VInt (Z.of_nat (List.length stations)));
               ("stations", VList stations)])))
    (fun _ =>
       eff_ret (create_response 500
         (VDict [("error", VStr "Internal server error");
                 ("message", VStr "Failed to retrieve stations")]))).

(** [handle_options]. *)
Definition handle_options (event : Event) : Response :=
  create_response 200 (VDict [("message", VStr "CORS preflight response")]).

(** [lambda_handler(event, context)]; [context] is only read by the log
    line before the [try], which is taken to find the attribute it reads. *)
Definition lambda_handler (event : Event) : Eff World Response :=
  eff_try
    (let http_method := httpMethod event in
     let path := path event in
     if String.eqb http_method "OPTIONS" then eff_ret (handle_options event)
     else if String.eqb http_method "GET" then
       if String.eqb path "/stations" then handle_get_stations event
       else if String.prefix "/stations/" path then
         handle_get_station_by_id (read_env env) event
       else
         eff_ret (create_response 404
           (VDict [("error", VStr "Not found");
                   ("message", VStr ("Path " ++ path ++ " not found"))]))
     else
       eff_ret (create_response 405
         (VDict [("error", VStr "Method not allowed");
                 ("message",
                  VStr ("Method " ++ http_method ++ " not supported"))])))
    (fun _ =>
       eff_ret (create_response 500
         (VDict [("error", VStr "Internal server error");
                 ("message", VStr "An unexpected error occurred")]))).

End WithLibraries.

End ApiRouting.

(* ===================================================================== *)
(** ** station_simulator.py: the telemetry message and the publishing loop *)
(* ===================================================================== *)

Module TelemetryPublisher.
Import PyFloat Py StationSimulator.

(** [round(x, 1)] on a float. *)
Class RoundModule := {
  round_1 : float -> float
}.

(** The dataclass [StationState]. *)
Record StationState := mkStationState {
  state_station_id : string;
  state_battery_available : Z;
  state_battery_charging : Z;
  state_temperature : float;
  state_humidity : float;
  state_status : string;
  state_total_swaps_today : Z;
  state_last_swap_time : string
}.

(** [StationState.to_dict]: the fields in the order of their declaration. *)
Definition to_dict (t : StationState) : dict :=
  [("station_id", VStr (state_station_id t));
   ("battery_available", VInt (state_battery_available t));
   ("battery_charging", VInt (state_battery_charging t));
   ("temperature", VFloat (state_temperature t));
   ("humidity", VFloat (state_humidity t));
   ("status", VStr (state_status t));
   ("total_swaps_today", VInt (state_total_swaps_today t));
   ("last_swap_time", VStr (state_last_swap_time t))].

Definition TOPIC_PREFIX : string := "ev/station".

(** Whether the [k]-th publish request fails, and with what. *)
Record MqttEnv := mkMqttEnv {
  publish_fault : nat -> option exn
}.

(** The world of the publishing loop: that of the stations, every publish
    request made (topic and payload, oldest first) and those of them the
    broker acknowledged. *)
Record IoTWorld (G : Type) := mkIoTWorld {
  station_world : World G;
  publish_requests : list (string * JsonText);
  acknowledged : list (string * JsonText)
}.
Arguments mkIoTWorld {G}.
Arguments station_world {G}.
Arguments publish_requests {G}.
Arguments acknowledged {G}.

Section WithRandom.
Context {G : Type} `{RandomModule G} `{RoundModule}.
Variable mqtt : MqttEnv.

(** [BatterySwapStation.get_telemetry]. *)
Definition get_telemetry (self : BatterySwapStation) : StationState :=
  mkStationState (station_id self) (battery_available self)
    (battery_charging self) (round_1 (temperature self))
    (round_1 (humidity self)) (status self) (total_swaps_today self)
    (last_swap_time self).

(** The dictionary [publish_telemetry] serialises, stamped [now]. *)
Definition telemetry_dict (station : BatterySwapStation) (now : string)
  : dict :=
  dict_set "timestamp" (VStr now) (to_dict (get_telemetry station)).

(** A step of the stations' own code, inside the publishing loop. *)
Definition lift_station {A} (m : State (World G) A) : Eff (IoTWorld G) A :=
  fun w =>
    let '(a, sw) := m (station_world w) in
    (Ok a, mkIoTWorld sw (publish_requests w) (acknowledged w)).

(** [mqtt_connection.publish(...)] and the wait for its result. *)
Definition mqtt_publish (topic : string) (payload : JsonText)
  : Eff (IoTWorld G) unit :=
  fun w =>
    let requests := (publish_requests w ++ [(topic, payload)])%list in
    match publish_fault mqtt (List.length (publish_requests w)) with
    | Some e => (Raise e, mkIoTWorld (station_world w) requests (acknowledged w))
    | None =>
        (Ok tt, mkIoTWorld (station_world w) requests
                  (acknowledged w ++ [(topic, payload)])%list)
    end.

Local Open Scope eff_scope.

(** [IoTSimulator.publish_telemetry]: an exception is logged and dropped. *)
Definition publish_telemetry (station : BatterySwapStation)
  : Eff (IoTWorld G) unit :=
  eff_try
    (let* now := lift_station utcnow_isoformat_Z in
     let payload := json_dumps None (VDict (telemetry_dict station now)) in
     let topic :=
       TOPIC_PREFIX ++ "/" ++ station_id station ++ "/telemetry" in
     mqtt_publish topic payload)
    (fun _ => eff_ret tt).

(** One pass of [for station in self.stations]: each station is updated,
    then published. *)
Fixpoint run_stations (stations : list BatterySwapStation)
  : Eff (IoTWorld G) (list BatterySwapStation) :=
  match stations with
  | [] => eff_ret []
  | station :: rest =>
      let* station' := lift_station (update station) in
      let* _ := publish_telemetry station' in
      let* rest' := run_stations rest in
      eff_ret (station' :: rest')
  end.

(** [n] turns of the [while True] loop of [run]. *)
Fixpoint run_cycles (n : nat) (stations : list BatterySwapStation)
  : Eff (IoTWorld G) (list BatterySwapStation) :=
  match n with
  | O => eff_ret stations
  | S n' =>
      let* stations' := run_stations stations in
      run_cycles n' stations'
  end.

Local Open Scope state_scope.

(** The loop of [IoTSimulator.__init__] over [range(1, num_stations + 1)]. *)
Fixpoint create_stations (indices : list nat)
  : State (World G) (list BatterySwapStation) :=
  match indices with
  | [] => st_ret []
  | i :: rest =>
      let* station := init ("station-" ++ format_02d (Z.of_nat i)) in
      let* stations := create_stations rest in
      st_ret (station :: stations)
  end.

(** The stations [IoTSimulator(num_stations, interval)] creates. *)
Definition iot_stations (num_stations : Z)
  : State (World G) (list BatterySwapStation) :=
  create_stations (seq 1 (Z.to_nat num_stations)).

End WithRandom.

End TelemetryPublisher.

(* ===================================================================== *)
(** * Properties *)
(* ===================================================================== *)

(* ===================================================================== *)
(** ** Floats: order and clamping *)
(* ===================================================================== *)

Module PyFloatFacts.
Import PyFloat.

Lemma SFcompare_refl (x : float) :
  x <> S754_nan -> SFcompare x x = Some Eq.
Proof.
  destruct x as [s|s| |s m e]; simpl; intros Hx; try congruence.
  - destruct s; reflexivity.
  - rewrite Z.compare_refl, Pos.compare_cont_refl.
    destruct s; reflexivity.
Qed.

Lemma le_not_nan (a b : float) :
  le a b = true -> a <> S754_nan /\ b <> S754_nan.
Proof.
  unfold le, SFleb. intros Hab.
  split; intros E; rewrite E in Hab; simpl in Hab.
  - discriminate.
  - destruct a; discriminate.
Qed.

(** The order of [SFcompare] is transitive on all floats. *)
Lemma le_trans (a b c : float) :
  le a b = true -> le b c = true -> le a c = true.
Proof.
  unfold le, SFleb.
  destruct a as [sa|sa| |sa ma ea], b as [sb|sb| |sb mb eb],
           c as [sc|sc| |sc mc ec]; simpl;
    try discriminate; try reflexivity;
    repeat match goal with s : bool |- _ => destruct s end; simpl;
    try discriminate; try reflexivity;
    change (Pos.compare_cont Eq ma mb) with (Pos.compare ma mb);
    change (Pos.compare_cont Eq mb mc) with (Pos.compare mb mc);
    change (Pos.compare_cont Eq ma mc) with (Pos.compare ma mc);
    destruct (Z.compare_spec ea eb), (Z.compare_spec eb ec),
             (Z.compare_spec ea ec);
    simpl; try discriminate; try reflexivity; try lia; subst;
    destruct (Pos.compare_spec ma mb), (Pos.compare_spec mb mc),
             (Pos.compare_spec ma mc);
    simpl; try discriminate; try reflexivity; lia.
Qed.

Lemma le_refl_of_le_l (a b : float) : le a b = true -> le a a = true.
Proof.
  intros Hab. apply le_not_nan in Hab as [Ha _].
  unfold le, SFleb. rewrite SFcompare_refl; auto.
Qed.

Lemma le_refl_of_le_r (a b : float) : le a b = true -> le b b = true.
Proof.
  intros Hab. apply le_not_nan in Hab as [_ Hb].
  unfold le, SFleb. rewrite SFcompare_refl; auto.
Qed.

Lemma lt_le (a b : float) : lt a b = true -> le a b = true.
Proof.
  unfold lt, le, SFltb, SFleb.
  destruct (SFcompare a b) as [[| |]|]; congruence.
Qed.

(** [max(lo, min(hi, x))] lies in [[lo, hi]] whatever [x] is, a NaN or an
    infinity included. *)
Lemma clamp_within (lo hi x : float) :
  le lo hi = true -> within lo hi (max lo (min hi x)).
Proof.
  intros Hlh. unfold within, max, min, gt.
  pose proof (le_refl_of_le_l _ _ Hlh) as Hlo.
  pose proof (le_refl_of_le_r _ _ Hlh) as Hhi.
  destruct (lt x hi) eqn:Hx.
  - fold (lt lo x). destruct (lt lo x) eqn:Hl; split; auto using lt_le.
  - fold (lt lo hi). destruct (lt lo hi) eqn:Hl; split; auto.
Qed.

Lemma within_weaken (lo hi lo' hi' x : float) :
  le lo' lo = true -> le hi hi' = true ->
  within lo hi x -> within lo' hi' x.
Proof.
  intros Hlo Hhi [H1 H2]. split; eauto using le_trans.
Qed.

End PyFloatFacts.

(* ===================================================================== *)
(** ** The station simulator *)
(* ===================================================================== *)

Module StationSimulatorFacts.
Import PyFloat PyFloatFacts StationSimulator.

(** The sum the rules of a tick keep, and the bounds they keep. *)
Definition battery_total (s : BatterySwapStation) : Z :=
  battery_available s + battery_charging s.

Definition in_bounds (s : BatterySwapStation) : Prop :=
  0 <= battery_available s /\ 0 <= battery_charging s /\
  within (of_Z 15) (of_Z 35) (temperature s) /\
  within (of_Z 20) (of_Z 80) (humidity s).

Section WithRandom.
Context {G : Type} `{RandomModule G}.

(** Each rule of a tick, on the two battery counts. *)
Lemma charging_moves_one (self : BatterySwapStation) (w : World G) :
  let s := fst (simulate_battery_charging self w) in
  (battery_available s = battery_available self /\
   battery_charging s = battery_charging self) \/
  (0 < battery_charging self /\
   battery_available s = battery_available self + 1 /\
   battery_charging s = battery_charging self - 1).
Proof.
  unfold simulate_battery_charging, st_bind, random, st_ret.
  destruct (0 <? battery_charging self) eqn:Hpos; simpl; [|auto].
  apply Z.ltb_lt in Hpos.
  destruct (random_random (rng w)) as [r g].
  destruct (lt r (of_ratio 1 5)); simpl; auto.
Qed.

Lemma swap_moves_one (self : BatterySwapStation) (w : World G) :
  let s := fst (simulate_battery_swap self w) in
  (battery_available s = battery_available self /\
   battery_charging s = battery_charging self) \/
  (0 < battery_available self /\
   battery_available s = battery_available self - 1 /\
   battery_charging s = battery_charging self + 1).
Proof.
  unfold simulate_battery_swap, st_bind, random, utcnow_isoformat_Z, st_ret.
  destruct (0 <? battery_available self) eqn:Hpos; simpl; [|auto].
  apply Z.ltb_lt in Hpos.
  destruct (random_random (rng w)) as [r g].
  destruct (lt r (of_ratio 3 20)); simpl; auto.
Qed.

Lemma temperature_keeps_counts (self : BatterySwapStation) (w : World G) :
  let s := fst (simulate_temperature_change self w) in
  battery_available s = battery_available self /\
  battery_charging s = battery_charging self /\
  humidity s = humidity self /\
  within (of_Z 15) (of_Z 35) (temperature s).
Proof.
  unfold simulate_temperature_change, st_bind, uniform, st_ret.
  destruct (random_uniform _ _ (rng w)) as [change g]; simpl.
  repeat split; try reflexivity; apply clamp_within; reflexivity.
Qed.

Lemma humidity_keeps_counts (self : BatterySwapStation) (w : World G) :
  let s := fst (simulate_humidity_change self w) in
  battery_available s = battery_available self /\
  battery_charging s = battery_charging self /\
  temperature s = temperature self /\
  within (of_Z 20) (of_Z 80) (humidity s).
Proof.
  unfold simulate_humidity_change, st_bind, uniform, st_ret.
  destruct (random_uniform _ _ (rng w)) as [change g]; simpl.
  repeat split; try reflexivity; apply clamp_within; reflexivity.
Qed.

Lemma status_keeps_readings (self : BatterySwapStation) (w : World G) :
  let s := fst (simulate_status_change self w) in
  battery_available s = battery_available self /\
  battery_charging s = battery_charging self /\
  temperature s = temperature self /\
  humidity s = humidity self.
Proof.
  unfold simulate_status_change, st_bind, random, st_ret, set_status.
  destruct (String.eqb (status self) "operational");
    destruct (String.eqb (status self) "maintenance");
    destruct (random_random (rng w)) as [r g]; simpl;
    repeat match goal with
    | |- context [lt ?a ?b] => destruct (lt a b); simpl
    | |- context [random_random ?g] => destruct (random_random g); simpl
    end; auto.
Qed.

(** One tick, rule by rule. *)
Lemma update_unfold (self : BatterySwapStation) (w : World G) :
  exists s1 w1 s2 w2 s3 w3 s4 w4,
    simulate_battery_charging self w = (s1, w1) /\
    simulate_battery_swap s1 w1 = (s2, w2) /\
    simulate_temperature_change s2 w2 = (s3, w3) /\
    simulate_humidity_change s3 w3 = (s4, w4) /\
    update self w = simulate_status_change s4 w4.
Proof.
  unfold update, st_bind.
  destruct (simulate_battery_charging self w) as [s1 w1] eqn:E1.
  destruct (simulate_battery_swap s1 w1) as [s2 w2] eqn:E2.
  destruct (simulate_temperature_change s2 w2) as [s3 w3] eqn:E3.
  destruct (simulate_humidity_change s3 w3) as [s4 w4] eqn:E4.
  exists s1, w1, s2, w2, s3, w3, s4, w4. repeat split; assumption.
Qed.

Lemma update_battery_total (self : BatterySwapStation) (w : World G) :
  battery_total (fst (update self w)) = battery_total self.
Proof.
  destruct (update_unfold self w)
    as (s1 & w1 & s2 & w2 & s3 & w3 & s4 & w4 & E1 & E2 & E3 & E4 & ->).
  pose proof (charging_moves_one self w) as H1.
  pose proof (swap_moves_one s1 w1) as H2.
  pose proof (temperature_keeps_counts s2 w2) as H3.
  pose proof (humidity_keeps_counts s3 w3) as H4.
  pose proof (status_keeps_readings s4 w4) as H5.
  rewrite E1 in H1. rewrite E2 in H2. rewrite E3 in H3. rewrite E4 in H4.
  simpl in *. unfold battery_total. lia.
Qed.

Lemma update_in_bounds (self : BatterySwapStation) (w : World G) :
  0 <= battery_available self -> 0 <= battery_charging self ->
  in_bounds (fst (update self w)).
Proof.
  intros Ha Hc.
  destruct (update_unfold self w)
    as (s1 & w1 & s2 & w2 & s3 & w3 & s4 & w4 & E1 & E2 & E3 & E4 & ->).
  pose proof (charging_moves_one self w) as H1.
  pose proof (swap_moves_one s1 w1) as H2.
  pose proof (temperature_keeps_counts s2 w2) as H3.
  pose proof (humidity_keeps_counts s3 w3) as H4.
  pose proof (status_keeps_readings s4 w4) as H5.
  rewrite E1 in H1. rewrite E2 in H2. rewrite E3 in H3. rewrite E4 in H4.
  simpl in *.
  destruct H3 as (A3 & C3 & _ & T3), H4 as (A4 & C4 & T4 & U4),
           H5 as (A5 & C5 & T5 & U5).
  unfold in_bounds. rewrite A5, C5, T5, U5, T4.
  repeat split; try apply T3; try apply U4; lia.
Qed.

Lemma ticks_battery_total (n : nat) :
  forall (self : BatterySwapStation) (w : World G),
    battery_total (fst (ticks n self w)) = battery_total self.
Proof.
  induction n as [|n IH]; intros self w; simpl; [reflexivity|].
  unfold st_bind. pose proof (update_battery_total self w) as Hu.
  destruct (update self w) as [s w']. rewrite IH. exact Hu.
Qed.

Lemma ticks_in_bounds (n : nat) :
  forall (self : BatterySwapStation) (w : World G),
    in_bounds self -> in_bounds (fst (ticks n self w)).
Proof.
  induction n as [|n IH]; intros self w Hin; simpl; [exact Hin|].
  unfold st_bind.
  pose proof (update_in_bounds self w) as Hu.
  destruct (update self w) as [s w']. apply IH. apply Hu; apply Hin.
Qed.

Lemma init_in_bounds (sid : string) (w : World G) :
  in_bounds (fst (init sid w)).
Proof.
  unfold init, st_bind, randint, uniform, utcnow_isoformat_Z, st_ret.
  pose proof (randint_range 8 15 (rng w)) as Ha.
  destruct (random_randint 8 15 (rng w)) as [a g1]; cbn [fst snd rng] in *.
  pose proof (randint_range 2 6 g1) as Hc.
  destruct (random_randint 2 6 g1) as [c g2]; cbn [fst snd rng] in *.
  pose proof (uniform_range (of_Z 20) (of_Z 30) g2) as Ht.
  destruct (random_uniform (of_Z 20) (of_Z 30) g2) as [t g3];
    cbn [fst snd rng] in *.
  pose proof (uniform_range (of_Z 30) (of_Z 60) g3) as Hh.
  destruct (random_uniform (of_Z 30) (of_Z 60) g3) as [h g4];
    cbn [fst snd rng] in *.
  destruct (random_randint 0 50 g4) as [k g5]; cbn [fst snd rng].
  assert (within (of_Z 15) (of_Z 35) t) as Ht'.
  { apply (within_weaken (of_Z 20) (of_Z 30)); [reflexivity..|].
    apply Ht; reflexivity. }
  assert (within (of_Z 20) (of_Z 80) h) as Hh'.
  { apply (within_weaken (of_Z 30) (of_Z 60)); [reflexivity..|].
    apply Hh; reflexivity. }
  unfold in_bounds; cbn. repeat split; try lia; try apply Ht'; apply Hh'.
Qed.

End WithRandom.

End StationSimulatorFacts.

(* ===================================================================== *)
(** ** Dictionaries and text *)
(* ===================================================================== *)

Module PyFacts.
Import PyFloat Py.

Lemma dict_get_set_eq (key : string) (v : value) (d : dict) :
  dict_get key (dict_set key v d) = Some v.
Proof.
  induction d as [|[k x] rest IH]; simpl.
  - rewrite String.eqb_refl. reflexivity.
  - destruct (String.eqb k key) eqn:E; simpl; rewrite E; auto.
Qed.

Lemma dict_get_set_ne (key key' : string) (v : value) (d : dict) :
  key <> key' -> dict_get key' (dict_set key v d) = dict_get key' d.
Proof.
  intros Hne. induction d as [|[k x] rest IH]; simpl.
  - apply String.eqb_neq in Hne. rewrite Hne. reflexivity.
  - destruct (String.eqb k key) eqn:E; simpl.
    + apply String.eqb_eq in E. subst k.
      apply String.eqb_neq in Hne. rewrite Hne. reflexivity.
    + rewrite IH. reflexivity.
Qed.

Lemma dict_get_map_values (f : value -> value) (key : string) (d : dict) :
  dict_get key (List.map (fun kv : string * value => (fst kv, f (snd kv))) d)
  = f <$> dict_get key d.
Proof.
  induction d as [|[k x] rest IH]; simpl; [reflexivity|].
  destruct (String.eqb k key); auto.
Qed.

Lemma dict_mem_true (key : string) (d : dict) :
  dict_mem key d = true -> exists v, dict_get key d = Some v.
Proof.
  unfold dict_mem. destruct (dict_get key d) as [v|]; [eauto|discriminate].
Qed.

(** *** Decimal digits *)

(** The decimal digits of a number, as the format of the object key words
    them: [DD] is [two_digits], [YYYY] is [four_digits]. *)
Definition digit_char (n : N) : ascii := pretty_N_char (n mod 10).

Definition two_digits (z : Z) : string :=
  let n := Z.to_N z in
  String (digit_char (n / 10)) (String (digit_char n) "").

Definition four_digits (z : Z) : string :=
  let n := Z.to_N z in
  String (digit_char (n / 1000)) (String (digit_char (n / 100))
    (String (digit_char (n / 10)) (String (digit_char n) ""))).

Lemma pretty_N_go_small (n : N) (s : string) :
  (0 < n < 10)%N -> pretty_N_go n s = String (pretty_N_char n) s.
Proof.
  intros Hn. rewrite pretty_N_go_step by lia.
  rewrite N.div_small, N.mod_small by lia. apply pretty_N_go_0.
Qed.

Lemma str_int_positive (z : Z) :
  0 < z -> str_int z = pretty_N_go (Z.to_N z) "".
Proof.
  destruct z as [|p|p]; try lia. intros _. reflexivity.
Qed.



Lemma str_int_four_digits (z : Z) :
  1000 <= z <= 9999 -> str_int z = four_digits z.
Proof.
  intros Hz. unfold four_digits, digit_char.
  rewrite str_int_positive by lia.
  set (n := Z.to_N z). assert (1000 <= n <= 9999)%N as Hn by lia.
  clearbody n.
  do 3 (rewrite pretty_N_go_step
          by (zify; Z.to_euclidean_division_equations; lia)).
  rewrite pretty_N_go_small
    by (zify; Z.to_euclidean_division_equations; lia).
  replace (n / 10 / 10 / 10)%N with (n / 1000)%N
    by (zify; Z.to_euclidean_division_equations; lia).
  replace (n / 10 / 10)%N with (n / 100)%N
    by (zify; Z.to_euclidean_division_equations; lia).
  rewrite (N.mod_small (n / 1000))
    by (zify; Z.to_euclidean_division_equations; lia).
  reflexivity.
Qed.


(** *** Text *)

Lemma length_append (s t : string) :
  String.length (s ++ t) = (String.length s + String.length t)%nat.
Proof.
  induction s as [|c s IH]; simpl; [reflexivity|]. rewrite IH. reflexivity.
Qed.


Lemma append_inj_r (s1 s2 t : string) : s1 ++ t = s2 ++ t -> s1 = s2.
Proof.
  revert s2. induction s1 as [|c s1 IH]; intros [|c2 s2] Heq.
  - reflexivity.
  - apply (f_equal String.length) in Heq.
    rewrite !length_append in Heq. simpl in Heq. lia.
  - apply (f_equal String.length) in Heq.
    rewrite !length_append in Heq. simpl in Heq. lia.
  - change (String c (s1 ++ t) = String c2 (s2 ++ t)) in Heq.
    injection Heq as -> Heq. f_equal. apply IH. exact Heq.
Qed.



(** *** Hexadecimal digits of a uuid *)






End PyFacts.

(* ===================================================================== *)
(** ** The telemetry handler *)
(* ===================================================================== *)

Module TelemetryHandlerFacts.
Import PyFloat Py PyFacts TelemetryHandler.

Definition msg_station_id : string := "station_id must be a non-empty string".
Definition msg_battery : string :=
  "battery_available must be a non-negative number".
Definition msg_timestamp : string := "timestamp must be valid ISO-8601 format".
Definition msg_missing (field : string) : string :=
  "Missing required field: " ++ field.

(** What [bytes.replace] raises when it is given two [str]. *)
Definition bytes_replace_error : exn :=
  mkExn TypeError "a bytes-like object is required, not 'str'".

(** Whether the environment lets the next request to a store through. *)
Definition fast_write_ok (env : Env) (w : World) : bool :=
  match dynamodb_fault env (dynamodb_calls w) with
  | None => true
  | Some _ => false
  end.

Definition archive_write_ok (env : Env) (w : World) : bool :=
  match s3_fault env (s3_calls w) with
  | None => true
  | Some _ => false
  end.

(** The status that goes with each pair of write results. *)
Definition three_way_status (fast_ok archive_ok : bool) : Z :=
  match fast_ok, archive_ok with
  | true, true => 200
  | false, false => 500
  | _, _ => 207
  end.

(** The keys of the [put_object] requests among the requests sent. *)
Definition put_object_keys (cs : list StoreCall) : list string :=
  flat_map (fun c => match c with
                     | CallPutObject key _ => [key]
                     | CallPutItem _ => []
                     end) cs.

(** The key format in the words of the specification:
    [telemetry/year={YYYY}/month={MM}/day={DD}/{station_id}_{YYYYMMDD_HHMMSS}_{8 hex chars}.json]. *)
Definition spec_archive_key (sid : string) (dt : datetime) (hex8 : string)
  : string :=
  "telemetry/year=" ++ four_digits (year dt)
  ++ "/month=" ++ two_digits (month dt)
  ++ "/day=" ++ two_digits (day dt) ++ "/"
  ++ sid ++ "_"
  ++ four_digits (year dt) ++ two_digits (month dt) ++ two_digits (day dt)
  ++ "_"
  ++ two_digits (hour dt) ++ two_digits (minute dt) ++ two_digits (second dt)
  ++ "_" ++ hex8 ++ ".json".

Section WithLibraries.
Context `{DatetimeModule} `{DecimalModule}.
Variable env : Env.

(** The item [store_in_dynamodb] sends from world [w], and the world it
    leaves. *)
Definition stored_item (event : dict) (w : World) : dict :=
  dict_set "lambda_processed_at" (VStr (utcnow_iso env (clock_reads w)))
    (convert_floats_to_decimal event).

Definition after_store (event : dict) (sid : string) (w : World) : World :=
  mkWorld
    (if fast_write_ok env w then <[sid := stored_item event w]> (table w)
     else table w)
    (bucket w) (calls w ++ [CallPutItem (stored_item event w)])
    (S (clock_reads w)) (uuid_draws w) (S (dynamodb_calls w)) (s3_calls w).

(** The key and the object [archive_to_s3] sends from world [w], and the
    world it leaves. *)
Definition archive_key (sid : string) (dt : datetime) (w : World) : string :=
  s3_key_of sid dt (uuid_hex (uuid4_int env (uuid_draws w))).

Definition archived_object (event : dict) (sid : string) (w : World)
  : S3Object :=
  mkS3Object (json_dumps (Some 2%nat) (VDict event)) "application/json"
    [("station_id", sid); ("ingestion_time", utcnow_iso env (clock_reads w))].

Definition after_archive (event : dict) (sid : string) (dt : datetime)
  (w : World) : World :=
  mkWorld (table w)
    (if archive_write_ok env w
     then <[archive_key sid dt w := archived_object event sid w]> (bucket w)
     else bucket w)
    (calls w ++ [CallPutObject (archive_key sid dt w)
                   (archived_object event sid w)])
    (S (clock_reads w)) (S (uuid_draws w)) (dynamodb_calls w) (S (s3_calls w)).

(** The response to an accepted record, and the world the handler leaves. *)
Definition success_response (event : dict) (sid : string) (w : World)
  (fast_ok archive_ok : bool) (now : string) : Response :=
  mkResponse (three_way_status fast_ok archive_ok)
    (json_dumps None
       (VDict [("message",
                VStr (match fast_ok, archive_ok with
                      | true, true => "Telemetry processed successfully"
                      | false, false => "Failed to process telemetry"
                      | _, _ => "Telemetry partially processed"
                      end));
               ("station_id", VStr sid);
               ("dynamodb_success", VBool fast_ok);
               ("s3_success", VBool archive_ok);
               ("timestamp", VStr now)])).

Definition after_clock (w : World) : World :=
  mkWorld (table w) (bucket w) (calls w) (S (clock_reads w)) (uuid_draws w)
    (dynamodb_calls w) (s3_calls w).

(** The world one run of the handler leaves, and the status it answers. *)
Definition world_after (event : dict) (w : World) : World :=
  snd (lambda_handler env event w).

Definition status_after (event : dict) (w : World) : option Z :=
  match fst (lambda_handler env event w) with
  | Ok response => Some (statusCode response)
  | Raise _ => None
  end.

(** What an accepted record looks like. *)
Lemma required_fields_present (data : dict) :
  List.find (fun field => negb (dict_mem field data)) required_fields = None ->
  dict_mem "station_id" data = true /\
  dict_mem "battery_available" data = true /\
  dict_mem "timestamp" data = true.
Proof.
  unfold required_fields; simpl.
  destruct (dict_mem "station_id" data); simpl; [|discriminate].
  destruct (dict_mem "battery_available" data); simpl; [|discriminate].
  destruct (dict_mem "timestamp" data); simpl; [|discriminate].
  auto.
Qed.

Lemma required_field_missing (data : dict) (field : string) :
  List.find (fun field => negb (dict_mem field data)) required_fields
  = Some field ->
  dict_mem field data = false /\ In field required_fields.
Proof.
  intros Hfind. apply find_some in Hfind as [Hin Hneg].
  split; [|exact Hin]. destruct (dict_mem field data); [discriminate|auto].
Qed.

(** The validator, by what the record holds under the three required
    keys. *)
Lemma validate_telemetry_unfold (data : dict) :
  validate_telemetry data
  = match dict_get "station_id" data, dict_get "battery_available" data,
          dict_get "timestamp" data with
    | None, _, _ => Ok (false, Some (msg_missing "station_id"))
    | Some _, None, _ => Ok (false, Some (msg_missing "battery_available"))
    | Some _, Some _, None => Ok (false, Some (msg_missing "timestamp"))
    | Some sid, Some b, Some ts =>
        if negb (isinstance_str sid) || negb (truthy (strip_method sid))
        then Ok (false, Some msg_station_id)
        else if negb (isinstance_int_float b) || lt_zero b
        then Ok (false, Some msg_battery)
        else
          match ts with
          | VStr text =>
              match fromisoformat (replace_char "Z" "+00:00" text) with
              | Some _ => Ok (true, None)
              | None => Ok (false, Some msg_timestamp)
              end
          | VBytes _ => Raise bytes_replace_error
          | _ => Ok (false, Some msg_timestamp)
          end
    end.
Proof.
  unfold validate_telemetry, required_fields, dict_mem, dict_get_default,
    parse_timestamp, dict_getitem.
  cbn [List.find].
  destruct (dict_get "station_id" data) as [sid|]; cbn [negb]; [|reflexivity].
  destruct (dict_get "battery_available" data) as [b|]; cbn [negb];
    [|reflexivity].
  destruct (dict_get "timestamp" data) as [ts|]; cbn [negb]; [|reflexivity].
  destruct (negb (isinstance_str sid) || negb (truthy (strip_method sid)));
    [reflexivity|].
  destruct (negb (isinstance_int_float b) || lt_zero b); [reflexivity|].
  destruct ts; cbn [res_bind replace_Z exn_class_of]; try reflexivity.
  destruct (fromisoformat _); reflexivity.
Qed.

Lemma validate_accepts_inv (event : dict) (reason : option string) :
  validate_telemetry event = Ok (true, reason) ->
  reason = None /\
  exists sid b ts dt,
    dict_get "station_id" event = Some (VStr sid) /\
    strip sid <> "" /\
    dict_get "battery_available" event = Some b /\
    isinstance_int_float b = true /\ lt_zero b = false /\
    dict_get "timestamp" event = Some (VStr ts) /\
    fromisoformat (replace_char "Z" "+00:00" ts) = Some dt /\
    parse_timestamp event = Ok dt.
Proof.
  unfold validate_telemetry.
  destruct (List.find _ required_fields) as [field|] eqn:Hfind;
    [discriminate|].
  apply required_fields_present in Hfind as (Hs & Hb & Ht).
  apply dict_mem_true in Hs as [vs Hvs].
  apply dict_mem_true in Hb as [vb Hvb].
  apply dict_mem_true in Ht as [vt Hvt].
  unfold dict_get_default. rewrite Hvs, Hvb.
  destruct (negb (isinstance_str vs) || negb (truthy (strip_method vs)))
    eqn:Hsid; [discriminate|].
  destruct (negb (isinstance_int_float vb) || lt_zero vb) eqn:Hbat;
    [discriminate|].
  apply orb_false_iff in Hsid as [Hstr Htruthy].
  apply orb_false_iff in Hbat as [Hnum Hneg].
  apply negb_false_iff in Hstr, Htruthy, Hnum.
  destruct vs as [| | | |sid| | | |]; try discriminate.
  simpl in Htruthy. apply negb_true_iff, String.eqb_neq in Htruthy.
  unfold parse_timestamp, dict_getitem. rewrite Hvt. simpl.
  destruct vt as [| | | |ts| | | |]; simpl; try discriminate.
  destruct (fromisoformat (replace_char "Z" "+00:00" ts)) as [dt|] eqn:Hdt;
    simpl; [|discriminate].
  intros [= <-]. split; [reflexivity|].
  exists sid, vb, ts, dt. repeat split; auto.
Qed.

(** [store_in_dynamodb] on a record whose station id is a string. *)
Lemma store_in_dynamodb_spec (event : dict) (sid : string) (w : World) :
  dict_get "station_id" event = Some (VStr sid) ->
  store_in_dynamodb env event w
  = (Ok (fast_write_ok env w), after_store event sid w).
Proof.
  intros Hsid.
  assert (dict_get "station_id" (stored_item event w) = Some (VStr sid))
    as Hitem.
  { unfold stored_item. rewrite dict_get_set_ne by discriminate.
    unfold convert_floats_to_decimal. rewrite dict_get_map_values, Hsid.
    reflexivity. }
  unfold store_in_dynamodb, eff_try, store_in_dynamodb_try, eff_bind,
    utcnow_isoformat, put_item, eff_lift, eff_ret, dict_getitem,
    after_store, fast_write_ok.
  cbn [table bucket calls clock_reads uuid_draws dynamodb_calls s3_calls].
  fold (stored_item event w).
  destruct (dynamodb_fault env (dynamodb_calls w)) as [e|]; [reflexivity|].
  rewrite Hitem, Hsid. reflexivity.
Qed.

(** [archive_to_s3] on a record whose station id is a string and whose
    timestamp parses. *)
Lemma archive_to_s3_spec (event : dict) (sid : string) (dt : datetime)
  (w : World) :
  dict_get "station_id" event = Some (VStr sid) ->
  parse_timestamp event = Ok dt ->
  archive_to_s3 env event w
  = (Ok (archive_write_ok env w), after_archive event sid dt w).
Proof.
  intros Hsid Hts.
  unfold archive_to_s3, eff_try, archive_to_s3_try, eff_bind, eff_lift,
    uuid4_hex, utcnow_isoformat, put_object, eff_ret, dict_getitem,
    after_archive, archive_write_ok, archive_key, archived_object.
  rewrite Hts, Hsid.
  cbn [table bucket calls clock_reads uuid_draws dynamodb_calls s3_calls].
  destruct (s3_fault env (s3_calls w)) as [e|]; reflexivity.
Qed.

(** Neither write raises, whatever the record and the environment. *)
Lemma store_in_dynamodb_never_raises (data : dict) (w : World) :
  exists b w', store_in_dynamodb env data w = (Ok b, w').
Proof.
  unfold store_in_dynamodb, eff_try, eff_ret.
  destruct (store_in_dynamodb_try env data w) as [[b|e] w']; eauto.
Qed.

Lemma archive_to_s3_never_raises (data : dict) (w : World) :
  exists b w', archive_to_s3 env data w = (Ok b, w').
Proof.
  unfold archive_to_s3, eff_try, eff_ret.
  destruct (archive_to_s3_try env data w) as [[b|e] w']; eauto.
Qed.

Lemma lambda_handler_accepted (event : dict) (sid : string) (dt : datetime)
  (w : World) :
  validate_telemetry event = Ok (true, None) ->
  dict_get "station_id" event = Some (VStr sid) ->
  parse_timestamp event = Ok dt ->
  let w1 := after_store event sid w in
  let w2 := after_archive event sid dt w1 in
  lambda_handler env event w
  = (Ok (success_response event sid w (fast_write_ok env w)
           (archive_write_ok env w1) (utcnow_iso env (clock_reads w2))),
     after_clock w2).
Proof.
  intros Hvalid Hsid Hts w1 w2.
  unfold lambda_handler, eff_try, lambda_handler_try, eff_bind, eff_lift.
  rewrite Hvalid. cbn [negb]. unfold dict_getitem. rewrite Hsid.
  rewrite (store_in_dynamodb_spec event sid w Hsid). fold w1.
  rewrite (archive_to_s3_spec event sid dt w1 Hsid Hts). fold w2.
  unfold utcnow_isoformat, eff_ret, success_response, three_way_status,
    after_clock.
  destruct (fast_write_ok env w), (archive_write_ok env w1); reflexivity.
Qed.

Lemma three_way_status_200 (fast_ok archive_ok : bool) :
  three_way_status fast_ok archive_ok = 200 ->
  fast_ok = true /\ archive_ok = true.
Proof. destruct fast_ok, archive_ok; simpl; intros; auto; discriminate. Qed.

Lemma world_after_accepted (event : dict) (sid : string) (dt : datetime)
  (w : World) :
  validate_telemetry event = Ok (true, None) ->
  dict_get "station_id" event = Some (VStr sid) ->
  parse_timestamp event = Ok dt ->
  world_after event w
  = after_clock (after_archive event sid dt (after_store event sid w)) /\
  status_after event w
  = Some (three_way_status (fast_write_ok env w) (archive_write_ok env w)).
Proof.
  intros Hvalid Hsid Hts. unfold world_after, status_after.
  rewrite (lambda_handler_accepted event sid dt w Hvalid Hsid Hts).
  split; reflexivity.
Qed.

(** The key is the same text up to the eight digits taken from the uuid. *)
Lemma s3_key_of_inj (sid : string) (dt : datetime) (hex1 hex2 : string) :
  s3_key_of sid dt hex1 = s3_key_of sid dt hex2 ->
  prefix_slice 8 hex1 = prefix_slice 8 hex2.
Proof.
  unfold s3_key_of. intros Heq.
  repeat match type of Heq with
         | ?a ++ _ = ?a ++ _ => apply (String.app_inj a) in Heq
         end.
  apply append_inj_r in Heq. exact Heq.
Qed.

Lemma lambda_handler_rejected (event : dict) (reason : option string)
  (w : World) :
  validate_telemetry event = Ok (false, reason) ->
  lambda_handler env event w
  = (Ok (mkResponse 400
           (json_dumps None
              (VDict [("error", VStr "Validation failed");
                      ("message", option_str reason)]))), w).
Proof.
  intros Hrej.
  unfold lambda_handler, eff_try, lambda_handler_try, eff_bind, eff_lift.
  rewrite Hrej. reflexivity.
Qed.

End WithLibraries.

End TelemetryHandlerFacts.

(* ===================================================================== *)
(** ** Concrete libraries, environments and records *)
(* ===================================================================== *)

(** Instances of the library interfaces and a few concrete inputs, on which
    the handlers and the simulator can be run. *)
Module Examples.
Import PyFloat Py PyFacts PyFloatFacts.

(** *** A parser for [YYYY-MM-DD?HH:MM:SS] with an optional [+HH:MM] or
    [-HH:MM], the form of the records the simulator and the scenarios of
    the specification use. Every text it accepts [datetime.fromisoformat]
    accepts too, with the same fields. *)

Definition digit_of (c : ascii) : option Z :=
  let n := nat_of_ascii c in
  if ((48 <=? n) && (n <=? 57))%nat then Some (Z.of_nat n - 48) else None.

Definition number2 (a b : ascii) : option Z :=
  match digit_of a, digit_of b with
  | Some x, Some y => Some (10 * x + y)
  | _, _ => None
  end.

Definition number4 (a b c d : ascii) : option Z :=
  match number2 a b, number2 c d with
  | Some x, Some y => Some (100 * x + y)
  | _, _ => None
  end.

Definition is_leap (y : Z) : bool :=
  (y mod 4 =? 0) && (negb (y mod 100 =? 0) || (y mod 400 =? 0)).

Definition days_in_month (y m : Z) : Z :=
  if m =? 2 then (if is_leap y then 29 else 28)
  else if (m =? 4) || (m =? 6) || (m =? 9) || (m =? 11) then 30
  else 31.

Definition datetime_check (d : datetime) : bool :=
  (1 <=? year d) && (year d <=? 9999) &&
  (1 <=? month d) && (month d <=? 12) &&
  (1 <=? day d) && (day d <=? days_in_month (year d) (month d)) &&
  (0 <=? hour d) && (hour d <=? 23) &&
  (0 <=? minute d) && (minute d <=? 59) &&
  (0 <=? second d) && (second d <=? 59).

Definition offset_check (rest : string) : bool :=
  match rest with
  | EmptyString => true
  | String sign (String h1 (String h2 (String colon (String m1
      (String m2 EmptyString))))) =>
      (Ascii.eqb sign "+" || Ascii.eqb sign "-") && Ascii.eqb colon ":" &&
      match number2 h1 h2, number2 m1 m2 with
      | Some h, Some m => (h <=? 23) && (m <=? 59)
      | _, _ => false
      end
  | _ => false
  end.

Definition parse_fields (s : string) : option (datetime * string) :=
  match s with
  | String y1 (String y2 (String y3 (String y4 (String dash1
      (String mo1 (String mo2 (String dash2 (String d1 (String d2
      (String sep (String h1 (String h2 (String colon1
      (String mi1 (String mi2 (String colon2
      (String s1 (String s2 rest)))))))))))))))))) =>
      if Ascii.eqb dash1 "-" && Ascii.eqb dash2 "-" &&
         Ascii.eqb colon1 ":" && Ascii.eqb colon2 ":" then
        match number4 y1 y2 y3 y4, number2 mo1 mo2, number2 d1 d2,
              number2 h1 h2, number2 mi1 mi2, number2 s1 s2 with
        | Some y, Some mo, Some d, Some h, Some mi, Some sec =>
            Some (mkDatetime y mo d h mi sec, rest)
        | _, _, _, _, _, _ => None
        end
      else None
  | _ => None
  end.

Definition parse_iso (s : string) : option datetime :=
  match parse_fields s with
  | Some (d, rest) =>
      if datetime_check d && offset_check rest then Some d else None
  | None => None
  end.

(** [%Y] printed with four digits, zero-filled. *)
Definition zero_filled_year (y : Z) : string :=
  let s := str_int y in
  match (4 - String.length s)%nat with
  | 3%nat => "000" ++ s
  | 2%nat => "00" ++ s
  | 1%nat => "0" ++ s
  | _ => s
  end.

(** *** Conversions between floats and decimals: the exact decimal value of
    a float, and the float nearest to a quotient. The records below hold no
    float, so neither is applied to them. *)
Definition exact_decimal (f : float) : PyDecimal :=
  match f with
  | S754_zero s => DecFinite s 0 (-1)
  | S754_infinity s => DecInf s
  | S754_nan => DecNaN
  | S754_finite s m e =>
      if 0 <=? e then DecFinite s (Npos m * 2 ^ Z.to_N e) 0
      else DecFinite s (Npos m * 5 ^ Z.to_N (- e)) e
  end.

Definition nearest_float (d : PyDecimal) : float :=
  match d with
  | DecFinite s c e =>
      let magnitude :=
        if 0 <=? e then of_Z (Z.of_N (c * 10 ^ Z.to_N e))
        else of_ratio (Z.of_N c) (Z.of_N (10 ^ Z.to_N (- e))) in
      if s then neg magnitude else magnitude
  | DecInf s => S754_infinity s
  | DecNaN | DecSNaN => S754_nan
  end.

(** *** A generator that counts: the [g]-th draw of [random()] is
    [(g mod 10) / 10], [uniform(a, b)] alternates between its two ends, and
    [randint(a, b)] walks up from [a]. *)
Definition counter_random (g : nat) : float * nat :=
  (of_ratio (Z.of_nat (g mod 10)) 10, S g).

Definition counter_uniform (a b : float) (g : nat) : float * nat :=
  (if Nat.even g then a else b, S g).

Definition counter_randint (a b : Z) (g : nat) : Z * nat :=
  (a + Z.of_nat g mod (b - a + 1), S g).

(** *** Records *)

(** The record of the specification's scenario. *)
Definition scenario_record : dict :=
  [("station_id", VStr "station-01");
   ("battery_available", VInt 12);
   ("timestamp", VStr "2024-01-15T14:23:45Z")].

(** A record stamped in the year 999. *)
Definition old_record : dict :=
  [("station_id", VStr "station-01");
   ("battery_available", VInt 12);
   ("timestamp", VStr "0999-01-15T14:23:45Z")].

(** A negative battery count, and no timestamp. *)
Definition negative_count_no_timestamp : dict :=
  [("station_id", VStr "station-01");
   ("battery_available", VInt (-1))].

(** A negative battery count, and seconds since the epoch as timestamp. *)
Definition negative_count_epoch_timestamp : dict :=
  [("station_id", VStr "station-01");
   ("battery_available", VInt (-3));
   ("timestamp", VInt 1705328625)].

(** A valid station and count, and seconds since the epoch as timestamp. *)
Definition epoch_timestamp_record : dict :=
  [("station_id", VStr "station-01");
   ("battery_available", VInt 12);
   ("timestamp", VInt 1705328625)].

(** *** Environments of the telemetry handler *)

Definition example_clock (k : nat) : string :=
  "2024-01-15T14:23:46.00000" ++ str_int (Z.of_nat k).

(** Both stores answer every request; the uuids are [uuid4_base],
    [uuid4_base + 1], ...: all different, all with the same first eight
    hexadecimal digits. *)
Definition uuid4_base : N := 1059757086 * 2 ^ 96.

Definition close_uuids_env : TelemetryHandler.Env :=
  TelemetryHandler.mkEnv example_clock (fun k => uuid4_base + N.of_nat k)%N
    (fun _ => None) (fun _ => None).

(** Both stores answer every request; the [k]-th uuid starts with the
    digits of [k + 1]. *)
Definition spread_uuids_env : TelemetryHandler.Env :=
  TelemetryHandler.mkEnv example_clock
    (fun k => (N.of_nat k + 1) * 2 ^ 96)%N
    (fun _ => None) (fun _ => None).

(** The fast store refuses its first request. *)
Definition fast_store_down_env : TelemetryHandler.Env :=
  TelemetryHandler.mkEnv example_clock
    (fun k => (N.of_nat k + 1) * 2 ^ 96)%N
    (fun k => match k with
              | O => Some (mkExn ClientError "ProvisionedThroughputExceeded")
              | _ => None
              end)
    (fun _ => None).

Definition empty_world : TelemetryHandler.World :=
  TelemetryHandler.mkWorld ∅ ∅ [] 0 0 0 0.

Lemma datetime_check_valid (d : datetime) :
  datetime_check d = true -> datetime_valid d.
Proof.
  unfold datetime_check, datetime_valid, days_in_month. intros Hc.
  repeat (apply andb_true_iff in Hc as [Hc ?]).
  repeat match goal with
         | Hle : (_ <=? _) = true |- _ => apply Z.leb_le in Hle
         end.
  repeat match goal with
         | Hle : context [if ?c then _ else _] |- _ => destruct c
         end; lia.
Qed.

Lemma parse_iso_valid (s : string) (d : datetime) :
  parse_iso s = Some d -> datetime_valid d.
Proof.
  unfold parse_iso.
  destruct (parse_fields s) as [[d' rest]|]; [|discriminate].
  destruct (datetime_check d') eqn:Hc; simpl; [|discriminate].
  destruct (offset_check rest); [|discriminate].
  intros [= <-]. apply datetime_check_valid. exact Hc.
Qed.

Lemma zero_filled_year_four_digits (y : Z) :
  1000 <= y <= 9999 -> zero_filled_year y = str_int y.
Proof.
  intros Hy. unfold zero_filled_year.
  rewrite (str_int_four_digits y Hy). reflexivity.
Qed.

Lemma counter_randint_range (a b : Z) (g : nat) :
  a <= b -> a <= fst (counter_randint a b g) <= b.
Proof.
  intros Hab. unfold counter_randint. simpl.
  pose proof (Z.mod_pos_bound (Z.of_nat g) (b - a + 1)). lia.
Qed.

Lemma counter_uniform_range (a b : float) (g : nat) :
  le a b = true -> within a b (fst (counter_uniform a b g)).
Proof.
  intros Hab. unfold counter_uniform, within. simpl.
  destruct (Nat.even g); split;
    eauto using le_refl_of_le_l, le_refl_of_le_r.
Qed.

#[global] Instance iso_datetime : DatetimeModule := {|
  fromisoformat := parse_iso;
  fromisoformat_valid := parse_iso_valid;
  strftime_Y := zero_filled_year;
  strftime_Y_four_digits := zero_filled_year_four_digits
|}.

#[global] Instance exact_decimals : DecimalModule := {|
  Decimal_of_float_str := exact_decimal;
  float_of_Decimal := nearest_float
|}.

#[global] Instance counting_generator : StationSimulator.RandomModule nat := {|
  StationSimulator.random_random := counter_random;
  StationSimulator.random_uniform := counter_uniform;
  StationSimulator.random_randint := counter_randint;
  StationSimulator.randint_range := counter_randint_range;
  StationSimulator.uniform_range := counter_uniform_range
|}.

End Examples.

(* ===================================================================== *)
(** ** The ingestion pipeline: outcome, validation gate, failure isolation *)
(* ===================================================================== *)

Module TelemetryClaims.
Import PyFloat Py PyFacts TelemetryHandler TelemetryHandlerFacts Examples.

(** From an accepted record: its station id, the text of its timestamp and
    the [datetime] that text parses to. *)
Ltac accepted_record Hvalid sid ts dt Hsid Hts Hdt Hparse :=
  destruct (validate_accepts_inv _ None Hvalid)
    as (_ & sid & ? & ts & dt & Hsid & _ & _ & _ & _ & Hts & Hdt & Hparse).

Section Outcome.
Context `{DatetimeModule} `{DecimalModule}.
Variable env : Env.

(** C1. For every validated record, the status the handler answers is a
    function of the two write results: 200 when the fast-store write and
    the archival write both succeed, 207 when exactly one does, 500 when
    neither does. A write succeeds exactly when the store lets the request
    through: the table (the bucket) then holds what was sent, and is
    unchanged otherwise. Nothing is retried: the run sends one [put_item]
    and one [put_object], whatever their results. *)
Theorem ingest_status_three_way (event : dict) (w : World) :
  validate_telemetry event = Ok (true, None) ->
  exists sid dt response w',
    dict_get "station_id" event = Some (VStr sid) /\
    parse_timestamp event = Ok dt /\
    lambda_handler env event w = (Ok response, w') /\
    let fast_ok := fast_write_ok env w in
    let archive_ok := archive_write_ok env w in
    let item := stored_item env event w in
    let key := archive_key env sid dt (after_store env event sid w) in
    let obj := archived_object env event sid (after_store env event sid w) in
    (fast_ok = true /\ archive_ok = true -> statusCode response = 200) /\
    (fast_ok <> archive_ok -> statusCode response = 207) /\
    (fast_ok = false /\ archive_ok = false -> statusCode response = 500) /\
    table w' = (if fast_ok then <[sid := item]> (table w) else table w) /\
    bucket w' = (if archive_ok then <[key := obj]> (bucket w) else bucket w) /\
    calls w' = (calls w ++ [CallPutItem item; CallPutObject key obj])%list.
Proof.
  intros Hvalid.
  accepted_record Hvalid sid ts dt Hsid Hts' Hdt Hts.
  exists sid, dt. eexists. eexists.
  split; [exact Hsid|]. split; [exact Hts|].
  split; [apply (lambda_handler_accepted env event sid dt w Hvalid Hsid Hts)|].
  cbn zeta.
  cbn [statusCode success_response after_clock after_archive after_store
       table bucket calls].
  change (archive_write_ok env (after_store env event sid w))
    with (archive_write_ok env w).
  rewrite <- app_assoc. cbn [app].
  destruct (fast_write_ok env w), (archive_write_ok env w);
    repeat split; intros; try reflexivity;
    repeat match goal with
           | Hc : _ /\ _ |- _ => destruct Hc
           end; congruence.
Qed.

(** C2. For every record the validator rejects, the handler answers 400
    with the rejection reason in the body, and leaves the world as it
    found it: both stores unchanged, no request sent to either. *)
Theorem rejected_record_writes_nothing (event : dict)
  (reason : option string) (w : World) :
  validate_telemetry event = Ok (false, reason) ->
  exists text,
    reason = Some text /\
    lambda_handler env event w
    = (Ok (mkResponse 400
             (json_dumps None
                (VDict [("error", VStr "Validation failed");
                        ("message", VStr text)]))), w).
Proof.
  intros Hrej.
  assert (exists text, reason = Some text) as [text ->].
  { revert Hrej. unfold validate_telemetry.
    destruct (List.find _ required_fields); [intros [= <-]; eauto|].
    destruct (_ || _); [intros [= <-]; eauto|].
    destruct (_ || _); [intros [= <-]; eauto|].
    destruct (parse_timestamp event) as [dt|e]; [discriminate|].
    destruct (exn_class_of e); intros [= <-] || discriminate; eauto. }
  exists text. split; [reflexivity|].
  apply (lambda_handler_rejected env event (Some text) w Hrej).
Qed.

(** C3. For every validated record, a failure of the fast-store write is
    caught: [store_in_dynamodb] returns (it does not raise), and returns
    [False] exactly when the request failed. The archival write is then
    attempted all the same: [archive_to_s3] sends its [put_object], and it
    too returns, with [False] exactly when that request failed. The handler
    itself returns a response that records both results. *)
Theorem write_failures_are_caught (event : dict) (w : World) :
  validate_telemetry event = Ok (true, None) ->
  exists sid dt w1 w2 response w3,
    store_in_dynamodb env event w = (Ok (fast_write_ok env w), w1) /\
    archive_to_s3 env event w1 = (Ok (archive_write_ok env w1), w2) /\
    calls w2
    = (calls w1 ++ [CallPutObject (archive_key env sid dt w1)
                      (archived_object env event sid w1)])%list /\
    lambda_handler env event w = (Ok response, w3) /\
    calls w3 = calls w2 /\
    exists message now,
      body response
      = json_dumps None
          (VDict [("message", VStr message);
                  ("station_id", VStr sid);
                  ("dynamodb_success", VBool (fast_write_ok env w));
                  ("s3_success", VBool (archive_write_ok env w1));
                  ("timestamp", VStr now)]).
Proof.
  intros Hvalid.
  accepted_record Hvalid sid ts dt Hsid Hts' Hdt Hts.
  exists sid, dt, (after_store env event sid w),
    (after_archive env event sid dt (after_store env event sid w)).
  eexists. eexists.
  split; [apply store_in_dynamodb_spec; exact Hsid|].
  split; [apply archive_to_s3_spec; assumption|].
  split; [reflexivity|].
  split; [apply (lambda_handler_accepted env event sid dt w Hvalid Hsid Hts)|].
  split; [reflexivity|].
  eexists. eexists. reflexivity.
Qed.

End Outcome.

Lemma ingest_status_three_way_witness :
  validate_telemetry scenario_record = Ok (true, None) /\
  status_after fast_store_down_env scenario_record empty_world = Some 207.
Proof.
  assert (validate_telemetry scenario_record = Ok (true, None)) as Hvalid
    by reflexivity.
  split; [exact Hvalid|].
  destruct (ingest_status_three_way fast_store_down_env scenario_record
              empty_world Hvalid)
    as (sid & dt & response & w' & _ & _ & Hrun & _ & Hpartial & _).
  unfold status_after. rewrite Hrun. cbn [fst].
  f_equal. apply Hpartial. discriminate.
Defined.

Lemma rejected_record_writes_nothing_witness :
  validate_telemetry negative_count_no_timestamp
  = Ok (false, Some "Missing required field: timestamp") /\
  world_after spread_uuids_env negative_count_no_timestamp empty_world
  = empty_world.
Proof.
  assert (validate_telemetry negative_count_no_timestamp
          = Ok (false, Some "Missing required field: timestamp")) as Hrej
    by reflexivity.
  split; [exact Hrej|].
  destruct (rejected_record_writes_nothing spread_uuids_env
              negative_count_no_timestamp _ empty_world Hrej)
    as (text & _ & Hrun).
  unfold world_after. rewrite Hrun. reflexivity.
Defined.

Lemma write_failures_are_caught_witness :
  validate_telemetry scenario_record = Ok (true, None) /\
  fast_write_ok fast_store_down_env empty_world = false /\
  exists key obj,
    calls (world_after fast_store_down_env scenario_record empty_world)
    = [CallPutItem
         (stored_item fast_store_down_env scenario_record empty_world);
       CallPutObject key obj].
Proof.
  assert (validate_telemetry scenario_record = Ok (true, None)) as Hvalid
    by reflexivity.
  split; [exact Hvalid|]. split; [reflexivity|].
  destruct (write_failures_are_caught fast_store_down_env scenario_record
              empty_world Hvalid)
    as (sid & dt & w1 & w2 & response & w3 & Hstore & _ & Hcalls & Hrun
        & Hsame & _).
  exists (archive_key fast_store_down_env sid dt w1),
    (archived_object fast_store_down_env scenario_record sid w1).
  unfold world_after. rewrite Hrun. cbn [snd]. rewrite Hsame, Hcalls.
  f_equal. rewrite (store_in_dynamodb_spec fast_store_down_env
                      scenario_record "station-01" empty_world eq_refl)
    in Hstore.
  injection Hstore as <-. reflexivity.
Defined.

(* --------------------------------------------------------------------- *)
(** *** The same record twice *)
(* --------------------------------------------------------------------- *)

Section Twice.
Context `{DatetimeModule} `{DecimalModule}.
Variable env : Env.

(** C5, as amended. Ingesting the same valid record twice, all four writes
    succeeding (both runs answer 200), leaves the fast store with one row
    under the station id, the item of the second write, and every other row
    as it was. The two object keys differ exactly when the eight
    hexadecimal digits taken from the two uuids differ: then the archive
    holds both objects; when the digits coincide the keys coincide and the
    second object has replaced the first. *)
Theorem ingest_twice (event : dict) (w : World) :
  validate_telemetry event = Ok (true, None) ->
  status_after env event w = Some 200 ->
  status_after env event (world_after env event w) = Some 200 ->
  exists sid dt,
    dict_get "station_id" event = Some (VStr sid) /\
    parse_timestamp event = Ok dt /\
    let w1 := world_after env event w in
    let w2 := world_after env event w1 in
    let hex1 := uuid_hex (uuid4_int env (uuid_draws w)) in
    let hex2 := uuid_hex (uuid4_int env (S (uuid_draws w))) in
    let key1 := s3_key_of sid dt hex1 in
    let key2 := s3_key_of sid dt hex2 in
    let obj1 := archived_object env event sid (after_store env event sid w) in
    let obj2 := archived_object env event sid (after_store env event sid w1) in
    table w2 !! sid = Some (stored_item env event w1) /\
    (forall k, k <> sid -> table w2 !! k = table w !! k) /\
    (key1 = key2 <-> prefix_slice 8 hex1 = prefix_slice 8 hex2) /\
    (key1 <> key2 ->
       bucket w2 !! key1 = Some obj1 /\ bucket w2 !! key2 = Some obj2) /\
    (key1 = key2 -> bucket w2 = <[key1 := obj2]> (bucket w)) /\
    (forall k, k <> key1 -> k <> key2 -> bucket w2 !! k = bucket w !! k).
Proof.
  intros Hvalid Hfirst Hsecond.
  accepted_record Hvalid sid ts dt Hsid Hts' Hdt Hts.
  exists sid, dt. split; [exact Hsid|]. split; [exact Hts|].
  destruct (world_after_accepted env event sid dt w Hvalid Hsid Hts)
    as [Hw1 Hs1].
  rewrite Hs1 in Hfirst. injection Hfirst as Hfirst.
  apply three_way_status_200 in Hfirst as [Hf1 Ha1].
  set (w1 := world_after env event w) in *.
  destruct (world_after_accepted env event sid dt w1 Hvalid Hsid Hts)
    as [Hw2 Hs2].
  rewrite Hs2 in Hsecond. injection Hsecond as Hsecond.
  apply three_way_status_200 in Hsecond as [Hf2 Ha2].
  cbn zeta. rewrite Hw2.
  assert (uuid_draws w1 = S (uuid_draws w)) as Hdraws
    by (rewrite Hw1; reflexivity).
  assert (table w1 = <[sid := stored_item env event w]> (table w)) as Htable.
  { rewrite Hw1. cbn [after_clock after_archive after_store table].
    rewrite Hf1. reflexivity. }
  assert (bucket w1
          = <[s3_key_of sid dt (uuid_hex (uuid4_int env (uuid_draws w)))
              := archived_object env event sid (after_store env event sid w)]>
              (bucket w)) as Hbucket.
  { rewrite Hw1. cbn [after_clock after_archive after_store bucket].
    change (archive_write_ok env (after_store env event sid w))
      with (archive_write_ok env w).
    rewrite Ha1. reflexivity. }
  cbn [after_clock after_archive after_store table bucket].
  change (archive_write_ok env (after_store env event sid w1))
    with (archive_write_ok env w1).
  rewrite Hf2, Ha2, Htable, Hbucket.
  unfold archive_key. cbn [after_store uuid_draws]. rewrite Hdraws.
  set (key1 := s3_key_of sid dt (uuid_hex (uuid4_int env (uuid_draws w)))).
  set (key2 := s3_key_of sid dt (uuid_hex (uuid4_int env (S (uuid_draws w))))).
  split; [apply lookup_insert_eq|].
  split.
  { intros k Hk. rewrite !lookup_insert_ne by congruence. reflexivity. }
  split.
  { split; [apply s3_key_of_inj|].
    intros Hhex. unfold key1, key2, s3_key_of. rewrite Hhex. reflexivity. }
  split.
  { intros Hne. split.
    - rewrite lookup_insert_ne by congruence. apply lookup_insert_eq.
    - apply lookup_insert_eq. }
  split.
  { intros Heq. rewrite <- Heq. apply insert_insert_eq. }
  intros k Hk1 Hk2. rewrite !lookup_insert_ne by congruence. reflexivity.
Qed.

End Twice.

Lemma ingest_twice_witness :
  validate_telemetry scenario_record = Ok (true, None) /\
  status_after spread_uuids_env scenario_record empty_world = Some 200 /\
  status_after spread_uuids_env scenario_record
    (world_after spread_uuids_env scenario_record empty_world) = Some 200 /\
  table (world_after spread_uuids_env scenario_record
           (world_after spread_uuids_env scenario_record empty_world))
    !! "station-01"
  = Some (stored_item spread_uuids_env scenario_record
            (world_after spread_uuids_env scenario_record empty_world)).
Proof.
  assert (validate_telemetry scenario_record = Ok (true, None)) as Hvalid
    by reflexivity.
  assert (status_after spread_uuids_env scenario_record empty_world
          = Some 200) as Hfirst by (vm_compute; reflexivity).
  assert (status_after spread_uuids_env scenario_record
            (world_after spread_uuids_env scenario_record empty_world)
          = Some 200) as Hsecond by (vm_compute; reflexivity).
  split; [exact Hvalid|]. split; [exact Hfirst|]. split; [exact Hsecond|].
  destruct (ingest_twice spread_uuids_env scenario_record empty_world
              Hvalid Hfirst Hsecond)
    as (sid & dt & Hsid & _ & Htable & _).
  injection Hsid as <-. exact Htable.
Defined.

(** C5, as stated, fails: two different uuids that share their first eight
    hexadecimal digits give the same object key twice, and after two
    successful runs the archive holds one object, not two. *)
Lemma same_prefix_uuids_one_object :
  validate_telemetry scenario_record = Ok (true, None) /\
  status_after close_uuids_env scenario_record empty_world = Some 200 /\
  status_after close_uuids_env scenario_record
    (world_after close_uuids_env scenario_record empty_world) = Some 200 /\
  uuid4_int close_uuids_env 0 <> uuid4_int close_uuids_env 1 /\
  put_object_keys
    (calls (world_after close_uuids_env scenario_record
              (world_after close_uuids_env scenario_record empty_world)))
  = ["telemetry/year=2024/month=01/day=15/station-01_20240115_142345_3f2a9c1e.json";
     "telemetry/year=2024/month=01/day=15/station-01_20240115_142345_3f2a9c1e.json"] /\
  size (bucket (world_after close_uuids_env scenario_record
                  (world_after close_uuids_env scenario_record empty_world)))
  = 1%nat.
Proof.
  repeat split; try (vm_compute; reflexivity).
  vm_compute. discriminate.
Qed.

(* --------------------------------------------------------------------- *)
(** *** The object key and the object body *)
(* --------------------------------------------------------------------- *)

Section ArchiveKey.
Context `{DatetimeModule} `{DecimalModule}.
Variable env : Env.


End ArchiveKey.


(** C6. The code breaks the claim, and the key structure of its own
    docstring ([year=YYYY], beside [month=MM] and [day=DD], which it does
    pad), on a record stamped in the year 999: the record is valid, and
    its object goes under [year=999], which no key of the four-digit
    format is (whatever [%Y] prints for that year). *)
Lemma year_999_key_has_three_digits :
  validate_telemetry old_record = Ok (true, None) /\
  parse_timestamp old_record = Ok (mkDatetime 999 1 15 14 23 45) /\
  exists key,
    put_object_keys
      (calls (world_after close_uuids_env old_record empty_world)) = [key] /\
    String.prefix "telemetry/year=999/month=01/day=15/station-01_" key
    = true /\
    forall hex8 : string,
      key <> spec_archive_key "station-01" (mkDatetime 999 1 15 14 23 45) hex8.
Proof.
  split; [reflexivity|]. split; [reflexivity|].
  eexists. split; [vm_compute; reflexivity|].
  split; [vm_compute; reflexivity|].
  intros hex8 Heq. vm_compute in Heq. discriminate Heq.
Qed.

End TelemetryClaims.

(* ===================================================================== *)
(** ** The validator *)
(* ===================================================================== *)

Module ValidatorClaims.
Import PyFloat Py PyFacts TelemetryHandler TelemetryHandlerFacts Examples.

(** A battery count the claim calls negative or non-numeric. *)
Definition negative_or_non_numeric (v : value) : Prop :=
  isinstance_int_float v = false \/ lt_zero v = true.

(** A station id that passes its check: a string that is not blank. *)
Definition station_id_passes (v : value) : Prop :=
  exists sid, v = VStr sid /\ strip sid <> "".


(** The checks made before the one on the timestamp pass. *)
Definition reaches_timestamp_check (data : dict) : Prop :=
  (exists sid, dict_get "station_id" data = Some (VStr sid) /\ strip sid <> "")
  /\ (exists b, dict_get "battery_available" data = Some b /\
                isinstance_int_float b = true /\ lt_zero b = false).


(** A valid station and count, and a timestamp in [bytes]. *)
Definition bytes_timestamp_record : dict :=
  [("station_id", VStr "station-01");
   ("battery_available", VInt 12);
   ("timestamp", VBytes "2024-01-15T14:23:45Z")].


(** The two tests of the validator, in the words of the claims. *)
Lemma station_id_test (v : value) :
  negb (isinstance_str v) || negb (truthy (strip_method v)) = false <->
  station_id_passes v.
Proof.
  unfold station_id_passes. split.
  - destruct v; cbn [isinstance_str negb orb]; try discriminate.
    cbn [strip_method truthy]. rewrite negb_involutive.
    intros Hblank. apply String.eqb_neq in Hblank. eauto.
  - intros (sid & -> & Hstrip). cbn [isinstance_str negb orb strip_method truthy].
    rewrite negb_involutive. apply String.eqb_neq. exact Hstrip.
Qed.

Lemma battery_count_test (b : value) :
  negb (isinstance_int_float b) || lt_zero b = true <->
  negative_or_non_numeric b.
Proof.
  unfold negative_or_non_numeric. rewrite orb_true_iff, negb_true_iff.
  reflexivity.
Qed.

Section Validator.
Context `{DatetimeModule}.


(** C10, as amended. On every dictionary whose timestamp is not in
    [bytes], the validator returns a pair and never raises. A record whose
    timestamp is present but is neither a string nor [bytes] is always
    rejected: with the invalid-timestamp reason when the record passes the
    earlier checks (required fields present, station id a string that is
    not blank, battery count a number not below 0), and otherwise with the
    reason of the first check it fails: the missing [station_id], the
    missing [battery_available], the station id, or the battery count. *)
Theorem validate_telemetry_total :
  (forall data : dict,
     (forall b, dict_get "timestamp" data <> Some (VBytes b)) ->
     exists verdict reason, validate_telemetry data = Ok (verdict, reason)) /\
  (forall (data : dict) (ts : value),
     dict_get "timestamp" data = Some ts ->
     isinstance_str ts = false ->
     (forall b, ts <> VBytes b) ->
     (reaches_timestamp_check data ->
      validate_telemetry data = Ok (false, Some msg_timestamp)) /\
     (dict_mem "station_id" data = false ->
      validate_telemetry data
      = Ok (false, Some (msg_missing "station_id"))) /\
     (dict_mem "station_id" data = true ->
      dict_mem "battery_available" data = false ->
      validate_telemetry data
      = Ok (false, Some (msg_missing "battery_available"))) /\
     (forall v,
        dict_get "station_id" data = Some v ->
        dict_mem "battery_available" data = true ->
        ~ station_id_passes v ->
        validate_telemetry data = Ok (false, Some msg_station_id)) /\
     (forall v b,
        dict_get "station_id" data = Some v ->
        station_id_passes v ->
        dict_get "battery_available" data = Some b ->
        negative_or_non_numeric b ->
        validate_telemetry data = Ok (false, Some msg_battery))).
Proof.
  split.
  - intros data Hbytes. rewrite validate_telemetry_unfold.
    destruct (dict_get "station_id" data) as [sid|]; [|eauto].
    destruct (dict_get "battery_available" data) as [b|]; [|eauto].
    destruct (dict_get "timestamp" data) as [ts|]; [|eauto].
    destruct (_ || _); [eauto|]. destruct (_ || _); [eauto|].
    destruct ts; eauto.
    + destruct (fromisoformat _); eauto.
    + exfalso. eapply Hbytes. reflexivity.
  - intros data ts Hts Hnot_str Hnot_bytes.
    rewrite validate_telemetry_unfold, Hts. unfold dict_mem.
    repeat split.
    + intros ((sid & Hsid & Hstrip) & (b & Hb & Hnum & Hneg)).
      rewrite Hsid, Hb.
      assert (station_id_passes (VStr sid)) as Hpass by (exists sid; auto).
      apply station_id_test in Hpass. rewrite Hpass, Hnum, Hneg.
      cbn [negb orb].
      destruct ts; try reflexivity; try discriminate.
      exfalso. eapply Hnot_bytes. reflexivity.
    + destruct (dict_get "station_id" data); [discriminate|reflexivity].
    + destruct (dict_get "station_id" data); [|discriminate].
      destruct (dict_get "battery_available" data);
        [discriminate|reflexivity].
    + intros v Hv Hb Hfails. rewrite Hv.
      destruct (dict_get "battery_available" data) as [b|]; [|discriminate].
      destruct (negb (isinstance_str v) || negb (truthy (strip_method v)))
        eqn:Htest; [reflexivity|].
      apply station_id_test in Htest. contradiction.
    + intros v b Hv Hpass Hb Hbad. rewrite Hv, Hb.
      apply station_id_test in Hpass. apply battery_count_test in Hbad.
      rewrite Hpass, Hbad. reflexivity.
Qed.

End Validator.



Lemma validate_telemetry_total_witness :
  dict_get "timestamp" epoch_timestamp_record = Some (VInt 1705328625) /\
  reaches_timestamp_check epoch_timestamp_record /\
  validate_telemetry epoch_timestamp_record = Ok (false, Some msg_timestamp).
Proof.
  assert (reaches_timestamp_check epoch_timestamp_record) as Hreach.
  { split.
    - exists "station-01". split; [reflexivity|]. vm_compute. discriminate.
    - exists (VInt 12). repeat split. }
  split; [reflexivity|]. split; [exact Hreach|].
  assert (forall b, VInt 1705328625 <> VBytes b) as Hnot_bytes
    by (intros b; discriminate).
  exact (proj1 (proj2 validate_telemetry_total epoch_timestamp_record
                  (VInt 1705328625) eq_refl eq_refl Hnot_bytes) Hreach).
Defined.

(** C10, as stated, fails in both halves: a record whose timestamp is an
    integer and whose battery count is negative is rejected for the count,
    not for the timestamp; and on a record whose timestamp is in [bytes]
    the validator raises the [TypeError] of [bytes.replace], which its
    [except] clause does not list. *)
Lemma integer_timestamp_rejected_for_count :
  (dict_get "timestamp" negative_count_epoch_timestamp
   = Some (VInt 1705328625) /\
   isinstance_str (VInt 1705328625) = false /\
   validate_telemetry negative_count_epoch_timestamp
   = Ok (false, Some "battery_available must be a non-negative number")) /\
  (isinstance_str (VBytes "2024-01-15T14:23:45Z") = false /\
   validate_telemetry bytes_timestamp_record = Raise bytes_replace_error).
Proof. repeat split. Qed.

End ValidatorClaims.

(* ===================================================================== *)
(** ** The single-station lookup of the query API *)
(* ===================================================================== *)

Module ApiClaims.
Import PyFloat Py PyFacts ApiHandler Examples.

(** An event for [GET /stations/{station_id}]. *)
Definition get_station_event (station_id : string) : Event :=
  mkEvent "GET" ("/stations/" ++ station_id)
    (PathParamsMap [("station_id", station_id)]).

Definition always_up : Env := mkEnv (fun _ => None).

Definition first_read_fails : Env :=
  mkEnv (fun k => match k with
                  | O => Some (mkExn ClientError "InternalServerError")
                  | _ => None
                  end).

Definition empty_table : World := mkWorld ∅ 0.

Section Lookup.
Context `{DecimalModule}.
Variable env : Env.

(** C7. For every station id (a string that is not empty) the table holds
    no row for: when the read goes through, [get_station_by_id] returns
    [None], it does not raise, and the API layer answers 404 with the body
    [{"error": "Not found", "message": "Station {id} not found"}]; when the
    read fails, [get_station_by_id] raises the store's exception and the
    API layer answers 500. *)
Theorem absent_station_is_not_found (event : Event) (station_id : string)
  (w : World) :
  station_id <> "" ->
  path_station_id event = Ok (Some station_id) ->
  table w !! station_id = None ->
  match dynamodb_read_fault env (reads w) with
  | None =>
      fst (get_station_by_id env station_id w) = Ok VNone /\
      fst (handle_get_station_by_id env event w)
      = Ok (create_response 404
              (VDict [("error", VStr "Not found");
                      ("message",
                       VStr ("Station " ++ station_id ++ " not found"))]))
  | Some e =>
      fst (get_station_by_id env station_id w) = Raise e /\
      fst (handle_get_station_by_id env event w)
      = Ok (create_response 500
              (VDict [("error", VStr "Internal server error");
                      ("message", VStr "Failed to retrieve station")]))
  end.
Proof.
  intros Hid Hpath Habsent.
  unfold handle_get_station_by_id, eff_try, eff_bind, eff_lift.
  rewrite Hpath.
  destruct station_id as [|c rest]; [congruence|].
  unfold get_station_by_id, eff_try, eff_bind, get_item, eff_ret, eff_raise.
  destruct (dynamodb_read_fault env (reads w)) as [e|].
  - split; reflexivity.
  - rewrite Habsent. split; reflexivity.
Qed.

End Lookup.

Lemma absent_station_is_not_found_witness :
  path_station_id (get_station_event "does-not-exist")
  = Ok (Some "does-not-exist") /\
  table empty_table !! "does-not-exist" = None /\
  fst (handle_get_station_by_id always_up
         (get_station_event "does-not-exist") empty_table)
  = Ok (create_response 404
          (VDict [("error", VStr "Not found");
                  ("message", VStr "Station does-not-exist not found")])) /\
  exists response,
    fst (handle_get_station_by_id first_read_fails
           (get_station_event "does-not-exist") empty_table) = Ok response /\
    statusCode response = 500.
Proof.
  assert ("does-not-exist" <> "") as Hid by discriminate.
  split; [reflexivity|]. split; [reflexivity|].
  split.
  { exact (proj2 (absent_station_is_not_found always_up
                    (get_station_event "does-not-exist") "does-not-exist"
                    empty_table Hid eq_refl eq_refl)). }
  eexists. split.
  { exact (proj2 (absent_station_is_not_found first_read_fails
                    (get_station_event "does-not-exist") "does-not-exist"
                    empty_table Hid eq_refl eq_refl)). }
  reflexivity.
Defined.

End ApiClaims.

(* ===================================================================== *)
(** ** The simulator: bounds and the battery sum *)
(* ===================================================================== *)

Module SimulatorClaims.
Import PyFloat PyFloatFacts StationSimulator StationSimulatorFacts Examples.

Section WithRandom.
Context {G : Type} `{RandomModule G}.

(** C4. For every station, as constructed by [__init__] and after any
    number of calls of [update]: both battery counts are at least 0, the
    temperature lies in [15.0, 35.0] and the humidity in [20.0, 80.0]. *)
Theorem bounds_after_any_number_of_ticks (sid : string) (n : nat)
  (w : World G) :
  let s := station_after sid n w in
  0 <= battery_available s /\ 0 <= battery_charging s /\
  within (of_Z 15) (of_Z 35) (temperature s) /\
  within (of_Z 20) (of_Z 80) (humidity s).
Proof.
  unfold station_after, st_bind.
  pose proof (init_in_bounds sid w) as Hinit.
  destruct (init sid w) as [s0 w0]. cbn [fst] in Hinit.
  exact (ticks_in_bounds n s0 w0 Hinit).
Qed.

(** C9. For every state of a station, one call of [update] keeps the sum
    of the two battery counts, and so does any number of calls: the
    charging rule either does nothing or moves one battery from charging
    to available, the swap rule either does nothing or moves one battery
    from available to charging, and the other three rules leave both
    counts alone. *)
Theorem update_preserves_battery_sum (self : BatterySwapStation)
  (w : World G) (n : nat) :
  battery_available (fst (update self w))
  + battery_charging (fst (update self w))
  = battery_available self + battery_charging self /\
  battery_available (fst (ticks n self w))
  + battery_charging (fst (ticks n self w))
  = battery_available self + battery_charging self /\
  (let s := fst (simulate_battery_charging self w) in
   (battery_available s = battery_available self /\
    battery_charging s = battery_charging self) \/
   (battery_available s = battery_available self + 1 /\
    battery_charging s = battery_charging self - 1)) /\
  (let s := fst (simulate_battery_swap self w) in
   (battery_available s = battery_available self /\
    battery_charging s = battery_charging self) \/
   (battery_available s = battery_available self - 1 /\
    battery_charging s = battery_charging self + 1)) /\
  (let s := fst (simulate_temperature_change self w) in
   battery_available s = battery_available self /\
   battery_charging s = battery_charging self) /\
  (let s := fst (simulate_humidity_change self w) in
   battery_available s = battery_available self /\
   battery_charging s = battery_charging self) /\
  (let s := fst (simulate_status_change self w) in
   battery_available s = battery_available self /\
   battery_charging s = battery_charging self).
Proof.
  split; [exact (update_battery_total self w)|].
  split; [exact (ticks_battery_total n self w)|].
  split.
  { destruct (charging_moves_one self w) as [Hsame|(_ & Hmove)]; auto. }
  split.
  { destruct (swap_moves_one self w) as [Hsame|(_ & Hmove)]; auto. }
  split.
  { destruct (temperature_keeps_counts self w) as (Ha & Hc & _). auto. }
  split.
  { destruct (humidity_keeps_counts self w) as (Ha & Hc & _). auto. }
  destruct (status_keeps_readings self w) as (Ha & Hc & _). auto.
Qed.

End WithRandom.

(** The counting generator satisfies the contract of the random module, so
    the bounds hold of the stations it drives. *)
Lemma bounds_after_any_number_of_ticks_witness :
  in_bounds (station_after "station-01" 100 (mkWorld 0%nat example_clock 0)).
Proof.
  exact (bounds_after_any_number_of_ticks "station-01" 100
           (mkWorld 0%nat example_clock 0)).
Defined.

End SimulatorClaims.

(* ===================================================================== *)
(** ** More of the simulator: status, swap counter, empty stations *)
(* ===================================================================== *)

Module SimulatorExtras.
Import PyFloat PyFloatFacts StationSimulator StationSimulatorFacts Examples.

(** The two values the status of a station takes. *)
Definition status_known (s : BatterySwapStation) : Prop :=
  status s = "operational" \/ status s = "maintenance".

Section WithRandom.
Context {G : Type} `{RandomModule G}.

(** What each rule does to the fields it is not about. *)
Lemma charging_keeps_rest (self : BatterySwapStation) (w : World G) :
  let s := fst (simulate_battery_charging self w) in
  station_id s = station_id self /\ status s = status self /\
  total_swaps_today s = total_swaps_today self /\
  last_swap_time s = last_swap_time self.
Proof.
  unfold simulate_battery_charging, st_bind, random, st_ret.
  destruct (0 <? battery_charging self); simpl; [|auto].
  destruct (random_random (rng w)) as [r g].
  destruct (lt r (of_ratio 1 5)); simpl; auto.
Qed.

Lemma swap_counts_one (self : BatterySwapStation) (w : World G) :
  let s := fst (simulate_battery_swap self w) in
  station_id s = station_id self /\ status s = status self /\
  ((battery_available s = battery_available self /\
    total_swaps_today s = total_swaps_today self /\
    last_swap_time s = last_swap_time self) \/
   (0 < battery_available self /\
    battery_available s = battery_available self - 1 /\
    total_swaps_today s = total_swaps_today self + 1)).
Proof.
  unfold simulate_battery_swap, st_bind, random, utcnow_isoformat_Z, st_ret.
  destruct (0 <? battery_available self) eqn:Hpos; simpl; [|auto 10].
  apply Z.ltb_lt in Hpos.
  destruct (random_random (rng w)) as [r g].
  destruct (lt r (of_ratio 3 20)); simpl; auto 10.
Qed.

Lemma temperature_keeps_rest (self : BatterySwapStation) (w : World G) :
  let s := fst (simulate_temperature_change self w) in
  station_id s = station_id self /\ status s = status self /\
  total_swaps_today s = total_swaps_today self /\
  last_swap_time s = last_swap_time self.
Proof.
  unfold simulate_temperature_change, st_bind, uniform, st_ret.
  destruct (random_uniform _ _ (rng w)) as [change g]; simpl. auto.
Qed.

Lemma humidity_keeps_rest (self : BatterySwapStation) (w : World G) :
  let s := fst (simulate_humidity_change self w) in
  station_id s = station_id self /\ status s = status self /\
  total_swaps_today s = total_swaps_today self /\
  last_swap_time s = last_swap_time self.
Proof.
  unfold simulate_humidity_change, st_bind, uniform, st_ret.
  destruct (random_uniform _ _ (rng w)) as [change g]; simpl. auto.
Qed.

Lemma status_change_shape (self : BatterySwapStation) (w : World G) :
  let s := fst (simulate_status_change self w) in
  station_id s = station_id self /\
  total_swaps_today s = total_swaps_today self /\
  last_swap_time s = last_swap_time self /\
  (status s = status self \/
   (status self = "operational" /\ status s = "maintenance") \/
   (status self = "maintenance" /\ status s = "operational")).
Proof.
  unfold simulate_status_change, st_bind, random, st_ret, set_status.
  destruct (String.eqb (status self) "operational") eqn:Hop;
    destruct (String.eqb (status self) "maintenance") eqn:Hmt;
    try apply String.eqb_eq in Hop; try apply String.eqb_eq in Hmt;
    destruct (random_random (rng w)) as [r g]; simpl;
    repeat match goal with
    | |- context [lt ?a ?b] => destruct (lt a b); simpl
    | |- context [random_random ?g] => destruct (random_random g); simpl
    end; auto 10.
Qed.

(** One tick, on the fields that are not counts or readings. *)
Lemma update_shape (self : BatterySwapStation) (w : World G) :
  let s := fst (update self w) in
  station_id s = station_id self /\
  (status s = status self \/
   (status self = "operational" /\ status s = "maintenance") \/
   (status self = "maintenance" /\ status s = "operational")) /\
  ((total_swaps_today s = total_swaps_today self /\
    last_swap_time s = last_swap_time self) \/
   ((0 < battery_available self \/ 0 < battery_charging self) /\
    total_swaps_today s = total_swaps_today self + 1)).
Proof.
  destruct (update_unfold self w)
    as (s1 & w1 & s2 & w2 & s3 & w3 & s4 & w4 & E1 & E2 & E3 & E4 & E5).
  cbn zeta. rewrite E5.
  pose proof (charging_keeps_rest self w) as K1.
  pose proof (charging_moves_one self w) as M1.
  pose proof (swap_counts_one s1 w1) as K2.
  pose proof (temperature_keeps_rest s2 w2) as K3.
  pose proof (humidity_keeps_rest s3 w3) as K4.
  pose proof (status_change_shape s4 w4) as K5.
  rewrite E1 in K1, M1. rewrite E2 in K2. rewrite E3 in K3.
  rewrite E4 in K4. cbn [fst] in *.
  destruct K1 as (I1 & S1 & T1 & L1), K2 as (I2 & S2 & Hswap),
           K3 as (I3 & S3 & T3 & L3), K4 as (I4 & S4 & T4 & L4),
           K5 as (I5 & T5 & L5 & Hstatus).
  split; [congruence|]. split.
  - rewrite <- S1, <- S2, <- S3, <- S4. exact Hstatus.
  - destruct Hswap as [(_ & T2 & L2)|(Hpos & _ & T2)].
    + left. split; congruence.
    + right. split; [|congruence].
      destruct M1 as [[Ha Hc]|(Hc & Ha & _)]; lia.
Qed.

Lemma ticks_shape (n : nat) :
  forall (self : BatterySwapStation) (w : World G),
    let s := fst (ticks n self w) in
    station_id s = station_id self /\
    (status_known self -> status_known s) /\
    total_swaps_today self <= total_swaps_today s
    <= total_swaps_today self + Z.of_nat n.
Proof.
  induction n as [|n IH]; intros self w; cbn zeta.
  - simpl. repeat split; auto; lia.
  - cbn [ticks]. unfold st_bind.
    pose proof (update_shape self w) as Hu.
    destruct (update self w) as [s1 w1]. cbn [fst] in Hu. cbn beta iota.
    destruct Hu as (Hid & Hstatus & Hswaps).
    destruct (IH s1 w1) as (Hid' & Hknown & Hbound).
    split; [congruence|]. split.
    + intros Hk. apply Hknown. unfold status_known in *.
      destruct Hstatus as [Hs|[[_ Hs]|[_ Hs]]]; rewrite Hs; auto.
    + destruct Hswaps as [[Ht _]|[_ Ht]]; lia.
Qed.

Lemma init_shape (sid : string) (w : World G) :
  let s := fst (init sid w) in
  station_id s = sid /\ status s = "operational" /\
  0 <= total_swaps_today s <= 50.
Proof.
  unfold init, st_bind, randint, uniform, utcnow_isoformat_Z, st_ret.
  destruct (random_randint 8 15 (rng w)) as [a g1]; cbn [fst snd rng].
  destruct (random_randint 2 6 g1) as [c g2]; cbn [fst snd rng].
  destruct (random_uniform (of_Z 20) (of_Z 30) g2) as [t g3];
    cbn [fst snd rng].
  destruct (random_uniform (of_Z 30) (of_Z 60) g3) as [h g4];
    cbn [fst snd rng].
  pose proof (randint_range 0 50 g4) as Hk.
  destruct (random_randint 0 50 g4) as [k g5]; cbn [fst snd rng] in *.
  cbn [station_id status total_swaps_today].
  repeat split; try reflexivity; lia.
Qed.

Lemma station_after_shape (sid : string) (n : nat) (w : World G) :
  station_id (station_after sid n w) = sid /\
  status_known (station_after sid n w) /\
  0 <= total_swaps_today (station_after sid n w) <= 50 + Z.of_nat n /\
  in_bounds (station_after sid n w).
Proof.
  unfold station_after, st_bind.
  pose proof (init_shape sid w) as Hinit.
  pose proof (init_in_bounds sid w) as Hbounds.
  destruct (init sid w) as [s0 w0]. cbn [fst] in Hinit, Hbounds.
  cbn beta iota.
  destruct Hinit as (Hid & Hstatus & Hswaps).
  destruct (ticks_shape n s0 w0) as (Hid' & Hknown & Hbound).
  split; [congruence|]. split; [apply Hknown; left; exact Hstatus|].
  split; [lia|]. apply ticks_in_bounds. exact Hbounds.
Qed.

(** X1. A station keeps the id it was constructed with, and its status is
    "operational" or "maintenance" after construction and after any number
    of ticks: no third status is ever set. *)
Theorem station_id_and_status_stay (sid : string) (n : nat) (w : World G) :
  station_id (station_after sid n w) = sid /\
  (status (station_after sid n w) = "operational" \/
   status (station_after sid n w) = "maintenance").
Proof.
  unfold station_after, st_bind.
  pose proof (init_shape sid w) as Hinit.
  destruct (init sid w) as [s0 w0]. cbn [fst] in Hinit.
  destruct Hinit as (Hid & Hstatus & _).
  destruct (ticks_shape n s0 w0) as (Hid' & Hknown & _).
  split; [congruence|]. apply Hknown. left. exact Hstatus.
Qed.

(** X2. The swap counter never goes down and goes up by at most one per
    tick: after [n] ticks from any state it lies between its old value and
    its old value plus [n]; for a station as constructed it lies between 0
    and [50 + n]. *)
Theorem swap_counter_bounds (self : BatterySwapStation) (sid : string)
  (n : nat) (w : World G) :
  total_swaps_today self <= total_swaps_today (fst (ticks n self w))
  <= total_swaps_today self + Z.of_nat n /\
  0 <= total_swaps_today (station_after sid n w) <= 50 + Z.of_nat n.
Proof.
  split; [apply ticks_shape|].
  unfold station_after, st_bind.
  pose proof (init_shape sid w) as Hinit.
  destruct (init sid w) as [s0 w0]. cbn [fst] in Hinit.
  destruct Hinit as (_ & _ & Hswaps).
  destruct (ticks_shape n s0 w0) as (_ & _ & Hbound). lia.
Qed.

(** X3. A station with no battery at all (none available, none charging)
    stays that way: after any number of ticks both counts are still 0, and
    the swap counter and the time of the last swap are what they were. *)
Theorem empty_station_never_swaps (self : BatterySwapStation) (n : nat) :
  battery_available self = 0 -> battery_charging self = 0 ->
  forall w : World G,
    let s := fst (ticks n self w) in
    battery_available s = 0 /\ battery_charging s = 0 /\
    total_swaps_today s = total_swaps_today self /\
    last_swap_time s = last_swap_time self.
Proof.
  revert self. induction n as [|n IH]; intros self Ha Hc w; cbn zeta.
  - simpl. auto.
  - cbn [ticks]. unfold st_bind.
    pose proof (update_shape self w) as Hu.
    pose proof (update_battery_total self w) as Ht.
    pose proof (update_in_bounds self w) as Hb.
    destruct (update self w) as [s1 w1]. cbn [fst] in *. cbn beta iota.
    destruct Hu as (_ & _ & Hswaps).
    destruct Hb as (Ha1 & Hc1 & _); [lia..|].
    unfold battery_total in Ht.
    destruct Hswaps as [[Hsame Hlast]|[Hpos _]]; [|lia].
    destruct (IH s1 ltac:(lia) ltac:(lia) w1) as (Ha' & Hc' & Hs' & Hl').
    repeat split; congruence.
Qed.

Lemma init_counts (sid : string) (w : World G) :
  let s := fst (init sid w) in
  8 <= battery_available s <= 15 /\ 2 <= battery_charging s <= 6.
Proof.
  unfold init, st_bind, randint, uniform, utcnow_isoformat_Z, st_ret.
  pose proof (randint_range 8 15 (rng w)) as Ha.
  destruct (random_randint 8 15 (rng w)) as [a g1]; cbn [fst snd rng] in *.
  pose proof (randint_range 2 6 g1) as Hc.
  destruct (random_randint 2 6 g1) as [c g2]; cbn [fst snd rng] in *.
  destruct (random_uniform (of_Z 20) (of_Z 30) g2) as [t g3];
    cbn [fst snd rng].
  destruct (random_uniform (of_Z 30) (of_Z 60) g3) as [h g4];
    cbn [fst snd rng].
  destruct (random_randint 0 50 g4) as [k g5]; cbn [fst snd rng] in *.
  cbn [battery_available battery_charging]. lia.
Qed.

(** X21. A station is built with 8 to 15 available and 2 to 6 charging
    batteries, and no tick adds or removes one: after any number of ticks
    the two counts still sum to what they summed to at construction,
    between 10 and 21, so neither count ever exceeds 21. *)
Theorem battery_counts_stay_below_22 (sid : string) (n : nat) (w : World G) :
  battery_total (station_after sid n w)
  = battery_total (fst (init sid w)) /\
  10 <= battery_total (station_after sid n w) <= 21 /\
  0 <= battery_available (station_after sid n w) <= 21 /\
  0 <= battery_charging (station_after sid n w) <= 21.
Proof.
  pose proof (station_after_shape sid n w) as (_ & _ & _ & Hbounds).
  destruct Hbounds as (Ha & Hc & _).
  assert (battery_total (station_after sid n w)
          = battery_total (fst (init sid w))) as Htotal.
  { unfold station_after, st_bind.
    destruct (init sid w) as [s0 w0]. cbn [fst]. apply ticks_battery_total. }
  pose proof (init_counts sid w) as Hinit. cbn zeta in Hinit.
  split; [exact Htotal|].
  unfold battery_total in *. lia.
Qed.

End WithRandom.

Lemma empty_station_never_swaps_witness :
  let empty :=
    mkStation "station-01" 0 0 (of_Z 25) (of_Z 40) "operational" 7
      "2024-01-15T14:00:00Z" in
  total_swaps_today
    (fst (ticks 50 empty (mkWorld 0%nat example_clock 0))) = 7.
Proof.
  exact (proj1 (proj2 (proj2
    (empty_station_never_swaps
       (mkStation "station-01" 0 0 (of_Z 25) (of_Z 40) "operational" 7
          "2024-01-15T14:00:00Z") 50 eq_refl eq_refl
       (mkWorld 0%nat example_clock 0))))).
Defined.

End SimulatorExtras.

(* ===================================================================== *)
(** ** The telemetry message and the publishing loop *)
(* ===================================================================== *)

Module PublisherExtras.
Import PyFloat PyFloatFacts Py PyFacts StationSimulator StationSimulatorFacts.
Import TelemetryPublisher Examples SimulatorExtras.

(** [round(x, 1)] computed on the exact value of the float: the nearest
    multiple of one tenth, ties to the even one, then the float nearest to
    it. *)
Definition round_tenths (x : float) : float :=
  match x with
  | S754_finite s m e =>
      if 0 <=? e then x
      else
        let den := 2 ^ (- e) in
        let num := Zpos m * 10 in
        let q := num / den in
        let r := num mod den in
        let q :=
          if 2 * r <? den then q
          else if den <? 2 * r then q + 1
          else if Z.even q then q else q + 1 in
        match q with
        | Zpos q' =>
            SFdiv prec emax (S754_finite s q' 0) (S754_finite false 10 0)
        | _ => S754_zero s
        end
  | _ => x
  end.

#[global] Instance tenths : RoundModule := {| round_1 := round_tenths |}.

(** The topic a station publishes on. *)
Definition topic_of (station : BatterySwapStation) : string :=
  "ev/station/" ++ station_id station ++ "/telemetry".

(** Of the requests [requests], made from the [k]-th on, those the broker
    acknowledges. *)
Fixpoint acknowledged_of (mqtt : MqttEnv) (k : nat)
  (requests : list (string * JsonText)) : list (string * JsonText) :=
  match requests with
  | [] => []
  | request :: rest =>
      match publish_fault mqtt k with
      | None => request :: acknowledged_of mqtt (S k) rest
      | Some _ => acknowledged_of mqtt (S k) rest
      end
  end.

(** A clock that ticks in whole seconds. *)
Definition second_clock (k : nat) : string :=
  "2024-01-15T14:23:" ++ format_02d (Z.of_nat (k mod 60)).

Lemma rstrip_keeps_head (c : ascii) (s : string) :
  is_space c = false -> rstrip (String c s) <> "".
Proof.
  intros Hc. simpl. rewrite Hc. destruct (rstrip s); discriminate.
Qed.

Lemma pretty_N_go_head (n : N) :
  forall s : string,
    (0 < n)%N ->
    exists c rest, pretty_N_go n s = String c rest /\ c <> "0"%char.
Proof.
  induction (N.lt_wf_0 n) as [n _ IH]. intros s Hpos.
  destruct (N.lt_ge_cases n 10) as [Hsmall|Hbig].
  - rewrite pretty_N_go_small by lia.
    exists (pretty_N_char n), s. split; [reflexivity|].
    assert (n = 1 \/ n = 2 \/ n = 3 \/ n = 4 \/ n = 5 \/ n = 6 \/ n = 7
            \/ n = 8 \/ n = 9)%N as Hn by lia.
    repeat (destruct Hn as [->|Hn]; [discriminate|]). subst n. discriminate.
  - rewrite pretty_N_go_step by lia.
    apply IH; zify; Z.to_euclidean_division_equations; lia.
Qed.

Lemma str_int_head (z : Z) :
  0 < z -> exists c rest, str_int z = String c rest /\ c <> "0"%char.
Proof.
  intros Hz. rewrite str_int_positive by lia.
  apply pretty_N_go_head. lia.
Qed.

(** [f"{i:02d}"] tells numbers apart. *)
Lemma format_02d_inj (a b : Z) :
  0 <= a -> 0 <= b -> format_02d a = format_02d b -> a = b.
Proof.
  assert (forall x y : Z,
            0 <= x -> 0 <= y ->
            (String.length (str_int x) <? 2)%nat = true ->
            (String.length (str_int y) <? 2)%nat = false ->
            "0" ++ str_int x = str_int y -> False) as Hmixed.
  { intros x y Hx Hy _ Hlong Heq.
    destruct (Z.eq_dec y 0) as [->|Hne]; [discriminate Hlong|].
    destruct (str_int_head y ltac:(lia)) as (c & rest & Hy' & Hc).
    rewrite Hy' in Heq. change (String "0" (str_int x) = String c rest) in Heq.
    congruence. }
  intros Ha Hb. unfold format_02d.
  destruct (String.length (str_int a) <? 2)%nat eqn:Hla;
    destruct (String.length (str_int b) <? 2)%nat eqn:Hlb; intros Heq.
  - apply String.app_inj in Heq. apply (inj pretty) in Heq. exact Heq.
  - exfalso. eapply (Hmixed a b); eauto.
  - exfalso. eapply (Hmixed b a); eauto.
  - apply (inj pretty) in Heq. exact Heq.
Qed.

(** The id [IoTSimulator] gives its [i]-th station. *)
Definition station_name (i : nat) : string :=
  "station-" ++ format_02d (Z.of_nat i).

Lemma station_name_inj (i j : nat) : station_name i = station_name j -> i = j.
Proof.
  unfold station_name. intros Heq. apply String.app_inj in Heq.
  apply format_02d_inj in Heq; lia.
Qed.

Lemma station_name_not_blank (i : nat) : strip (station_name i) <> "".
Proof.
  unfold station_name, strip.
  change ("station-" ++ format_02d (Z.of_nat i))
    with (String "s" ("tation-" ++ format_02d (Z.of_nat i))).
  cbn [lstrip]. change (is_space "s") with false. cbn iota.
  apply rstrip_keeps_head. reflexivity.
Qed.

Section WithRandom.
Context {G : Type} `{RandomModule G} `{RoundModule} `{DatetimeModule}.
Variable mqtt : MqttEnv.

Lemma telemetry_dict_valid (station : BatterySwapStation) (now : string)
  (dt : datetime) :
  strip (station_id station) <> "" ->
  0 <= battery_available station ->
  fromisoformat (replace_char "Z" "+00:00" now) = Some dt ->
  TelemetryHandler.validate_telemetry (telemetry_dict station now) = Ok (true, None).
Proof.
  intros Hid Hcount Hparse.
  unfold TelemetryHandler.validate_telemetry, telemetry_dict, to_dict,
    get_telemetry.
  cbn [dict_set String.eqb Ascii.eqb Bool.eqb state_station_id
       state_battery_available state_battery_charging state_temperature
       state_humidity state_status state_total_swaps_today
       state_last_swap_time].
  unfold TelemetryHandler.required_fields, dict_mem, dict_get_default,
    TelemetryHandler.parse_timestamp, dict_getitem.
  cbn [List.find dict_get String.eqb Ascii.eqb Bool.eqb negb
       TelemetryHandler.isinstance_str TelemetryHandler.strip_method truthy
       TelemetryHandler.isinstance_int_float TelemetryHandler.lt_zero
       orb res_bind TelemetryHandler.replace_Z].
  apply String.eqb_neq in Hid. rewrite Hid.
  apply Z.ltb_ge in Hcount. rewrite Hcount.
  cbn [negb orb]. rewrite Hparse. reflexivity.
Qed.

(** X4. Every telemetry message of a simulated station passes the
    validator of the ingestion handler: for a station constructed with an
    id that is not blank, after any number of ticks, the dictionary
    [publish_telemetry] serialises is accepted by [validate_telemetry],
    provided the ISO-8601 parser reads the time stamp the clock gave it. *)
Theorem published_telemetry_is_valid (sid : string) (n : nat) (w : World G)
  (now : string) (dt : datetime) :
  strip sid <> "" ->
  fromisoformat (replace_char "Z" "+00:00" now) = Some dt ->
  TelemetryHandler.validate_telemetry (telemetry_dict (station_after sid n w) now)
  = Ok (true, None).
Proof.
  intros Hid Hparse.
  destruct (station_after_shape sid n w) as (Hsid & _ & _ & Hbounds).
  apply (telemetry_dict_valid _ now dt);
    [rewrite Hsid; exact Hid|apply Hbounds|exact Hparse].
Qed.

(** What one [publish_telemetry] leaves: it returns, whether or not the
    broker took the message. *)
Lemma publish_telemetry_spec (station : BatterySwapStation)
  (w : IoTWorld G) :
  let sw := station_world w in
  let now := StationSimulator.utcnow_iso sw (StationSimulator.clock_reads sw)
             ++ "Z" in
  let request :=
    (topic_of station, json_dumps None (VDict (telemetry_dict station now))) in
  publish_telemetry mqtt station w
  = (Ok tt,
     mkIoTWorld
       (StationSimulator.mkWorld (rng sw) (StationSimulator.utcnow_iso sw)
          (S (StationSimulator.clock_reads sw)))
       (publish_requests w ++ [request])%list
       (acknowledged w
        ++ acknowledged_of mqtt (List.length (publish_requests w)) [request])%list).
Proof.
  cbn zeta.
  unfold publish_telemetry, eff_try, eff_bind, lift_station,
    utcnow_isoformat_Z, mqtt_publish, eff_ret, acknowledged_of.
  cbn [station_world publish_requests acknowledged].
  destruct (publish_fault mqtt (List.length (publish_requests w)));
    [rewrite app_nil_r|]; reflexivity.
Qed.

(** One pass without the broker: each station is updated from the world
    the station before it left, and the clock is read once more for the
    stamp of its message. *)
Fixpoint updated_and_stamped (stations : list BatterySwapStation)
  : State (StationSimulator.World G) (list (BatterySwapStation * string)) :=
  match stations with
  | [] => st_ret []
  | station :: rest =>
      (let* station' := update station in
       let* now := utcnow_isoformat_Z in
       let* rest' := updated_and_stamped rest in
       st_ret ((station', now) :: rest'))%state
  end.

(** The publish request for an updated station and its stamp. *)
Definition request_of (p : BatterySwapStation * string)
  : string * JsonText :=
  (topic_of (fst p), json_dumps None (VDict (telemetry_dict (fst p) (snd p)))).

Lemma updated_and_stamped_each (stations : list BatterySwapStation) :
  forall sw : StationSimulator.World G,
    Forall2 (fun s p => exists sw0, fst p = fst (update s sw0))
      stations (fst (updated_and_stamped stations sw)).
Proof.
  induction stations as [|station rest IH]; intros sw.
  - constructor.
  - cbn [updated_and_stamped]. unfold st_bind, utcnow_isoformat_Z, st_ret.
    destruct (update station sw) as [s1 sw1] eqn:Hupdate.
    match goal with
    | |- context [updated_and_stamped rest ?sw2] =>
        specialize (IH sw2);
        destruct (updated_and_stamped rest sw2) as [published sw3]
    end.
    cbn [fst snd] in *. constructor; [|exact IH].
    exists sw. rewrite Hupdate. reflexivity.
Qed.

(** X5. One pass of the publishing loop never stops early: whatever
    requests the broker refuses, it returns. The stations it returns are
    the given ones, each updated once by [update], in their order and each
    from the state of the generator and the clock the one before it left;
    one publish request has been made for each, in the same order, on the
    topic [ev/station/{id}/telemetry] and with the telemetry dictionary of
    the updated station as payload, stamped with the clock as read right
    after its update. The broker's refusals change neither the stations
    nor the requests. *)
Theorem run_stations_publishes_every_station
  (stations : list BatterySwapStation) :
  forall w : IoTWorld G,
  exists w',
    let published := fst (updated_and_stamped stations (station_world w)) in
    run_stations mqtt stations w = (Ok (List.map fst published), w') /\
    station_world w' = snd (updated_and_stamped stations (station_world w)) /\
    publish_requests w'
    = (publish_requests w ++ List.map request_of published)%list /\
    Forall2 (fun s p => exists sw, fst p = fst (update s sw))
      stations published.
Proof.
  induction stations as [|station rest IH]; intros w.
  - exists w. cbn [run_stations updated_and_stamped]. unfold eff_ret, st_ret.
    cbn [fst snd List.map]. rewrite app_nil_r. repeat split. constructor.
  - pose proof (updated_and_stamped_each (station :: rest) (station_world w))
      as Heach.
    cbn [run_stations updated_and_stamped] in *.
    unfold eff_bind at 1. unfold lift_station at 1.
    unfold st_bind, utcnow_isoformat_Z, st_ret in *.
    destruct (update station (station_world w)) as [s1 sw1].
    unfold eff_bind at 1.
    rewrite publish_telemetry_spec.
    cbn [station_world publish_requests acknowledged fst snd rng
         StationSimulator.utcnow_iso StationSimulator.clock_reads] in *.
    match goal with
    | |- context [eff_bind (run_stations mqtt rest) _ ?w1] =>
        destruct (IH w1) as (w' & Hrun & Hworld & Hsent & _)
    end.
    cbn [station_world publish_requests] in Hrun, Hworld, Hsent.
    unfold eff_bind. rewrite Hrun. unfold eff_ret.
    match type of Hworld with
    | _ = snd (updated_and_stamped rest ?sw2) =>
        destruct (updated_and_stamped rest sw2) as [published sw3]
    end.
    cbn [fst snd] in *.
    exists w'. cbn [List.map fst snd].
    split; [reflexivity|]. split; [exact Hworld|].
    split; [|exact Heach].
    rewrite Hsent, <- app_assoc. reflexivity.
Qed.

Lemma create_stations_shape (indices : list nat) :
  forall w : StationSimulator.World G,
    let stations := fst (create_stations indices w) in
    List.map station_id stations = List.map station_name indices /\
    Forall (fun s => in_bounds s /\ status s = "operational") stations.
Proof.
  induction indices as [|i rest IH]; intros w; cbn zeta.
  - cbn. split; [reflexivity|constructor].
  - cbn [create_stations]. unfold st_bind.
    pose proof (init_shape (station_name i) w) as Hshape.
    pose proof (init_in_bounds (station_name i) w) as Hbounds.
    fold (station_name i).
    destruct (init (station_name i) w) as [s0 w0]. cbn [fst] in *.
    specialize (IH w0). cbn zeta in IH.
    destruct (create_stations rest w0) as [stations w1]. cbn [fst] in *.
    unfold st_ret. cbn [fst List.map].
    destruct Hshape as (Hid & Hstatus & _). destruct IH as [Hids Hall].
    split; [congruence|]. constructor; auto.
Qed.

(** X6. [IoTSimulator(num_stations, interval)] creates [num_stations]
    stations (none for a number below 1), named [station-01],
    [station-02], ... in this order; the ids are pairwise different and
    none is blank, and every station starts operational and within the
    bounds of the simulator. *)
Theorem iot_stations_are_distinct (num_stations : Z)
  (w : StationSimulator.World G) :
  let stations := fst (iot_stations num_stations w) in
  List.length stations = Z.to_nat num_stations /\
  List.map station_id stations
  = List.map station_name (seq 1 (Z.to_nat num_stations)) /\
  NoDup (List.map station_id stations) /\
  Forall (fun s => strip (station_id s) <> "" /\ in_bounds s /\
                   status s = "operational") stations.
Proof.
  cbn zeta. unfold iot_stations.
  destruct (create_stations_shape (seq 1 (Z.to_nat num_stations)) w)
    as [Hids Hall].
  set (stations := fst (create_stations (seq 1 (Z.to_nat num_stations)) w))
    in *.
  split.
  { rewrite <- (length_map station_id), Hids, length_map, length_seq.
    reflexivity. }
  split; [exact Hids|].
  split.
  { rewrite Hids.
    assert (Inj eq eq station_name) as Hinj
      by (intros i j; apply station_name_inj).
    apply (NoDup_fmap_2 station_name). apply NoDup_seq. }
  apply Forall_forall. intros s Hin.
  rewrite Forall_forall in Hall. destruct (Hall s Hin) as [Hb Hs].
  split; [|auto].
  assert (In (station_id s) (List.map station_name
                               (seq 1 (Z.to_nat num_stations)))) as Hname.
  { rewrite <- Hids. apply in_map. apply list_elem_of_In. exact Hin. }
  apply in_map_iff in Hname as (i & <- & _). apply station_name_not_blank.
Qed.

Lemma topic_of_by_id (stations : list BatterySwapStation) :
  List.map topic_of stations
  = List.map (fun sid => "ev/station/" ++ sid ++ "/telemetry")
      (List.map station_id stations).
Proof. rewrite map_map. reflexivity. Qed.

Lemma run_stations_round (stations : list BatterySwapStation) :
  forall w : IoTWorld G,
  exists stations' w' requests,
    run_stations mqtt stations w = (Ok stations', w') /\
    List.map station_id stations' = List.map station_id stations /\
    List.map battery_total stations' = List.map battery_total stations /\
    (Forall in_bounds stations -> Forall in_bounds stations') /\
    publish_requests w' = (publish_requests w ++ requests)%list /\
    List.map fst requests = List.map topic_of stations.
Proof.
  induction stations as [|station rest IH]; intros w.
  - exists [], w, []. cbn [run_stations]. unfold eff_ret.
    rewrite app_nil_r. repeat split; auto.
  - cbn [run_stations]. unfold eff_bind at 1. unfold lift_station at 1.
    pose proof (update_shape station (station_world w)) as Hshape.
    pose proof (update_battery_total station (station_world w)) as Htotal.
    pose proof (update_in_bounds station (station_world w)) as Hbounds.
    destruct (update station (station_world w)) as [s1 sw1].
    cbn [fst] in Hshape, Htotal, Hbounds. destruct Hshape as (Hid & _).
    unfold eff_bind at 1.
    rewrite publish_telemetry_spec.
    cbn [station_world publish_requests acknowledged].
    match goal with
    | |- context [eff_bind (run_stations mqtt rest) _ ?w1] =>
        destruct (IH w1) as (rest' & w' & requests & Hrun & Hids & Htotals
                             & Hall & Hsent & Htopics)
    end.
    unfold eff_bind. rewrite Hrun. unfold eff_ret.
    cbn [publish_requests] in Hsent.
    eexists (s1 :: rest'), w', (_ :: requests).
    split; [reflexivity|]. cbn [List.map fst].
    split; [congruence|]. split; [congruence|].
    split.
    { intros Hin. apply Forall_cons in Hin as [Hs Hrest].
      apply Forall_cons. split; [|exact (Hall Hrest)].
      apply Hbounds; apply Hs. }
    split; [rewrite Hsent, <- app_assoc; reflexivity|].
    rewrite Htopics. unfold topic_of. rewrite Hid. reflexivity.
Qed.

(** X20. The publishing loop, for any number of turns: it never stops on
    a refused publish; after [n] turns every station has its id and the
    sum of its two battery counts unchanged, stations that were within the
    simulator's bounds still are, and [n] times one request for each
    station has been made, turn after turn in the order of the stations,
    each on the topic [ev/station/{station_id}/telemetry]. *)
Theorem run_cycles_publishes_in_rounds (n : nat)
  (stations : list BatterySwapStation) :
  forall w : IoTWorld G,
  exists stations' w' requests,
    run_cycles mqtt n stations w = (Ok stations', w') /\
    List.map station_id stations' = List.map station_id stations /\
    List.map battery_total stations' = List.map battery_total stations /\
    (Forall in_bounds stations -> Forall in_bounds stations') /\
    publish_requests w' = (publish_requests w ++ requests)%list /\
    List.map fst requests
    = concat (replicate n (List.map topic_of stations)).
Proof.
  revert stations. induction n as [|n IH]; intros stations w.
  - exists stations, w, []. cbn [run_cycles]. unfold eff_ret.
    rewrite app_nil_r. repeat split; auto.
  - cbn [run_cycles]. unfold eff_bind.
    destruct (run_stations_round stations w)
      as (s1 & w1 & r1 & -> & Hids1 & Htotals1 & Hall1 & Hsent1 & Htopics1).
    destruct (IH s1 w1)
      as (s2 & w2 & r2 & -> & Hids2 & Htotals2 & Hall2 & Hsent2 & Htopics2).
    exists s2, w2, (r1 ++ r2)%list.
    split; [reflexivity|]. split; [congruence|]. split; [congruence|].
    split; [auto|].
    split; [rewrite Hsent2, Hsent1, <- app_assoc; reflexivity|].
    rewrite map_app, Htopics1, Htopics2. cbn [replicate concat].
    rewrite (topic_of_by_id s1), Hids1, <- topic_of_by_id. reflexivity.
Qed.

End WithRandom.

Lemma published_telemetry_is_valid_witness :
  strip "station-01" <> "" /\
  fromisoformat (replace_char "Z" "+00:00" (second_clock 46 ++ "Z"))
  = Some (mkDatetime 2024 1 15 14 23 46) /\
  TelemetryHandler.validate_telemetry
    (telemetry_dict
       (station_after "station-01" 5
          (StationSimulator.mkWorld 0%nat second_clock 0))
       (second_clock 46 ++ "Z"))
  = Ok (true, None).
Proof.
  assert (strip "station-01" <> "") as Hid by (vm_compute; discriminate).
  assert (fromisoformat (replace_char "Z" "+00:00" (second_clock 46 ++ "Z"))
          = Some (mkDatetime 2024 1 15 14 23 46)) as Hparse
    by (vm_compute; reflexivity).
  split; [exact Hid|]. split; [exact Hparse|].
  exact (published_telemetry_is_valid "station-01" 5
           (StationSimulator.mkWorld 0%nat second_clock 0)
           (second_clock 46 ++ "Z") _ Hid Hparse).
Defined.

End PublisherExtras.

(* ===================================================================== *)
(** ** Numbers on their way to the store and back *)
(* ===================================================================== *)

Module ConversionExtras.
Import PyFloat Py PyFacts.

(** Whether a value holds a float, a decimal, anywhere inside. *)
Fixpoint contains_float (v : value) : bool :=
  match v with
  | VFloat _ => true
  | VList l => existsb contains_float l
  | VDict d => existsb (fun kv => contains_float (snd kv)) d
  | _ => false
  end.

Fixpoint contains_decimal (v : value) : bool :=
  match v with
  | VDecimal _ => true
  | VList l => existsb contains_decimal l
  | VDict d => existsb (fun kv => contains_decimal (snd kv)) d
  | _ => false
  end.

(** A decimal of which the remainder by 1 cannot be taken in the default
    context: an infinity, a signalling NaN, or a finite decimal whose
    integer part has more than 28 digits. *)
Definition remainder_undefined (d : PyDecimal) : bool :=
  match d with
  | DecFinite _ c e =>
      (10 ^ 28 <=? (if (0 <=? e)%Z then c * 10 ^ Z.to_N e
                    else c / 10 ^ Z.to_N (- e)))%N
  | DecInf _ | DecSNaN => true
  | DecNaN => false
  end.

(** Whether a value holds such a decimal, anywhere inside. *)
Fixpoint contains_undivisible (v : value) : bool :=
  match v with
  | VDecimal d => remainder_undefined d
  | VList l => existsb contains_undivisible l
  | VDict d => existsb (fun kv => contains_undivisible (snd kv)) d
  | _ => false
  end.

(** The floats [convert_floats_to_decimal] does not reach: those inside a
    list or a dictionary that is itself an item of a list. *)
Definition float_below_item (item : value) : bool :=
  match item with
  | VFloat _ => false
  | _ => contains_float item
  end.

Fixpoint float_left_behind (v : value) : bool :=
  match v with
  | VList l => existsb float_below_item l
  | VDict d => existsb (fun kv => float_left_behind (snd kv)) d
  | _ => false
  end.

(** Induction on values, through lists and dictionaries. *)
Section ValueInduction.
Variable P : value -> Prop.
Hypothesis HNone : P VNone.
Hypothesis HBool : forall b, P (VBool b).
Hypothesis HInt : forall z, P (VInt z).
Hypothesis HFloat : forall f, P (VFloat f).
Hypothesis HStr : forall s, P (VStr s).
Hypothesis HDecimal : forall d, P (VDecimal d).
Hypothesis HList : forall l, Forall P l -> P (VList l).
Hypothesis HDict : forall d, Forall (fun kv => P (snd kv)) d -> P (VDict d).
Hypothesis HBytes : forall b, P (VBytes b).

Fixpoint value_nested_ind (v : value) : P v :=
  match v with
  | VNone => HNone
  | VBool b => HBool b
  | VInt z => HInt z
  | VFloat f => HFloat f
  | VStr s => HStr s
  | VDecimal d => HDecimal d
  | VList l =>
      HList l
        ((fix all (l : list value) : Forall P l :=
            match l with
            | [] => @List.Forall_nil _ P
            | x :: rest =>
                @List.Forall_cons _ P x rest (value_nested_ind x) (all rest)
            end) l)
  | VDict d =>
      HDict d
        ((fix all (d : list (string * value))
            : Forall (fun kv => P (snd kv)) d :=
            match d with
            | [] => @List.Forall_nil _ (fun kv => P (snd kv))
            | kv :: rest =>
                @List.Forall_cons _ (fun kv => P (snd kv)) kv rest
                  (value_nested_ind (snd kv)) (all rest)
            end) d)
  | VBytes b => HBytes b
  end.

End ValueInduction.

Lemma existsb_map {A B} (f : B -> bool) (g : A -> B) (l : list A) :
  existsb f (List.map g l) = existsb (fun x => f (g x)) l.
Proof. induction l as [|x l IH]; simpl; [reflexivity|]. rewrite IH. reflexivity. Qed.

Lemma existsb_Forall_ext {A} (f g : A -> bool) (l : list A) :
  Forall (fun x => f x = g x) l -> existsb f l = existsb g l.
Proof.
  induction 1 as [|x l Hx _ IH]; simpl; [reflexivity|]. rewrite Hx, IH.
  reflexivity.
Qed.

Lemma existsb_false_Forall {A} (f : A -> bool) (l : list A) :
  existsb f l = false -> Forall (fun x => f x = false) l.
Proof.
  induction l as [|x l IH]; simpl; intros Hex; constructor;
    apply orb_false_iff in Hex as [Hx Hl]; auto.
Qed.

Lemma map_Forall_id {A} (f : A -> A) (l : list A) :
  Forall (fun x => f x = x) l -> List.map f l = l.
Proof.
  induction 1 as [|x l Hx _ IH]; simpl; [reflexivity|]. rewrite Hx, IH.
  reflexivity.
Qed.

Lemma map_Forall_ext {A B} (f g : A -> B) (l : list A) :
  Forall (fun x => f x = g x) l -> List.map f l = List.map g l.
Proof.
  induction 1 as [|x l Hx _ IH]; simpl; [reflexivity|]. rewrite Hx, IH.
  reflexivity.
Qed.

Section Telemetry.
Import TelemetryHandler.
Context `{DecimalModule}.

(** The conversion of one item of a list. *)
Definition convert_item (item : value) : value :=
  match item with
  | VFloat f => VDecimal (Decimal_of_float_str f)
  | _ => item
  end.

Lemma convert_value_floats (v : value) :
  contains_float (convert_value v) = float_left_behind v.
Proof.
  induction v as [| | | | | |l IH|d IH|] using value_nested_ind;
    try reflexivity.
  - cbn [convert_value contains_float float_left_behind].
    rewrite existsb_map. apply existsb_Forall_ext.
    apply Forall_forall. intros item _. destruct item; reflexivity.
  - cbn [convert_value contains_float float_left_behind].
    rewrite existsb_map. apply existsb_Forall_ext.
    eapply Forall_impl; [exact IH|]. intros [k x] Hx. exact Hx.
Qed.

Lemma convert_value_without_floats (v : value) :
  contains_float v = false -> convert_value v = v.
Proof.
  induction v as [| | | | | |l IH|d IH|] using value_nested_ind;
    try reflexivity; try discriminate; cbn [contains_float convert_value];
    intros Hnone; f_equal.
  - apply map_Forall_id. apply existsb_false_Forall in Hnone.
    eapply Forall_impl; [exact Hnone|].
    intros item Hitem. destruct item; try reflexivity. discriminate.
  - apply map_Forall_id. apply existsb_false_Forall in Hnone.
    rewrite Forall_forall in IH, Hnone. apply Forall_forall.
    intros [k x] Hin. cbn [fst snd]. f_equal.
    apply (IH (k, x) Hin). apply (Hnone (k, x) Hin).
Qed.

Lemma convert_value_idempotent (v : value) :
  convert_value (convert_value v) = convert_value v.
Proof.
  induction v as [| | | | | |l IH|d IH|] using value_nested_ind;
    try reflexivity; cbn [convert_value]; f_equal; rewrite map_map.
  - apply map_Forall_ext. apply Forall_forall. intros item _.
    destruct item; reflexivity.
  - apply map_Forall_ext. eapply Forall_impl; [exact IH|].
    intros [k x] Hx. cbn [fst snd] in *. rewrite Hx. reflexivity.
Qed.

(** What the conversion makes of one item of a list. *)
Definition item_converted (item item' : value) : Prop :=
  match item with
  | VFloat f => item' = VDecimal (Decimal_of_float_str f)
  | _ => item' = item
  end.

(** What the conversion makes of the value under one key. *)
Definition field_converted (v v' : value) : Prop :=
  match v with
  | VFloat f => v' = VDecimal (Decimal_of_float_str f)
  | VDict d => v' = VDict (convert_floats_to_decimal d)
  | VList l => exists l', v' = VList l' /\ Forall2 item_converted l l'
  | _ => v' = v
  end.

Lemma convert_items_related (l : list value) :
  Forall2 item_converted l (List.map convert_item l).
Proof.
  induction l as [|item l IH]; cbn [List.map]; constructor; [|exact IH].
  destruct item; reflexivity.
Qed.

Lemma convert_value_field (v : value) : field_converted v (convert_value v).
Proof.
  destruct v; cbn [field_converted convert_value]; try reflexivity.
  eexists. split; [reflexivity|]. apply convert_items_related.
Qed.

(** X7. [convert_floats_to_decimal] keeps the keys and their order, and
    under each key: a float becomes [Decimal(str(x))], a dictionary is
    converted in the same way, a list keeps its length and has its items
    that are floats turned into decimals and its other items kept as they
    are, and any other value is kept. So it does not reach every float:
    the floats still in its result are exactly those that sit inside a
    list or dictionary that is itself an item of a list. It changes
    nothing in a record without floats, and applying it twice is the same
    as applying it once. *)
Theorem convert_floats_to_decimal_reach (data : dict) :
  List.map fst (convert_floats_to_decimal data) = List.map fst data /\
  (forall key v,
     dict_get key data = Some v ->
     exists v',
       dict_get key (convert_floats_to_decimal data) = Some v' /\
       field_converted v v') /\
  contains_float (VDict (convert_floats_to_decimal data))
  = float_left_behind (VDict data) /\
  (contains_float (VDict data) = false ->
   convert_floats_to_decimal data = data) /\
  convert_floats_to_decimal (convert_floats_to_decimal data)
  = convert_floats_to_decimal data.
Proof.
  split.
  { unfold convert_floats_to_decimal. rewrite map_map. reflexivity. }
  split.
  { intros key v Hget. exists (convert_value v). split.
    - unfold convert_floats_to_decimal.
      rewrite dict_get_map_values, Hget. reflexivity.
    - apply convert_value_field. }
  split; [exact (convert_value_floats (VDict data))|].
  split.
  - intros Hnone.
    pose proof (convert_value_without_floats (VDict data) Hnone) as Hid.
    cbn [convert_value] in Hid. injection Hid as Hid. exact Hid.
  - pose proof (convert_value_idempotent (VDict data)) as Hid.
    cbn [convert_value] in Hid. injection Hid as Hid. exact Hid.
Qed.

End Telemetry.

(** A record with a float at the top, one in a nested dictionary, one
    that is an item of a list, and one inside a list that is an item of a
    list. *)
Definition half : float := PyFloat.of_ratio 1 2.

Definition layered_record : dict :=
  [("station_id", VStr "station-01");
   ("temperature", VFloat half);
   ("sensors", VDict [("humidity", VFloat half)]);
   ("history", VList [VFloat half; VList [VFloat half]])].

Lemma convert_floats_to_decimal_reach_witness :
  (exists v',
     dict_get "temperature"
       (TelemetryHandler.convert_floats_to_decimal layered_record) = Some v' /\
     v' = VDecimal (Decimal_of_float_str half)) /\
  (exists v',
     dict_get "history"
       (TelemetryHandler.convert_floats_to_decimal layered_record) = Some v' /\
     exists l',
       v' = VList l' /\
       Forall2 item_converted [VFloat half; VList [VFloat half]] l') /\
  contains_float
    (VDict (TelemetryHandler.convert_floats_to_decimal layered_record))
  = true.
Proof.
  pose proof (convert_floats_to_decimal_reach layered_record)
    as (_ & Hfields & Hleft & _).
  split; [|split].
  - apply (Hfields "temperature" (VFloat half)). reflexivity.
  - apply (Hfields "history" (VList [VFloat half; VList [VFloat half]])).
    reflexivity.
  - rewrite Hleft. reflexivity.
Defined.

End ConversionExtras.

(* ===================================================================== *)
(** ** The query handler beyond the lookup of one station *)
(* ===================================================================== *)

Module ApiExtras.
Import PyFloat Py PyFacts ApiHandler ApiRouting ConversionExtras Examples.

Section Conversion.
Context `{DecimalModule}.

(** The two comprehensions of [decimal_to_float], named. *)
Fixpoint convert_list (l : list value) : result (list value) :=
  match l with
  | [] => Ok []
  | item :: rest =>
      res_bind (decimal_to_float item) (fun item' =>
      res_bind (convert_list rest) (fun rest' => Ok (item' :: rest')))
  end.

Fixpoint convert_dict (d : dict) : result dict :=
  match d with
  | [] => Ok []
  | (key, v) :: rest =>
      res_bind (decimal_to_float v) (fun v' =>
      res_bind (convert_dict rest) (fun rest' => Ok ((key, v') :: rest')))
  end.

Lemma decimal_to_float_list (l : list value) :
  decimal_to_float (VList l)
  = res_bind (convert_list l) (fun l' => Ok (VList l')).
Proof. reflexivity. Qed.

Lemma decimal_to_float_dict (d : dict) :
  decimal_to_float (VDict d)
  = res_bind (convert_dict d) (fun d' => Ok (VDict d')).
Proof. reflexivity. Qed.

Lemma convert_decimal_outcome (d : PyDecimal) :
  if remainder_undefined d
  then exists e, convert_decimal d = Raise e /\
                 exn_class_of e = InvalidOperation
  else exists v, convert_decimal d = Ok v /\ contains_decimal v = false.
Proof.
  destruct d as [neg c e|neg| |];
    unfold convert_decimal, decimal_is_integral, remainder_undefined, pow10,
      decimal_prec;
    cbn [res_bind Z.to_N];
    try (eexists; split; reflexivity).
  destruct (10 ^ 28 <=? (if (0 <=? e)%Z then c * 10 ^ Z.to_N e
                         else c / 10 ^ Z.to_N (- e)))%N;
    cbn [res_bind]; [eexists; split; reflexivity|].
  destruct (0 <=? e)%Z; cbn [res_bind]; [eexists; split; reflexivity|].
  destruct (_ || _); eexists; split; reflexivity.
Qed.

(** [decimal_to_float] raises exactly on a value that holds a decimal
    whose remainder by 1 cannot be taken, and otherwise returns a value
    without decimals. *)
Lemma decimal_to_float_outcome (v : value) :
  (contains_undivisible v = true /\
   exists e, decimal_to_float v = Raise e /\
             exn_class_of e = InvalidOperation) \/
  (contains_undivisible v = false /\
   exists v', decimal_to_float v = Ok v' /\ contains_decimal v' = false).
Proof.
  induction v as [| | | | |d|l IH|d IH|] using value_nested_ind;
    try (right; split; [reflexivity|eexists; split; reflexivity]).
  - pose proof (convert_decimal_outcome d) as Hd.
    cbn [decimal_to_float contains_undivisible].
    destruct (remainder_undefined d); [left|right]; split;
      solve [reflexivity | exact Hd].
  - rewrite decimal_to_float_list. cbn [contains_undivisible].
    assert ((existsb contains_undivisible l = true /\
             exists e, convert_list l = Raise e /\
                       exn_class_of e = InvalidOperation) \/
            (existsb contains_undivisible l = false /\
             exists l', convert_list l = Ok l' /\
                        existsb contains_decimal l' = false)) as Hl.
    { induction IH as [|x rest Hx _ IHrest].
      - right. split; [reflexivity|]. exists []. split; reflexivity.
      - cbn [existsb convert_list].
        destruct Hx as [[Hbad (e & Hraise & Hcls)]
                       |[Hfine (x' & Hx' & Hclean)]].
        + left. rewrite Hbad, Hraise. split; [reflexivity|].
          exists e. split; [reflexivity|exact Hcls].
        + rewrite Hfine, Hx'. cbn [orb res_bind].
          destruct IHrest as [[Hbad (e & Hraise & Hcls)]
                             |[Hfine' (l' & Hl' & Hclean')]].
          * left. rewrite Hraise. split; [exact Hbad|].
            exists e. split; [reflexivity|exact Hcls].
          * right. rewrite Hl'. split; [exact Hfine'|].
            exists (x' :: l'). split; [reflexivity|].
            cbn [existsb]. rewrite Hclean, Hclean'. reflexivity. }
    destruct Hl as [[Hbad (e & Hraise & Hcls)]|[Hfine (l' & Hl' & Hclean)]].
    + left. rewrite Hraise. split; [exact Hbad|].
      exists e. split; [reflexivity|exact Hcls].
    + right. rewrite Hl'. split; [exact Hfine|].
      exists (VList l'). split; [reflexivity|exact Hclean].
  - rewrite decimal_to_float_dict. cbn [contains_undivisible].
    assert ((existsb (fun kv => contains_undivisible (snd kv)) d = true /\
             exists e, convert_dict d = Raise e /\
                       exn_class_of e = InvalidOperation) \/
            (existsb (fun kv => contains_undivisible (snd kv)) d = false /\
             exists d', convert_dict d = Ok d' /\
                        existsb (fun kv => contains_decimal (snd kv)) d'
                        = false)) as Hd.
    { induction IH as [|[k x] rest Hx _ IHrest].
      - right. split; [reflexivity|]. exists []. split; reflexivity.
      - cbn [existsb convert_dict fst snd] in *.
        destruct Hx as [[Hbad (e & Hraise & Hcls)]
                       |[Hfine (x' & Hx' & Hclean)]].
        + left. rewrite Hbad, Hraise. split; [reflexivity|].
          exists e. split; [reflexivity|exact Hcls].
        + rewrite Hfine, Hx'. cbn [orb res_bind].
          destruct IHrest as [[Hbad (e & Hraise & Hcls)]
                             |[Hfine' (d' & Hd' & Hclean')]].
          * left. rewrite Hraise. split; [exact Hbad|].
            exists e. split; [reflexivity|exact Hcls].
          * right. rewrite Hd'. split; [exact Hfine'|].
            exists ((k, x') :: d'). split; [reflexivity|].
            cbn [existsb fst snd]. rewrite Hclean, Hclean'. reflexivity. }
    destruct Hd as [[Hbad (e & Hraise & Hcls)]|[Hfine (d' & Hd' & Hclean)]].
    + left. rewrite Hraise. split; [exact Hbad|].
      exists e. split; [reflexivity|exact Hcls].
    + right. rewrite Hd'. split; [exact Hfine|].
      exists (VDict d'). split; [reflexivity|exact Hclean].
Qed.

Lemma convert_list_id (l : list value) :
  Forall (fun x => decimal_to_float x = Ok x) l -> convert_list l = Ok l.
Proof.
  induction 1 as [|x rest Hx _ IH]; cbn [convert_list]; [reflexivity|].
  rewrite Hx, IH. reflexivity.
Qed.

Lemma convert_dict_id (d : dict) :
  Forall (fun kv => decimal_to_float (snd kv) = Ok (snd kv)) d ->
  convert_dict d = Ok d.
Proof.
  induction 1 as [|[k x] rest Hx _ IH]; cbn [convert_dict]; [reflexivity|].
  cbn [snd] in Hx. rewrite Hx, IH. reflexivity.
Qed.

Lemma decimal_to_float_without_decimals (v : value) :
  contains_decimal v = false -> decimal_to_float v = Ok v.
Proof.
  induction v as [| | | | |d|l IH|d IH|] using value_nested_ind;
    try reflexivity; try discriminate; cbn [contains_decimal]; intros Hnone.
  - rewrite decimal_to_float_list, convert_list_id; [reflexivity|].
    apply existsb_false_Forall in Hnone.
    rewrite Forall_forall in IH, Hnone. apply Forall_forall.
    intros x Hin. apply (IH x Hin), (Hnone x Hin).
  - rewrite decimal_to_float_dict, convert_dict_id; [reflexivity|].
    apply existsb_false_Forall in Hnone.
    rewrite Forall_forall in IH, Hnone. apply Forall_forall.
    intros kv Hin. apply (IH kv Hin), (Hnone kv Hin).
Qed.

Lemma convert_dict_keys (d d' : dict) :
  convert_dict d = Ok d' -> List.map fst d' = List.map fst d.
Proof.
  revert d'. induction d as [|[k x] rest IH]; cbn [convert_dict]; intros d' Hd.
  - injection Hd as <-. reflexivity.
  - destruct (decimal_to_float x) as [x'|e]; [|discriminate].
    destruct (convert_dict rest) as [rest'|e]; [|discriminate].
    cbn [res_bind] in Hd. injection Hd as <-. cbn [List.map fst].
    rewrite (IH rest' eq_refl). reflexivity.
Qed.

(** X8. [decimal_to_float] raises exactly on a value that holds, at any
    depth, a decimal whose remainder by 1 cannot be taken in the default
    context: an infinity, a signalling NaN, or a finite decimal whose
    integer part has more than 28 digits; what it raises is an invalid
    operation. On every other value it returns a value without any
    decimal left in it; a value without decimals is returned as it is;
    and a dictionary keeps its keys and their order. *)
Theorem decimal_to_float_reach (obj : value) :
  (contains_undivisible obj = true ->
   exists e, decimal_to_float obj = Raise e /\
             exn_class_of e = InvalidOperation) /\
  (contains_undivisible obj = false ->
   exists converted,
     decimal_to_float obj = Ok converted /\
     contains_decimal converted = false) /\
  (contains_decimal obj = false -> decimal_to_float obj = Ok obj) /\
  (forall d converted,
     obj = VDict d -> decimal_to_float obj = Ok converted ->
     exists d', converted = VDict d' /\ List.map fst d' = List.map fst d).
Proof.
  pose proof (decimal_to_float_outcome obj) as Hout.
  split; [|split; [|split]].
  - intros Hbad. destruct Hout as [[_ Hraise]|[Hfine _]];
      [exact Hraise|congruence].
  - intros Hfine. destruct Hout as [[Hbad _]|[_ Hok]]; [congruence|exact Hok].
  - apply decimal_to_float_without_decimals.
  - intros d converted -> Hconv. rewrite decimal_to_float_dict in Hconv.
    destruct (convert_dict d) as [d'|e] eqn:Hd; [|discriminate].
    cbn [res_bind] in Hconv. injection Hconv as <-.
    exists d'. split; [reflexivity|]. apply (convert_dict_keys _ _ Hd).
Qed.

End Conversion.

Section Routing.
Context `{DecimalModule}.
Variable env : ScanEnv.

(** The requests a full scan makes: one for the first page, also when the
    store has none to deliver, and one for every further page. *)
Definition scan_requests (w : World) : list (list dict) :=
  let pages := scan_pages env (table w) in hd [] pages :: tl pages.

Lemma scan_requests_concat (w : World) :
  concat (scan_requests w) = concat (scan_pages env (table w)).
Proof.
  unfold scan_requests. destruct (scan_pages env (table w)); reflexivity.
Qed.

Lemma scan_requests_length (w : World) :
  List.length (scan_requests w)
  = Nat.max 1 (List.length (scan_pages env (table w))).
Proof.
  unfold scan_requests. destruct (scan_pages env (table w)) as [|p [|q r]];
    reflexivity.
Qed.

Lemma scan_remaining_ok (pages : list (list dict)) :
  forall (items : list dict) (w : World),
    (forall i, (i < List.length pages)%nat -> dynamodb_read_fault (read_env env) (reads w + i)%nat = None) ->
    scan_remaining env pages items w
    = (Ok (items ++ concat pages)%list,
       mkWorld (table w) (reads w + List.length pages)).
Proof.
  induction pages as [|page rest IH]; intros items w Hup.
  - cbn [scan_remaining concat List.length]. unfold eff_ret.
    rewrite app_nil_r, Nat.add_0_r. destruct w; reflexivity.
  - cbn [scan_remaining]. unfold eff_bind, scan_request.
    assert (0 < List.length (page :: rest))%nat as Hlen
      by (cbn [List.length]; lia).
    pose proof (Hup 0%nat Hlen) as H0.
    rewrite Nat.add_0_r in H0. rewrite H0.
    rewrite IH.
    + cbn [table reads concat List.length]. rewrite <- app_assoc.
      replace (S (reads w) + List.length rest)%nat
        with (reads w + S (List.length rest))%nat by lia.
      reflexivity.
    + intros i Hi. cbn [reads].
      replace (S (reads w) + i)%nat with (reads w + S i)%nat by lia.
      apply Hup. cbn [List.length]. lia.
Qed.

Lemma scan_remaining_fails (pages : list (list dict)) :
  forall (items : list dict) (w : World) (j : nat) (e : exn),
    (j < List.length pages)%nat ->
    (forall i, (i < j)%nat -> dynamodb_read_fault (read_env env) (reads w + i)%nat = None) ->
    dynamodb_read_fault (read_env env) (reads w + j)%nat = Some e ->
    scan_remaining env pages items w
    = (Raise e, mkWorld (table w) (S (reads w + j))).
Proof.
  induction pages as [|page rest IH]; intros items w j e Hj Hup Hdown.
  - cbn [List.length] in Hj. lia.
  - cbn [scan_remaining]. unfold eff_bind, scan_request.
    destruct j as [|j].
    + rewrite Nat.add_0_r in *. rewrite Hdown. reflexivity.
    + pose proof (Hup 0%nat ltac:(lia)) as H0.
      rewrite Nat.add_0_r in H0. rewrite H0.
      rewrite (IH _ _ j e).
      * cbn [table reads].
        replace (S (reads w) + j)%nat with (reads w + S j)%nat by lia.
        reflexivity.
      * cbn [List.length] in Hj. lia.
      * intros i Hi. cbn [reads].
        replace (S (reads w) + i)%nat with (reads w + S i)%nat by lia.
        apply Hup. lia.
      * cbn [reads].
        replace (S (reads w) + j)%nat with (reads w + S j)%nat by lia.
        exact Hdown.
Qed.

(** Whatever the store does, a scan leaves the table as it is. *)
Lemma scan_remaining_frame (pages : list (list dict)) :
  forall (items : list dict) (w : World),
    table (snd (scan_remaining env pages items w)) = table w /\
    (reads w <= reads (snd (scan_remaining env pages items w)))%nat.
Proof.
  induction pages as [|page rest IH]; intros items w.
  - cbn. split; [reflexivity|lia].
  - cbn [scan_remaining]. unfold eff_bind, scan_request.
    destruct (dynamodb_read_fault (read_env env) (reads w)) as [e|].
    + cbn. split; [reflexivity|lia].
    + destruct (IH (items ++ page)%list (mkWorld (table w) (S (reads w))))
        as [Ht Hr].
      cbn [table reads] in Ht, Hr. split; [exact Ht|lia].
Qed.

Lemma get_all_stations_unfold (w : World) :
  get_all_stations env w
  = match scan_remaining env (scan_requests w) [] w with
    | (Ok items, w') => (convert_items items, w')
    | (Raise e, w') => (Raise e, w')
    end.
Proof.
  unfold get_all_stations, eff_try, scan_requests.
  cbn [scan_remaining]. unfold eff_bind at 1 3. unfold scan_request.
  destruct (dynamodb_read_fault (read_env env) (reads w)) as [e|]; [reflexivity|].
  cbn [app]. unfold eff_bind.
  destruct (scan_remaining env (tl (scan_pages env (table w)))
              (hd [] (scan_pages env (table w)))
              (mkWorld (table w) (S (reads w)))) as [[items|e] w'];
    [|reflexivity].
  unfold eff_lift, eff_raise. destruct (convert_items items); reflexivity.
Qed.

Lemma get_all_stations_frame (w : World) :
  table (snd (get_all_stations env w)) = table w /\
  (reads w <= reads (snd (get_all_stations env w)))%nat.
Proof.
  rewrite get_all_stations_unfold.
  pose proof (scan_remaining_frame (scan_requests w) [] w) as Hframe.
  destruct (scan_remaining env (scan_requests w) [] w) as [[items|e] w'];
    exact Hframe.
Qed.

Lemma convert_items_ok (items : list dict) :
  Forall (fun item => contains_undivisible (VDict item) = false) items ->
  exists stations,
    convert_items items = Ok stations /\
    Forall2 (fun item station =>
               decimal_to_float (VDict item) = Ok station /\
               contains_decimal station = false) items stations.
Proof.
  induction 1 as [|item rest Hitem _ (stations & Hrest & Hall)].
  - exists []. split; [reflexivity|constructor].
  - destruct (decimal_to_float_outcome (VDict item))
      as [[Hbad _]|[_ (station & Hstation & Hclean)]]; [congruence|].
    exists (station :: stations). cbn [convert_items].
    rewrite Hstation, Hrest. split; [reflexivity|].
    constructor; [split; assumption|exact Hall].
Qed.

Lemma handle_get_stations_outcome (event : Event) (w : World) :
  exists response w',
    handle_get_stations env event w = (Ok response, w') /\
    headers response = default_headers /\
    (statusCode response = 200 \/ statusCode response = 500) /\
    table w' = table w /\ (reads w <= reads w')%nat.
Proof.
  unfold handle_get_stations, eff_try, eff_bind, eff_ret.
  pose proof (get_all_stations_frame w) as [Ht Hr].
  destruct (get_all_stations env w) as [[stations|e] w'];
    cbn [snd] in Ht, Hr; do 2 eexists;
    (split; [reflexivity|]); cbn [headers statusCode create_response];
    repeat split; auto.
Qed.

Lemma handle_get_station_by_id_outcome (event : Event) (w : World) :
  exists response w',
    handle_get_station_by_id (read_env env) event w = (Ok response, w') /\
    headers response = default_headers /\
    (statusCode response = 200 \/ statusCode response = 400 \/
     statusCode response = 404 \/ statusCode response = 500) /\
    table w' = table w /\ (reads w <= reads w')%nat.
Proof.
  unfold handle_get_station_by_id, eff_try, eff_bind, eff_lift, eff_ret.
  destruct (path_station_id event) as [[[|c sid]|]|e];
    try (do 2 eexists; split; [reflexivity|];
         cbn [headers statusCode create_response]; repeat split; auto; fail).
  unfold get_station_by_id, eff_try, eff_bind, get_item, eff_ret, eff_raise,
    eff_lift.
  destruct (dynamodb_read_fault (read_env env) (reads w)) as [e|].
  { do 2 eexists; split; [reflexivity|].
    cbn [headers statusCode create_response table reads].
    repeat split; auto. }
  destruct (table w !! String c sid) as [item|].
  - destruct (decimal_to_float (VDict item)) as [station|e] eqn:Hconv.
    + rewrite decimal_to_float_dict in Hconv.
      destruct (convert_dict item) as [d'|e']; [|discriminate].
      cbn [res_bind] in Hconv. injection Hconv as <-.
      do 2 eexists; split; [reflexivity|].
      cbn [headers statusCode create_response table reads].
      repeat split; auto.
    + do 2 eexists; split; [reflexivity|].
      cbn [headers statusCode create_response table reads].
      repeat split; auto.
  - do 2 eexists; split; [reflexivity|].
    cbn [headers statusCode create_response table reads].
    repeat split; auto.
Qed.

Lemma lambda_handler_unfold (event : Event) (w : World) :
  lambda_handler env event w
  = if String.eqb (httpMethod event) "OPTIONS"
    then (Ok (handle_options event), w)
    else if String.eqb (httpMethod event) "GET" then
      if String.eqb (path event) "/stations"
      then handle_get_stations env event w
      else if String.prefix "/stations/" (path event)
      then handle_get_station_by_id (read_env env) event w
      else (Ok (create_response 404
                  (VDict [("error", VStr "Not found");
                          ("message",
                           VStr ("Path " ++ path event ++ " not found"))])),
            w)
    else (Ok (create_response 405
                (VDict [("error", VStr "Method not allowed");
                        ("message",
                         VStr ("Method " ++ httpMethod event
                               ++ " not supported"))])),
          w).
Proof.
  unfold lambda_handler, eff_try.
  destruct (String.eqb (httpMethod event) "OPTIONS"); [reflexivity|].
  destruct (String.eqb (httpMethod event) "GET"); [|reflexivity].
  destruct (String.eqb (path event) "/stations").
  - destruct (handle_get_stations_outcome event w) as (r & w' & -> & _).
    reflexivity.
  - destruct (String.prefix "/stations/" (path event)); [|reflexivity].
    destruct (handle_get_station_by_id_outcome event w) as (r & w' & -> & _).
    reflexivity.
Qed.

(** X9. Whatever the event, the store and the table hold, the query
    handler returns a response and raises nothing once its [try] is
    entered; the response carries the four CORS headers, its status code
    is one of 200, 400, 404, 405 and 500, and the table is left as it was:
    the handler only reads. *)
Theorem query_handler_always_answers (event : Event) (w : World) :
  exists response w',
    lambda_handler env event w = (Ok response, w') /\
    headers response = default_headers /\
    In (statusCode response) [200; 400; 404; 405; 500] /\
    table w' = table w /\ (reads w <= reads w')%nat.
Proof.
  rewrite lambda_handler_unfold.
  destruct (String.eqb (httpMethod event) "OPTIONS").
  { do 2 eexists. split; [reflexivity|].
    cbn. repeat split; auto. }
  destruct (String.eqb (httpMethod event) "GET").
  2:{ do 2 eexists. split; [reflexivity|].
      cbn [headers statusCode create_response]. repeat split; auto.
      cbn. auto 10. }
  destruct (String.eqb (path event) "/stations").
  { destruct (handle_get_stations_outcome event w)
      as (r & w' & -> & Hh & Hs & Ht & Hr).
    exists r, w'. repeat split; auto.
    destruct Hs as [-> | ->]; cbn; auto 10. }
  destruct (String.prefix "/stations/" (path event)).
  { destruct (handle_get_station_by_id_outcome event w)
      as (r & w' & -> & Hh & Hs & Ht & Hr).
    exists r, w'. repeat split; auto.
    destruct Hs as [-> | [-> | [-> | ->]]]; cbn; auto 10. }
  do 2 eexists. split; [reflexivity|].
  cbn [headers statusCode create_response]. repeat split; auto.
  cbn. auto 10.
Qed.

(** X10. The answer is 405 exactly when the method is neither OPTIONS nor
    GET. A request with a method other than GET, and a GET for a path that
    is neither [/stations] nor below it, are answered without a single read
    of the table; the 404 names the path. *)
Theorem requests_answered_without_a_read (event : Event) (w : World) :
  ((httpMethod event <> "OPTIONS" /\ httpMethod event <> "GET") <->
   exists response,
     fst (lambda_handler env event w) = Ok response /\
     statusCode response = 405) /\
  (httpMethod event <> "GET" -> snd (lambda_handler env event w) = w) /\
  (httpMethod event = "GET" ->
   path event <> "/stations" ->
   String.prefix "/stations/" (path event) = false ->
   lambda_handler env event w
   = (Ok (create_response 404
            (VDict [("error", VStr "Not found");
                    ("message",
                     VStr ("Path " ++ path event ++ " not found"))])),
      w)).
Proof.
  rewrite lambda_handler_unfold.
  destruct (String.eqb_spec (httpMethod event) "OPTIONS") as [Hopt|Hopt].
  { split; [split|split].
    - intros [Hno _]. congruence.
    - intros (r & Hr & Hs). cbn in Hr. injection Hr as <-. discriminate.
    - reflexivity.
    - intros Hget. rewrite Hget in Hopt. discriminate. }
  destruct (String.eqb_spec (httpMethod event) "GET") as [Hget|Hget].
  2:{ split; [split|split].
      - intros _. eexists. split; reflexivity.
      - intros _. split; assumption.
      - reflexivity.
      - intros Hget'. congruence. }
  split; [split|split].
  - intros [_ Hno]. congruence.
  - intros (r & Hr & Hs). exfalso.
    destruct (String.eqb (path event) "/stations").
    + destruct (handle_get_stations_outcome event w)
        as (r' & w' & Heq & _ & Hs' & _).
      rewrite Heq in Hr. cbn [fst] in Hr. injection Hr as ->. lia.
    + destruct (String.prefix "/stations/" (path event)).
      * destruct (handle_get_station_by_id_outcome event w)
          as (r' & w' & Heq & _ & Hs' & _).
        rewrite Heq in Hr. cbn [fst] in Hr. injection Hr as ->. lia.
      * cbn [fst] in Hr. injection Hr as <-. discriminate.
  - intros Hno. congruence.
  - intros _ Hpath Hprefix.
    destruct (String.eqb_spec (path event) "/stations") as [Hp|_];
      [congruence|].
    rewrite Hprefix. reflexivity.
Qed.

(** X11. When every request of the scan goes through and no row holds a
    decimal whose remainder by 1 cannot be taken (an infinity, a signalling
    NaN, an integer part of more than 28 digits), [GET /stations] answers
    200 with all rows of all
    pages, in the order of their delivery and each converted by
    [decimal_to_float], and with their number as [count]; the scan makes
    one request for each page, and one when the store has no page. *)
Theorem all_pages_are_listed (event : Event) (w : World) :
  let pages := scan_pages env (table w) in
  let requests := Nat.max 1 (List.length pages) in
  (forall i, (i < requests)%nat -> dynamodb_read_fault (read_env env) (reads w + i)%nat = None) ->
  Forall (fun item => contains_undivisible (VDict item) = false)
    (concat pages) ->
  exists stations,
    Forall2 (fun item station =>
               decimal_to_float (VDict item) = Ok station /\
               contains_decimal station = false)
      (concat pages) stations /\
    handle_get_stations env event w
    = (Ok (create_response 200
             (VDict [("count",
                      VInt (Z.of_nat (List.length (concat pages))));
                     ("stations", VList stations)])),
       mkWorld (table w) (reads w + requests)).
Proof.
  intros pages requests Hup Hfinite.
  destruct (convert_items_ok _ Hfinite) as (stations & Hconv & Hall).
  exists stations. split; [exact Hall|].
  unfold handle_get_stations, eff_try, eff_bind, eff_ret.
  rewrite get_all_stations_unfold, scan_remaining_ok.
  - cbn [app]. rewrite scan_requests_concat, scan_requests_length.
    fold pages. rewrite Hconv.
    rewrite <- (Forall2_length _ _ _ Hall). reflexivity.
  - rewrite scan_requests_length. exact Hup.
Qed.

(** X12. When a request of the scan fails, the first one or a later one,
    [GET /stations] answers 500 with the message
    [Failed to retrieve stations]; the pages read before are dropped and
    no further request is made. *)
Theorem failed_scan_fails_the_list (event : Event) (w : World) (j : nat)
  (e : exn) :
  (j < Nat.max 1 (List.length (scan_pages env (table w))))%nat ->
  (forall i, (i < j)%nat -> dynamodb_read_fault (read_env env) (reads w + i)%nat = None) ->
  dynamodb_read_fault (read_env env) (reads w + j)%nat = Some e ->
  fst (get_all_stations env w) = Raise e /\
  handle_get_stations env event w
  = (Ok (create_response 500
           (VDict [("error", VStr "Internal server error");
                   ("message", VStr "Failed to retrieve stations")])),
     mkWorld (table w) (S (reads w + j))).
Proof.
  intros Hj Hup Hdown.
  unfold handle_get_stations, eff_try, eff_bind, eff_ret.
  rewrite get_all_stations_unfold.
  rewrite (scan_remaining_fails _ _ _ j e);
    [split; reflexivity| |exact Hup|exact Hdown].
  rewrite scan_requests_length. exact Hj.
Qed.

(** X13. A GET below [/stations/] for a station the table holds, whose row
    has no decimal whose remainder by 1 cannot be taken (an infinity, a
    signalling NaN, an integer part of more than 28 digits), is answered
    200 with the row converted by
    [decimal_to_float] under the key [station], after one read. The id is
    taken from the path parameters: the path itself is only matched
    against the prefix. *)
Theorem stored_station_is_returned (event : Event) (w : World)
  (station_id : string) (item : dict) :
  httpMethod event = "GET" ->
  String.prefix "/stations/" (path event) = true ->
  path_station_id event = Ok (Some station_id) ->
  station_id <> "" ->
  table w !! station_id = Some item ->
  dynamodb_read_fault (read_env env) (reads w) = None ->
  contains_undivisible (VDict item) = false ->
  exists station,
    decimal_to_float (VDict item) = Ok station /\
    contains_decimal station = false /\
    lambda_handler env event w
    = (Ok (create_response 200 (VDict [("station", station)])),
       mkWorld (table w) (S (reads w))).
Proof.
  intros Hget Hprefix Hparams Hid Hrow Hup Hfinite.
  destruct (decimal_to_float_outcome (VDict item))
    as [[Hbad _]|[_ (station & Hstation & Hclean)]]; [congruence|].
  exists station. split; [exact Hstation|]. split; [exact Hclean|].
  rewrite lambda_handler_unfold, Hget. cbn [String.eqb Ascii.eqb Bool.eqb].
  destruct (String.eqb_spec (path event) "/stations") as [Hp|_].
  { rewrite Hp in Hprefix. discriminate. }
  rewrite Hprefix.
  unfold handle_get_station_by_id, eff_try, eff_bind, eff_lift, eff_ret.
  rewrite Hparams. destruct station_id as [|c sid]; [congruence|].
  unfold get_station_by_id, eff_try, eff_bind, get_item, eff_ret, eff_raise,
    eff_lift.
  rewrite Hup, Hrow, Hstation.
  rewrite decimal_to_float_dict in Hstation.
  destruct (convert_dict item) as [d'|e']; [|discriminate].
  cbn [res_bind] in Hstation. injection Hstation as <-. reflexivity.
Qed.

End Routing.

(** *** A table of two stations, delivered one row a page *)

Definition row_of (station_id : string) (available : N) : dict :=
  [("station_id", VStr station_id);
   ("battery_available", VDecimal (DecFinite false available 0));
   ("temperature", VDecimal (DecFinite false 255 (-1)));
   ("status", VStr "operational")].

Definition two_stations : World :=
  mkWorld (<["station-001" := row_of "station-001" 7]>
             (<["station-002" := row_of "station-002" 3]> ∅)) 0.

Definition row_a_page (fault : nat -> option exn) : ScanEnv :=
  mkScanEnv (mkEnv fault)
    (fun t => (fun kv => [snd kv]) <$> map_to_list t).

Definition store_up : nat -> option exn := fun _ => None.

Definition second_scan_fails : nat -> option exn :=
  fun k => match k with
           | 1%nat => Some (mkExn ClientError "ProvisionedThroughputExceeded")
           | _ => None
           end.

Definition list_event : Event := mkEvent "GET" "/stations" PathParamsMissing.

Definition station_event (station_id : string) : Event :=
  mkEvent "GET" ("/stations/" ++ station_id)
    (PathParamsMap [("station_id", station_id)]).

Lemma all_pages_are_listed_witness :
  exists stations,
    Forall2 (fun item station =>
               decimal_to_float (VDict item) = Ok station /\
               contains_decimal station = false)
      (concat (scan_pages (row_a_page store_up) (table two_stations)))
      stations /\
    handle_get_stations (row_a_page store_up) list_event two_stations
    = (Ok (create_response 200
             (VDict [("count", VInt 2); ("stations", VList stations)])),
       mkWorld (table two_stations) 2).
Proof.
  apply (all_pages_are_listed (row_a_page store_up) list_event two_stations).
  - intros i _. reflexivity.
  - vm_compute. repeat constructor.
Defined.

Lemma failed_scan_fails_the_list_witness :
  fst (get_all_stations (row_a_page second_scan_fails) two_stations)
  = Raise (mkExn ClientError "ProvisionedThroughputExceeded") /\
  handle_get_stations (row_a_page second_scan_fails) list_event two_stations
  = (Ok (create_response 500
           (VDict [("error", VStr "Internal server error");
                   ("message", VStr "Failed to retrieve stations")])),
     mkWorld (table two_stations) 2).
Proof.
  apply (failed_scan_fails_the_list (row_a_page second_scan_fails)
           list_event two_stations 1).
  - vm_compute. lia.
  - intros i Hi. destruct i; [reflexivity|lia].
  - reflexivity.
Defined.

Lemma stored_station_is_returned_witness :
  exists station,
    decimal_to_float (VDict (row_of "station-002" 3)) = Ok station /\
    contains_decimal station = false /\
    lambda_handler (row_a_page store_up) (station_event "station-002")
      two_stations
    = (Ok (create_response 200 (VDict [("station", station)])),
       mkWorld (table two_stations) 1).
Proof.
  apply (stored_station_is_returned (row_a_page store_up)
           (station_event "station-002") two_stations "station-002").
  - reflexivity.
  - reflexivity.
  - reflexivity.
  - discriminate.
  - vm_compute. reflexivity.
  - reflexivity.
  - reflexivity.
Defined.

Lemma decimal_to_float_reach_witness :
  (exists e,
     decimal_to_float
       (VDict [("battery_available", VDecimal (DecFinite false 1 30))])
     = Raise e /\ exn_class_of e = InvalidOperation) /\
  decimal_to_float (VList [VInt 1; VStr "operational"])
  = Ok (VList [VInt 1; VStr "operational"]).
Proof.
  split.
  - apply (proj1 (decimal_to_float_reach
                    (VDict [("battery_available",
                             VDecimal (DecFinite false 1 30))]))).
    reflexivity.
  - apply (proj1 (proj2 (proj2 (decimal_to_float_reach
                                  (VList [VInt 1; VStr "operational"]))))).
    reflexivity.
Defined.

Lemma requests_answered_without_a_read_witness :
  snd (lambda_handler (row_a_page store_up)
         (mkEvent "POST" "/stations" PathParamsMissing) two_stations)
  = two_stations /\
  lambda_handler (row_a_page store_up)
    (mkEvent "GET" "/health" PathParamsMissing) two_stations
  = (Ok (create_response 404
           (VDict [("error", VStr "Not found");
                   ("message", VStr "Path /health not found")])),
     two_stations).
Proof.
  split.
  - apply (proj1 (proj2 (requests_answered_without_a_read
                           (row_a_page store_up)
                           (mkEvent "POST" "/stations" PathParamsMissing)
                           two_stations))).
    discriminate.
  - apply (proj2 (proj2 (requests_answered_without_a_read
                           (row_a_page store_up)
                           (mkEvent "GET" "/health" PathParamsMissing)
                           two_stations)));
      [reflexivity|discriminate|reflexivity].
Defined.

End ApiExtras.

(* ===================================================================== *)
(** ** The ingest handler beyond the accepted record *)
(* ===================================================================== *)

Module TelemetryExtras.
Import PyFloat Py PyFacts TelemetryHandler TelemetryHandlerFacts.
Import ConversionExtras Examples.

Section Validator.
Context `{DatetimeModule}.

(** X14. The verdict and the reason depend on nothing but what the record
    holds under [station_id], [battery_available] and [timestamp]: two
    records that agree there are judged alike, whatever else they hold.
    [battery_charging], [temperature], [humidity], [status] and the other
    optional fields are never looked at. *)
Theorem validator_reads_three_fields (data other : dict) :
  (forall field, In field required_fields ->
                 dict_get field data = dict_get field other) ->
  validate_telemetry data = validate_telemetry other.
Proof.
  intros Hsame. rewrite !validate_telemetry_unfold.
  rewrite (Hsame "station_id"), (Hsame "battery_available"),
    (Hsame "timestamp"); [reflexivity| | |]; cbn; auto.
Qed.

(** X15. The required fields are looked for in the order [station_id],
    [battery_available], [timestamp], and the reason names the first one
    that is missing, also when others are missing or wrong; a field that
    is present with the value [None] is not missing. *)
Theorem first_missing_field_is_named (data : dict) :
  (dict_mem "station_id" data = false ->
   validate_telemetry data = Ok (false, Some (msg_missing "station_id"))) /\
  (dict_mem "station_id" data = true ->
   dict_mem "battery_available" data = false ->
   validate_telemetry data
   = Ok (false, Some (msg_missing "battery_available"))) /\
  (dict_mem "station_id" data = true ->
   dict_mem "battery_available" data = true ->
   dict_mem "timestamp" data = false ->
   validate_telemetry data = Ok (false, Some (msg_missing "timestamp"))) /\
  (dict_get "station_id" data = Some VNone ->
   dict_mem "battery_available" data = true ->
   dict_mem "timestamp" data = true ->
   validate_telemetry data = Ok (false, Some msg_station_id)).
Proof.
  rewrite validate_telemetry_unfold. unfold dict_mem.
  destruct (dict_get "station_id" data) as [sid|];
    destruct (dict_get "battery_available" data) as [b|];
    destruct (dict_get "timestamp" data) as [ts|];
    repeat split; intros; try discriminate; try reflexivity.
  match goal with Hnone : Some _ = Some VNone |- _ => injection Hnone as -> end.
  reflexivity.
Qed.

(** X16. A record is accepted exactly when its [station_id] is a string
    that is not blank, its [battery_available] is an int, a bool or a
    float that is not below 0, and its [timestamp] is a string that
    [fromisoformat] reads once every [Z] in it is replaced by [+00:00]. *)
Theorem validator_accepts_exactly (data : dict) :
  validate_telemetry data = Ok (true, None) <->
  exists sid b ts dt,
    dict_get "station_id" data = Some (VStr sid) /\
    strip sid <> "" /\
    dict_get "battery_available" data = Some b /\
    isinstance_int_float b = true /\ lt_zero b = false /\
    dict_get "timestamp" data = Some (VStr ts) /\
    fromisoformat (replace_char "Z" "+00:00" ts) = Some dt.
Proof.
  split.
  - intros Hvalid.
    destruct (validate_accepts_inv data None Hvalid)
      as (_ & sid & b & ts & dt & Hs & Hstrip & Hb & Hnum & Hneg & Ht & Hdt & _).
    exists sid, b, ts, dt. repeat split; assumption.
  - intros (sid & b & ts & dt & Hs & Hstrip & Hb & Hnum & Hneg & Ht & Hdt).
    rewrite validate_telemetry_unfold, Hs, Hb, Ht, Hdt, Hnum, Hneg.
    cbn [isinstance_str strip_method truthy negb orb].
    apply String.eqb_neq in Hstrip. rewrite Hstrip. reflexivity.
Qed.

Lemma validate_telemetry_outcome (data : dict) :
  (exists verdict reason, validate_telemetry data = Ok (verdict, reason)) \/
  validate_telemetry data = Raise bytes_replace_error.
Proof.
  rewrite validate_telemetry_unfold.
  destruct (dict_get "station_id" data) as [sid|]; [|eauto].
  destruct (dict_get "battery_available" data) as [b|]; [|eauto].
  destruct (dict_get "timestamp" data) as [ts|]; [|eauto].
  destruct (_ || _); [eauto|]. destruct (_ || _); [eauto|].
  destruct ts; eauto. destruct (fromisoformat _); eauto.
Qed.

End Validator.

Section Handler.
Context `{DatetimeModule} `{DecimalModule}.
Variable env : Env.

Lemma convert_value_is_str (v : value) (sid : string) :
  convert_value v = VStr sid -> v = VStr sid.
Proof. destruct v; cbn [convert_value]; intros Heq; congruence. Qed.

Lemma stored_item_station_id (data : dict) (w : World) :
  dict_get "station_id" (stored_item env data w)
  = convert_value <$> dict_get "station_id" data.
Proof.
  unfold stored_item. rewrite dict_get_set_ne by discriminate.
  unfold convert_floats_to_decimal. apply dict_get_map_values.
Qed.

(** X17. Whatever the event, the clock, the uuids and the two stores do,
    the ingest handler returns a response and raises nothing once its
    [try] is entered, with one of the status codes 200, 207, 400 and 500. It sends either nothing or one
    [put_item] followed by one [put_object]; no row of the table other
    than the one of the event's own [station_id] changes, and no object of
    the bucket other than the one under the key it sent. *)
Theorem ingest_handler_always_answers (event : dict) (w : World) :
  exists response w' sent,
    lambda_handler env event w = (Ok response, w') /\
    In (statusCode response) [200; 207; 400; 500] /\
    calls w' = (calls w ++ sent)%list /\
    (sent = [] \/
     exists item key obj, sent = [CallPutItem item; CallPutObject key obj]) /\
    (forall sid, dict_get "station_id" event <> Some (VStr sid) ->
                 table w' !! sid = table w !! sid) /\
    (forall key, ~ In key (put_object_keys sent) ->
                 bucket w' !! key = bucket w !! key).
Proof.
  destruct (validate_telemetry_outcome event)
    as [([|] & reason & Hverdict)|Hraise].
  - destruct (validate_accepts_inv event reason Hverdict)
      as (-> & sid & b & ts & dt & Hs & _ & _ & _ & _ & _ & _ & Hparse).
    rewrite (lambda_handler_accepted env event sid dt w Hverdict Hs Hparse).
    cbn zeta. do 3 eexists. split; [reflexivity|].
    split.
    { unfold success_response, three_way_status. cbn [statusCode].
      destruct (fast_write_ok env w), (archive_write_ok env _); cbn; auto. }
    unfold after_clock, after_archive, after_store.
    cbn [table bucket calls clock_reads uuid_draws dynamodb_calls s3_calls].
    split; [rewrite <- app_assoc; reflexivity|].
    split; [right; do 3 eexists; reflexivity|].
    split.
    + intros sid' Hother. destruct (fast_write_ok env w); [|reflexivity].
      apply lookup_insert_ne. congruence.
    + intros key Hother. cbn [app put_object_keys flat_map In] in Hother.
      match goal with
      | |- (if ?c then _ else _) !! _ = _ => destruct c; [|reflexivity]
      end.
      apply lookup_insert_ne. intros Heq. apply Hother. left. exact Heq.
  - rewrite (lambda_handler_rejected env event reason w Hverdict).
    exists (mkResponse 400
              (json_dumps None
                 (VDict [("error", VStr "Validation failed");
                         ("message", option_str reason)]))), w, [].
    split; [reflexivity|]. split; [cbn; auto|].
    split; [rewrite app_nil_r; reflexivity|].
    split; [left; reflexivity|]. split; reflexivity.
  - exists (mkResponse 500
              (json_dumps None
                 (VDict [("error", VStr "Internal server error");
                         ("message",
                          VStr (exn_message bytes_replace_error))]))), w, [].
    split.
    { unfold lambda_handler, eff_try, lambda_handler_try, eff_bind, eff_lift.
      rewrite Hraise. reflexivity. }
    split; [cbn; auto 10|].
    split; [rewrite app_nil_r; reflexivity|].
    split; [left; reflexivity|]. split; reflexivity.
Qed.

(** X18. Each of the two writes, on any record and called on its own,
    returns a boolean that tells what the store holds afterwards.
    [store_in_dynamodb] makes one request and leaves the bucket alone; it
    returns [True] exactly when the table now holds the converted record,
    stamped with the processing time, under the record's [station_id], and
    on [False] the table is as before. [archive_to_s3] leaves the table
    alone; it returns [True] exactly when the bucket now holds the record
    under the key built from its station id, timestamp and a fresh uuid,
    and on [False] the bucket is as before; when the timestamp does not
    parse or the record has no [station_id], nothing at all happens: no
    uuid is drawn and no request is sent. *)
Theorem write_result_tells_the_store (data : dict) (w : World) :
  (exists b w',
     store_in_dynamodb env data w = (Ok b, w') /\
     bucket w' = bucket w /\
     dynamodb_calls w' = S (dynamodb_calls w) /\
     if b
     then exists sid,
            dict_get "station_id" data = Some (VStr sid) /\
            table w' = <[sid := stored_item env data w]> (table w)
     else table w' = table w) /\
  (exists b w',
     archive_to_s3 env data w = (Ok b, w') /\
     table w' = table w /\
     if b
     then exists sid dt,
            dict_get "station_id" data = Some (VStr sid) /\
            parse_timestamp data = Ok dt /\
            bucket w'
            = <[archive_key env sid dt w := archived_object env data sid w]>
                (bucket w)
     else bucket w' = bucket w) /\
  ((exists e, parse_timestamp data = Raise e) \/
   dict_get "station_id" data = None ->
   archive_to_s3 env data w = (Ok false, w)).
Proof.
  split; [|split].
  - unfold store_in_dynamodb, eff_try, store_in_dynamodb_try, eff_bind,
      utcnow_isoformat, put_item, eff_lift, eff_ret, dict_getitem.
    cbn [table bucket calls clock_reads uuid_draws dynamodb_calls s3_calls].
    fold (stored_item env data w).
    destruct (dynamodb_fault env (dynamodb_calls w)) as [e|].
    { do 2 eexists. split; [reflexivity|]. repeat split. }
    rewrite stored_item_station_id.
    destruct (dict_get "station_id" data) as [v|] eqn:Hv; cbn [fmap option_fmap option_map].
    2:{ do 2 eexists. split; [reflexivity|]. repeat split. }
    destruct (convert_value v) as [| | | |sid| | | |] eqn:Hconv;
      try (do 2 eexists; split; [reflexivity|]; repeat split; fail).
    apply convert_value_is_str in Hconv. subst v.
    do 2 eexists. split; [reflexivity|].
    cbn [table bucket dynamodb_calls]. repeat split.
    exists sid. split; reflexivity.
  - unfold archive_to_s3, eff_try, archive_to_s3_try, eff_bind, eff_lift,
      uuid4_hex, utcnow_isoformat, put_object, eff_ret, eff_raise,
      dict_getitem.
    destruct (parse_timestamp data) as [dt|e].
    2:{ do 2 eexists. split; [reflexivity|]. split; reflexivity. }
    destruct (dict_get "station_id" data) as [v|].
    2:{ do 2 eexists. split; [reflexivity|]. split; reflexivity. }
    cbn [table bucket calls clock_reads uuid_draws dynamodb_calls s3_calls].
    destruct v as [| | | |sid| | | |];
      try (do 2 eexists; split; [reflexivity|]; split; reflexivity).
    cbn [table bucket calls clock_reads uuid_draws dynamodb_calls s3_calls].
    destruct (s3_fault env (s3_calls w)) as [e|].
    { do 2 eexists. split; [reflexivity|]. split; reflexivity. }
    do 2 eexists. split; [reflexivity|]. split; [reflexivity|].
    exists sid, dt. repeat split.
  - unfold archive_to_s3, eff_try, archive_to_s3_try, eff_bind, eff_lift,
      eff_ret, dict_getitem.
    intros [[e ->]|Hmissing]; [reflexivity|].
    destruct (parse_timestamp data); [|reflexivity].
    rewrite Hmissing. reflexivity.
Qed.

End Handler.

(** A record with more than the required fields, and the same record with
    other readings. *)
Definition full_record : dict :=
  [("station_id", VStr "station-01");
   ("battery_available", VInt 12);
   ("battery_charging", VInt 8);
   ("status", VStr "operational");
   ("timestamp", VStr "2024-01-15T14:23:45Z")].

Definition odd_record : dict :=
  [("timestamp", VStr "2024-01-15T14:23:45Z");
   ("battery_available", VInt 12);
   ("battery_charging", VInt (-40));
   ("status", VInt 0);
   ("station_id", VStr "station-01")].

Lemma validator_reads_three_fields_witness :
  validate_telemetry full_record = validate_telemetry odd_record.
Proof.
  apply (validator_reads_three_fields full_record odd_record).
  intros field [<-|[<-|[<-|[]]]]; reflexivity.
Defined.

Lemma first_missing_field_is_named_witness :
  validate_telemetry [("timestamp", VInt 0)]
  = Ok (false, Some (msg_missing "station_id")) /\
  validate_telemetry [("station_id", VNone)]
  = Ok (false, Some (msg_missing "battery_available")).
Proof.
  split.
  - apply (proj1 (first_missing_field_is_named [("timestamp", VInt 0)])).
    reflexivity.
  - apply (proj1 (proj2 (first_missing_field_is_named [("station_id", VNone)])));
      reflexivity.
Defined.

Lemma validator_accepts_exactly_witness :
  validate_telemetry odd_record = Ok (true, None).
Proof.
  apply (proj2 (validator_accepts_exactly odd_record)).
  exists "station-01", (VInt 12), "2024-01-15T14:23:45Z".
  eexists. repeat split; try reflexivity. discriminate.
Defined.

Lemma write_result_tells_the_store_witness :
  archive_to_s3 spread_uuids_env epoch_timestamp_record empty_world
  = (Ok false, empty_world).
Proof.
  apply (proj2 (proj2 (write_result_tells_the_store spread_uuids_env
                         epoch_timestamp_record empty_world))).
  left. eexists. reflexivity.
Defined.

End TelemetryExtras.
